(** * Order management handlers: a shallow embedding and its properties

    The repository is a set of AWS Lambda handlers written in JavaScript:
    - order intake, [src/handlers/httpCreateOrder.mjs]
      ([validateOrderData], [handler]);
    - read by id, [src/handlers/httpGetOrder.mjs] ([isValidUUID], [handler]);
    - the list handler ([parseQueryParameters], [handler]);
    - the order processor ([processOrderCreated] and the SQS batch
      [handler]);
    - the health check, [src/handlers/healthCheck.mjs].

    The handlers work on duck-typed JSON payloads, so the embedding starts
    with a small model of the JavaScript values and coercions the handlers
    use (module [JS]).  Each handler is then one module whose definitions
    follow the source statement by statement; the properties come after all
    definitions, one module of facts per handler.

    Conventions of the model:
    - JavaScript numbers are IEEE 754 binary64 doubles ([float], with its
      rounding, infinities, signed zero and NaN); the element counts the
      runtime itself produces (the [length] of an array or of a string) are
      kept as natural numbers, which they denote exactly.
    - A string is a sequence of code units below 256 (Latin-1).
    - A text that the code only hands to [JSON.parse] is represented by the
      outcome of that call ([JsonText]).
    - The store (DynamoDB) is a finite map from the string key [id] to the
      item's attributes; whether a call faults, the clock and the generated
      identifier are inputs of the handlers.
    - The handlers use the clients of the AWS SDK for JavaScript v3, whose
      exceptions carry a [name] and no [code].
    - [console.log] output is modelled only in the list handler, where a
      property speaks about it; everywhere else logging is dropped (it never
      changes control flow, except for the one argument expression of the
      create handler that can throw, which is kept). *)

From Stdlib Require Import ZArith QArith Qround String Ascii List Bool
  Lia DecimalString DecimalFacts DecimalNat Floats.
From stdpp Require Import base option list gmap strings.
Import ListNotations.

Local Open Scope string_scope.
Set Warnings "-register-all,-inexact-float".

(* ====================================================================== *)
(** ** JavaScript values, coercions and exceptions                        *)
(* ====================================================================== *)

Module JS.

(** A JavaScript number.  [Double f] is the binary64 value [f]: the numbers
    of a JSON payload and the results of the arithmetic are of this form.
    [Count n] is a whole number the program itself supplies: the [length]
    of an array or of a string (below 2^32), or one of the small integer
    literals of the source.  It stands for the double of the same value,
    see [toDouble]. *)
Inductive number : Type :=
| Count (n : nat)
| Double (f : float).

(** The double a number is; exact for a count (every integer below 2^53 is
    a double). *)
Definition toDouble (n : number) : float :=
  match n with
  | Count k => PrimFloat.of_uint63 (Uint63.of_Z (Z.of_nat k))
  | Double f => f
  end.

Definition NaN : number := Double PrimFloat.nan.

(** The value of a finite double, as a rational. *)
Definition exactValue (x : float) : Q :=
  match Prim2SF x with
  | S754_finite negative m e =>
      ((if negative then -1 else 1) * inject_Z (Z.pos m) * 2 ^ e)%Q
  | _ => 0%Q
  end.

(** The values JSON payloads and the handlers' locals range over. *)
Inductive value : Type :=
| VUndefined
| VNull
| VBool (b : bool)
| VNumber (n : number)
| VString (s : string)
| VArray (elems : list value)
| VObject (props : list (string * value)).

(** What a [throw] carries: an error of the language, or the exception of
    an AWS client with its [name]. *)
Inductive exn : Type :=
| TypeError
| SyntaxError
| AwsError (name : string).

(** [error.code], the only property of an error the handlers inspect.  An
    exception of the SDK v3 clients has [name], [message], [$fault] and
    [$metadata] and no [code], and neither has a [TypeError] or a
    [SyntaxError]: the property is [undefined] on everything the handlers
    catch. *)
Definition error_code (e : exn) : option string :=
  match e with
  | TypeError | SyntaxError => None
  | AwsError _ => None
  end.

(** Result of evaluating an expression that may throw. *)
Inductive result (A : Type) : Type :=
| Ok (a : A)
| Throw (e : exn).
Arguments Ok {A} a.
Arguments Throw {A} e.

Definition bind {A B : Type} (c : result A) (k : A -> result B) : result B :=
  match c with
  | Ok a => k a
  | Throw e => Throw e
  end.

Notation "'let*' x ':=' c 'in' k" := (bind c (fun x => k))
  (at level 10, x pattern, c at level 100, k at level 200).

(** The outcome of [JSON.parse] on a text. *)
Inductive JsonText : Type :=
| Unparsable
| Json (v : value).

Definition JSON_parse (t : JsonText) : result value :=
  match t with
  | Unparsable => Throw SyntaxError
  | Json v => Ok v
  end.

(** The literal [0]. *)
Definition zero : number := Count 0.

Definition of_nat (n : nat) : number := Count n.

(** ToBoolean: among the numbers, [+0], [-0] and [NaN] are falsy. *)
Definition truthy (v : value) : bool :=
  match v with
  | VUndefined | VNull => false
  | VBool b => b
  | VNumber (Count n) => negb (n =? 0)%nat
  | VNumber (Double f) => negb (PrimFloat.eqb f 0%float || PrimFloat.is_nan f)
  | VString s => negb (String.eqb s "")
  | VArray _ | VObject _ => true
  end.

(** [a || b]. *)
Definition or_else (a b : value) : value := if truthy a then a else b.

(** [typeof v]. *)
Definition typeof (v : value) : string :=
  match v with
  | VUndefined => "undefined"
  | VNull => "object"
  | VBool _ => "boolean"
  | VNumber _ => "number"
  | VString _ => "string"
  | VArray _ | VObject _ => "object"
  end.

(** Own property of an object literal; the first binding of a key is the
    object's property. *)
Fixpoint lookupProp (k : string) (props : list (string * value)) : value :=
  match props with
  | [] => VUndefined
  | (k', v) :: rest => if String.eqb k k' then v else lookupProp k rest
  end.

(** [v.k] for the property names the handlers read ([type], [detail], [id],
    [customerName], [items], [sku], [qty], [price], [length]): reading a
    property of [null] or [undefined] throws, arrays and strings have a
    [length], everything else is looked up among the own properties. *)
Definition getProp (v : value) (k : string) : result value :=
  match v with
  | VUndefined | VNull => Throw TypeError
  | VObject props => Ok (lookupProp k props)
  | VArray elems =>
      if String.eqb k "length" then Ok (VNumber (of_nat (List.length elems)))
      else Ok VUndefined
  | VString s =>
      if String.eqb k "length" then Ok (VNumber (of_nat (String.length s)))
      else Ok VUndefined
  | VBool _ | VNumber _ => Ok VUndefined
  end.

(** [v?.k]. *)
Definition getPropOpt (v : value) (k : string) : value :=
  match getProp v k with
  | Ok x => x
  | Throw _ => VUndefined
  end.

(** [a + b] and [a * b]: the binary64 operations, rounding to nearest. *)
Definition num_add (a b : number) : number :=
  Double (PrimFloat.add (toDouble a) (toDouble b)).

Definition num_mul (a b : number) : number :=
  Double (PrimFloat.mul (toDouble a) (toDouble b)).

(** [a > b], [a < b] and [a <= b] on numbers: the comparisons of binary64
    (any comparison with [NaN] is false), which on two counts are those of
    the natural numbers. *)
Definition num_gt (a b : number) : bool :=
  match a, b with
  | Count x, Count y => (y <? x)%nat
  | _, _ => PrimFloat.ltb (toDouble b) (toDouble a)
  end.

Definition num_lt (a b : number) : bool := num_gt b a.

Definition num_le (a b : number) : bool :=
  match a, b with
  | Count x, Count y => (x <=? y)%nat
  | _, _ => PrimFloat.leb (toDouble a) (toDouble b)
  end.

(** [Array.prototype.reduce] with an initial value and a callback that may
    throw. *)
Fixpoint reduce {A : Type} (f : A -> value -> result A) (elems : list value)
  (acc : A) : result A :=
  match elems with
  | [] => Ok acc
  | x :: rest => let* acc' := f acc x in reduce f rest acc'
  end.

Section Coercions.

(** ToNumber of a string, an array or an object goes through string
    parsing ([StringToNumber] of the value's string form).  None of the
    properties below depends on its result, so it is a parameter. *)
Variable toNumberOther : value -> number.

Definition ToNumber (v : value) : number :=
  match v with
  | VUndefined => NaN
  | VNull => zero
  | VBool true => Count 1
  | VBool false => zero
  | VNumber n => n
  | VString _ | VArray _ | VObject _ => toNumberOther v
  end.

(** [v > n] for a numeric literal [n]. *)
Definition gt_literal (v : value) (n : number) : bool := num_gt (ToNumber v) n.

(** The callback shared by the three handlers that total an order:
    [(sum, item) => sum + ((item.price || 0) * (item.qty || 0))]. *)
Definition addLine (sum : number) (item : value) : result number :=
  let* price := getProp item "price" in
  let* qty := getProp item "qty" in
  Ok (num_add sum
        (num_mul (ToNumber (or_else price (VNumber zero)))
                 (ToNumber (or_else qty (VNumber zero))))).

End Coercions.

(** A coercion for closed examples in which no string, array or object is
    ever used as a number. *)
Definition noCoercion (v : value) : number := NaN.

End JS.

(* ====================================================================== *)
(** ** The order value the specification speaks about                     *)
(* ====================================================================== *)

Module OrderValue.
Import JS.

(** A numeric field that may be missing: a number, or absent/null. *)
Definition numberOrMissing (v : value) : bool :=
  match v with
  | VUndefined | VNull | VNumber _ => true
  | _ => false
  end.

(** The field as a number, a missing field counting as 0 (and so does a
    field that holds a zero, or the NaN that JSON cannot carry). *)
Definition fieldOrZero (v : value) : number :=
  match v with
  | VNumber n => if truthy v then n else zero
  | _ => zero
  end.

(** A line item as the data model has it: an object whose [qty] and
    [price] are numbers when present. *)
Definition wellTypedItem (item : value) : bool :=
  match item with
  | VObject props =>
      numberOrMissing (lookupProp "qty" props)
      && numberOrMissing (lookupProp "price" props)
  | _ => false
  end.

Definition wellTypedItems (items : list value) : bool := forallb wellTypedItem items.

(** qty x price of one line, a missing qty or price counting as 0. *)
Definition specLineValue (item : value) : number :=
  num_mul (fieldOrZero (getPropOpt item "qty")) (fieldOrZero (getPropOpt item "price")).

(** The lines of [items] added to [sum] one after the other. *)
Fixpoint specTotalFrom (sum : number) (items : list value) : number :=
  match items with
  | [] => sum
  | item :: rest => specTotalFrom (num_add sum (specLineValue item)) rest
  end.

(** The total value of an order: the sum of qty x price over its items,
    taken in the order of the items starting from 0, in the arithmetic of
    the numbers (binary64). *)
Definition specTotalValue (items : list value) : number := specTotalFrom zero items.

(** The amount 10000 of the value rule. *)
Definition tenThousand : number := Double 10000%float.

(** For comparison, the same total in exact arithmetic: the sum of the
    exact products of the (finite) quantities and prices. *)
Definition exactNumber (n : number) : Q :=
  match n with
  | Count k => inject_Z (Z.of_nat k)
  | Double x => exactValue x
  end.

Fixpoint exactTotalValue (items : list value) : Q :=
  match items with
  | [] => 0
  | item :: rest =>
      exactNumber (fieldOrZero (getPropOpt item "qty"))
      * exactNumber (fieldOrZero (getPropOpt item "price"))
      + exactTotalValue rest
  end.

End OrderValue.

(* ====================================================================== *)
(** ** The order processor: business rules                                *)
(* ====================================================================== *)

Module Processor.
Import JS OrderValue.

Definition CONFIRMED : string * string :=
  ("CONFIRMED", "Order processed successfully").
Definition PENDING_REVIEW : string * string :=
  ("PENDING_REVIEW", "Large order requires manual review").
Definition PENDING_APPROVAL : string * string :=
  ("PENDING_APPROVAL", "High-value order requires approval").

(** A DynamoDB item: its attributes by name. *)
Abbreviation Item := (list (string * value)).

(** The orders table, keyed by the string attribute [id]. *)
Abbreviation table := (gmap string Item).

(** [SET #k = :v] on one attribute. *)
Fixpoint setAttr (k : string) (v : value) (attrs : Item) : Item :=
  match attrs with
  | [] => [(k, v)]
  | (k', v') :: rest =>
      if String.eqb k k' then (k, v) :: rest else (k', v') :: setAttr k v rest
  end.

(** An SQS record: its message id and its body as [JSON.parse] sees it. *)
Record SQSRecord : Type := {
  messageId : string;
  body : JsonText
}.

(** What the surroundings answer while the [i]-th record of a batch is
    processed: the name of the exception with which the store faults, if it
    does, and the clock reading used for [updatedAt]. *)
Record Env : Type := {
  fault : nat -> option string;
  now : nat -> string
}.

Section Rules.

Variable toNumberOther : value -> number.

(** [items?.reduce(...) || 0]: the optional call is skipped for a nullish
    [items]; on anything that is not an array, [items.reduce] is not a
    function and the call throws. *)
Definition totalValue (items : value) : result number :=
  match items with
  | VUndefined | VNull => Ok zero
  | VArray elems =>
      let* sum := reduce (addLine toNumberOther) elems zero in
      Ok (if truthy (VNumber sum) then sum else zero)
  | _ => Throw TypeError
  end.

(** [processOrderCreated(orderDetail)]: the pair [(newStatus,
    processingNotes)]. *)
Definition processOrderCreated (orderDetail : value) : result (string * string) :=
  let* items := getProp orderDetail "items" in
  let outcome := CONFIRMED in
  let* outcome :=
    if truthy items then
      let* len := getProp items "length" in
      Ok (if gt_literal toNumberOther len (Count 10) then PENDING_REVIEW else outcome)
    else Ok outcome in
  let* total := totalValue items in
  Ok (if num_gt total (Double 10000%float) then PENDING_APPROVAL else outcome).

(** *** The SQS batch handler *)

(** The try block of one record ends in one of these places; all but
    [Updated] are followed by
    [batchItemFailures.push({ itemIdentifier: messageId })]. *)
Inductive branch : Type :=
| ParseError          (* "Don't retry parsing errors - send to DLQ" *)
| InvalidStructure    (* "Don't retry structural errors - send to DLQ" *)
| MissingOrderId
| UnknownType         (* "Unknown message types should not be retried" *)
| OrderNotFound       (* "Don't retry if order doesn't exist" *)
| StoreValidation     (* "Don't retry validation errors" *)
| Transient           (* "Transient errors should be retried" *)
| Updated.

(** [messageBody.type === 'OrderCreated']. *)
Definition isOrderCreated (type : value) : bool :=
  match type with
  | VString s => String.eqb s "OrderCreated"
  | _ => false
  end.

(** [ddbDocClient.send(new UpdateCommand(updateParams))]: the three SET
    attributes are written when the service does not fault, the key is a
    string (the table's hash key [id] is a string attribute) and the
    condition [attribute_exists(id)] holds. *)
Definition ddbUpdate (fault : option string) (tbl : table) (key : value)
  (status updatedAt notes : string) : result table :=
  match fault with
  | Some name => Throw (AwsError name)
  | None =>
      match key with
      | VString id =>
          match tbl !! id with
          | Some stored =>
              Ok (<[id := setAttr "processingNotes" (VString notes)
                            (setAttr "updatedAt" (VString updatedAt)
                               (setAttr "status" (VString status) stored))]> tbl)
          | None => Throw (AwsError "ConditionalCheckFailedException")
          end
      | _ => Throw (AwsError "ValidationException")
      end
  end.

(** The body of the [try] block of the loop.  ([messageBody.type] and
    [messageBody.detail] can only throw when [messageBody] is [null], and
    then the first read already does, so both are read up front.) *)
Definition tryRecord (fault : option string) (now : string) (tbl : table)
  (record : SQSRecord) : result (branch * table) :=
  match JSON_parse (body record) with
  | Throw _ => Ok (ParseError, tbl)
  | Ok messageBody =>
      let* type := getProp messageBody "type" in
      let* detail := getProp messageBody "detail" in
      if negb (truthy type) || negb (truthy detail) then Ok (InvalidStructure, tbl)
      else if isOrderCreated type then
        let orderId := getPropOpt detail "id" in
        if negb (truthy orderId) then Ok (MissingOrderId, tbl)
        else
          let* outcome := processOrderCreated detail in
          let* tbl' := ddbUpdate fault tbl orderId (fst outcome) now (snd outcome) in
          Ok (Updated, tbl')
      else Ok (UnknownType, tbl)
  end.

(** The [catch] block, which tells its cases apart by [error.code]; the
    three cases differ in what they log only. *)
Definition catchRecord (e : exn) : branch :=
  match error_code e with
  | Some code =>
      if String.eqb code "ConditionalCheckFailedException" then OrderNotFound
      else if String.eqb code "ValidationException" then StoreValidation
      else Transient
  | None => Transient
  end.

Definition processRecord (fault : option string) (now : string) (tbl : table)
  (record : SQSRecord) : branch * table :=
  match tryRecord fault now tbl record with
  | Ok r => r
  | Throw e => (catchRecord e, tbl)
  end.

(** Whether the branch pushes the message id onto [batchItemFailures]. *)
Definition pushesFailure (b : branch) : bool :=
  match b with
  | ParseError => true
  | InvalidStructure => true
  | MissingOrderId => true
  | UnknownType => true
  | OrderNotFound => true
  | StoreValidation => true
  | Transient => true
  | Updated => false
  end.

(** [for (const record of event.Records)], the [i]-th record being
    processed with the environment's answers for position [i]. *)
Fixpoint processRecords (env : Env) (i : nat) (records : list SQSRecord)
  (tbl : table) (batchItemFailures : list string) : table * list string :=
  match records with
  | [] => (tbl, batchItemFailures)
  | record :: rest =>
      let '(b, tbl') := processRecord (fault env i) (now env i) tbl record in
      processRecords env (S i) rest tbl'
        (if pushesFailure b then batchItemFailures ++ [messageId record]
         else batchItemFailures)
  end.

(** [handler(event)]: the table after the batch and the [itemIdentifier]s of
    the returned [batchItemFailures]. *)
Definition handler (env : Env) (records : list SQSRecord) (tbl : table)
  : table * list string :=
  processRecords env 0 records tbl [].

End Rules.

(** The identifiers the batch would report if every record were processed
    alone against the table [tbl]. *)
Fixpoint failedAlone (toNumberOther : value -> number) (env : Env)
  (tbl : table) (i : nat) (records : list SQSRecord) : list string :=
  match records with
  | [] => []
  | record :: rest =>
      (if pushesFailure
            (fst (processRecord toNumberOther (fault env i) (now env i) tbl record))
       then [messageId record] else [])
      ++ failedAlone toNumberOther env tbl (S i) rest
  end.

(** Two tables hold the same orders, whatever their attributes. *)
Definition sameKeys (t1 t2 : table) : Prop :=
  forall k : string, is_Some (t1 !! k) <-> is_Some (t2 !! k).

(** What the comments of the handler say about a branch: is the message
    meant to be delivered again? *)
Definition meantToBeRetried (b : branch) : bool :=
  match b with
  | Transient => true
  | _ => false
  end.

(** The item list of an event as the specification counts it: the [items]
    array, or no items when the field is missing. *)
Definition specItems (detail : value) : option (list value) :=
  match getProp detail "items" with
  | Ok (VArray elems) => Some elems
  | Ok VUndefined | Ok VNull => Some []
  | _ => None
  end.

(** The transition rule of the specification: the value check is applied
    last and wins over the item-count check. *)
Definition ruleOutcome (count : nat) (total : number) : string * string :=
  if num_gt total tenThousand then PENDING_APPROVAL
  else if (10 <? count)%nat then PENDING_REVIEW else CONFIRMED.

(** *** Sample data *)

Definition orderCreated (detail : value) : JsonText :=
  Json (VObject [("type", VString "OrderCreated");
                 ("timestamp", VString "2024-05-01T10:00:00.000Z");
                 ("detail", detail)]).

Definition lineItem (sku : string) (qty price : float) : value :=
  VObject [("sku", VString sku); ("qty", VNumber (Double qty));
           ("price", VNumber (Double price))].

Definition pendingOrder (id customer : string) (items : list value) : Item :=
  [("id", VString id); ("customerName", VString customer);
   ("items", VArray items); ("status", VString "PENDING");
   ("createdAt", VString "2024-05-01T10:00:00.000Z");
   ("updatedAt", VString "2024-05-01T10:00:00.000Z")].

Definition detailOf (id customer : string) (items : value) : value :=
  VObject [("id", VString id); ("customerName", VString customer);
           ("items", items);
           ("createdAt", VString "2024-05-01T10:00:00.000Z")].

Definition sampleTable : table :=
  <["o1" := pendingOrder "o1" "Alice" [lineItem "x" 1 10]]>
  (<["o2" := pendingOrder "o2" "Bob" [lineItem "y" 2 5]]> ∅).

Definition calmEnv : Env :=
  {| fault := fun _ => None; now := fun _ => "2024-05-01T10:00:01.000Z" |}.

(** A batch of three messages, the second with a body that is not JSON. *)
Definition batchOfThree : list SQSRecord :=
  [ {| messageId := "m1";
       body := orderCreated (detailOf "o1" "Alice" (VArray [lineItem "x" 1 10])) |};
    {| messageId := "m2"; body := Unparsable |};
    {| messageId := "m3";
       body := orderCreated (detailOf "o2" "Bob" (VArray [lineItem "y" 2 5])) |} ].

(** A store that is throttled while the second record is processed. *)
Definition throttledSecond : Env :=
  {| fault := fun i => match i with
                       | 1%nat => Some "ProvisionedThroughputExceededException"
                       | _ => None
                       end;
     now := fun _ => "2024-05-01T10:00:01.000Z" |}.

(** A message that can never be processed followed by one that only meets
    a throttled store. *)
Definition permanentThenTransient : list SQSRecord :=
  [ {| messageId := "m1"; body := Unparsable |};
    {| messageId := "m2";
       body := orderCreated (detailOf "o1" "Alice" (VArray [lineItem "x" 1 10])) |} ].


(** Eleven items at 1 each. *)
Definition elevenCheap : list value := repeat (lineItem "x" 1 1) 11.

(** Eleven line items without [qty] and [price]. *)
Definition elevenBareItems : list value :=
  repeat (VObject [("sku", VString "x")]) 11.

Definition bareItemsMessage : SQSRecord :=
  {| messageId := "m1";
     body := orderCreated (detailOf "o1" "Alice" (VArray elevenBareItems)) |}.

(** An event whose [items] is a string. *)
Definition textItemsMessage : SQSRecord :=
  {| messageId := "m1";
     body := orderCreated (detailOf "o1" "Alice" (VString "two apples")) |}.

(** An event without [items]. *)
Definition noItemsMessage : SQSRecord :=
  {| messageId := "m1";
     body := orderCreated (VObject [("id", VString "o1")]) |}.

Definition statusOf (tbl : table) (id : string) : option value :=
  match tbl !! id with
  | Some stored => Some (lookupProp "status" stored)
  | None => None
  end.

End Processor.

(* ====================================================================== *)
(** ** Order intake: [httpCreateOrder.mjs]                                *)
(* ====================================================================== *)

Module CreateOrder.
Import JS Processor.

(** White space as [String.prototype.trim] sees it, among the code units
    below 256: TAB, LF, VT, FF, CR, SP and NBSP. *)
Definition isWhiteSpace (c : ascii) : bool :=
  let n := nat_of_ascii c in
  ((9 <=? n) && (n <=? 13) || (n =? 32) || (n =? 160))%nat.

Fixpoint trimStart (s : string) : string :=
  match s with
  | EmptyString => EmptyString
  | String c rest => if isWhiteSpace c then trimStart rest else s
  end.

Fixpoint trimEnd (s : string) : string :=
  match s with
  | EmptyString => EmptyString
  | String c rest =>
      match trimEnd rest with
      | EmptyString => if isWhiteSpace c then EmptyString else String c EmptyString
      | rest' => String c rest'
      end
  end.

(** [s.trim()]. *)
Definition trim (s : string) : string := trimEnd (trimStart s).

(** The decimal form of an array index, as a template literal prints it. *)
Definition showIndex (n : nat) : string := NilZero.string_of_uint (Nat.to_uint n).

(** The number behind a value whose [typeof] is ["number"]. *)
Definition numberOf (v : value) : number :=
  match v with
  | VNumber n => n
  | _ => NaN
  end.

Definition isUndefined (v : value) : bool :=
  match v with
  | VUndefined => true
  | _ => false
  end.

Definition customerNameMessage : string :=
  "customerName is required and must be a non-empty string".
Definition itemsMessage : string := "items must be a non-empty array".
Definition skuMessage (index : nat) : string :=
  "Item " ++ showIndex index ++ ": sku is required and must be a string".
Definition qtyMessage (index : nat) : string :=
  "Item " ++ showIndex index ++ ": qty is required and must be a positive number".
Definition priceMessage (index : nat) : string :=
  "Item " ++ showIndex index ++ ": price must be a non-negative number".

(** [!body.customerName || typeof body.customerName !== 'string' ||
     body.customerName.trim().length === 0]. *)
Definition customerNameRejected (customerName : value) : bool :=
  negb (truthy customerName)
  || negb (String.eqb (typeof customerName) "string")
  || match customerName with
     | VString s => (String.length (trim s) =? 0)%nat
     | _ => false
     end.

(** [!item.sku || typeof item.sku !== 'string']. *)
Definition skuRejected (sku : value) : bool :=
  negb (truthy sku) || negb (String.eqb (typeof sku) "string").

(** [!item.qty || typeof item.qty !== 'number' || item.qty <= 0]. *)
Definition qtyRejected (qty : value) : bool :=
  negb (truthy qty) || negb (String.eqb (typeof qty) "number")
  || num_le (numberOf qty) zero.

(** [item.price !== undefined &&
     (typeof item.price !== 'number' || item.price < 0)]. *)
Definition priceRejected (price : value) : bool :=
  negb (isUndefined price)
  && (negb (String.eqb (typeof price) "number") || num_lt (numberOf price) zero).

(** The callback of [body.items.forEach((item, index) => ...)], pushing onto
    [errors]. *)
Definition validateItem (index : nat) (item : value) (errors : list string)
  : result (list string) :=
  let* sku := getProp item "sku" in
  let errors := if skuRejected sku then (errors ++ [skuMessage index])%list else errors in
  let* qty := getProp item "qty" in
  let errors := if qtyRejected qty then (errors ++ [qtyMessage index])%list else errors in
  let* price := getProp item "price" in
  Ok (if priceRejected price then (errors ++ [priceMessage index])%list else errors).

Fixpoint validateItems (index : nat) (items : list value) (errors : list string)
  : result (list string) :=
  match items with
  | [] => Ok errors
  | item :: rest =>
      let* errors := validateItem index item errors in
      validateItems (S index) rest errors
  end.

(** [validateOrderData(body)]: the pair [(isValid, errors)]. *)
Definition validateOrderData (body : value) : result (bool * list string) :=
  if negb (truthy body) then Ok (false, ["Request body is required"])
  else
    let* customerName := getProp body "customerName" in
    let errors :=
      if customerNameRejected customerName then [customerNameMessage] else [] in
    let* items := getProp body "items" in
    let* errors :=
      match items with
      | VArray [] => Ok (errors ++ [itemsMessage])%list
      | VArray elems => validateItems 0 elems errors
      | _ => Ok (errors ++ [itemsMessage])%list
      end in
    Ok ((List.length errors =? 0)%nat, errors).

(** An API Gateway proxy response; [body] is the object handed to
    [JSON.stringify]. *)
Record Response : Type := {
  statusCode : nat;
  responseBody : value
}.

(** The request: [event.body] ([None] when it is absent or empty, and then
    replaced by the text of the empty object) and
    [event.requestContext?.requestId]. *)
Record Event : Type := {
  eventBody : option JsonText;
  requestId : option string
}.

(** What the surroundings contribute to one invocation: the generated id,
    the clock, and the faults of the store and of the queue (the name of
    the exception thrown, if any). *)
Record Env : Type := {
  uuid : string;
  timestamp : string;
  putFault : option string;
  sendFault : option string
}.

Definition requestIdOf (event : Event) : string :=
  match requestId event with
  | Some r => if String.eqb r "" then "unknown" else r
  | None => "unknown"
  end.

Definition invalidJsonResponse : Response :=
  {| statusCode := 400;
     responseBody := VObject [("error", VString "Invalid JSON format");
                              ("message", VString "Request body must be valid JSON")] |}.

Definition validationFailedResponse (errors : list string) : Response :=
  {| statusCode := 400;
     responseBody := VObject [("error", VString "Validation failed");
                              ("message", VString (String.concat ", " errors))] |}.

Definition createdResponse (orderId createdAt : string) : Response :=
  {| statusCode := 201;
     responseBody :=
       VObject [("success", VBool true);
                ("data", VObject [("id", VString orderId);
                                  ("status", VString "PENDING");
                                  ("createdAt", VString createdAt)]);
                ("message", VString "Order created successfully")] |}.

(** The outer [catch] block. *)
Definition errorResponse (event : Event) (e : exn) : Response :=
  if match error_code e with
     | Some code => String.eqb code "ConditionalCheckFailedException"
     | None => false
     end
  then
    {| statusCode := 409;
       responseBody := VObject [("error", VString "Conflict");
                                ("message", VString "Order with this ID already exists")] |}
  else
    {| statusCode := 500;
       responseBody :=
         VObject [("error", VString "Internal Server Error");
                  ("message",
                   VString "An unexpected error occurred while processing your request");
                  ("requestId", VString (requestIdOf event))] |}.

(** [item => ({ sku: item.sku, qty: item.qty, price: item.price || 0 })];
    after validation no item is [null], so the reads cannot throw. *)
Definition storedItem (item : value) : value :=
  VObject [("sku", getPropOpt item "sku");
           ("qty", getPropOpt item "qty");
           ("price", or_else (getPropOpt item "price") (VNumber zero))].

Definition newOrder (env : Env) (orderData : value) : Item :=
  [("id", VString (uuid env));
   ("customerName",
    match getPropOpt orderData "customerName" with
    | VString s => VString (trim s)
    | other => other
    end);
   ("items",
    match getPropOpt orderData "items" with
    | VArray elems => VArray (map storedItem elems)
    | other => other
    end);
   ("status", VString "PENDING");
   ("createdAt", VString (timestamp env));
   ("updatedAt", VString (timestamp env))].

Definition eventMessage (env : Env) (order : Item) : value :=
  VObject [("type", VString "OrderCreated");
           ("timestamp", VString (timestamp env));
           ("detail", VObject [("id", VString (uuid env));
                               ("customerName", lookupProp "customerName" order);
                               ("items", lookupProp "items" order);
                               ("createdAt", VString (timestamp env))])].

(** [PutCommand] with [ConditionExpression: 'attribute_not_exists(id)']. *)
Definition ddbPut (fault : option string) (tbl : table) (id : string)
  (order : Item) : result table :=
  match fault with
  | Some name => Throw (AwsError name)
  | None =>
      match tbl !! id with
      | Some _ => Throw (AwsError "ConditionalCheckFailedException")
      | None => Ok (<[id := order]> tbl)
      end
  end.

(** [SendMessageCommand]: the queue gains the message. *)
Definition sqsSend (fault : option string) (queue : list value) (message : value)
  : result (list value) :=
  match fault with
  | Some name => Throw (AwsError name)
  | None => Ok (queue ++ [message])%list
  end.

(** [handler(event)]: the response, and the table and the queue as the
    invocation leaves them. *)
Definition handler (env : Env) (event : Event) (tbl : table) (queue : list value)
  : Response * table * list value :=
  let text := match eventBody event with
              | Some t => t
              | None => Json (VObject [])
              end in
  match JSON_parse text with
  | Throw _ => (invalidJsonResponse, tbl, queue)
  | Ok orderData =>
      match validateOrderData orderData with
      | Throw e => (errorResponse event e, tbl, queue)
      | Ok (false, errors) =>
          (* the log entry of this branch evaluates [orderData.items?.length] *)
          match getProp orderData "items" with
          | Throw e => (errorResponse event e, tbl, queue)
          | Ok _ => (validationFailedResponse errors, tbl, queue)
          end
      | Ok (true, _) =>
          let order := newOrder env orderData in
          match ddbPut (putFault env) tbl (uuid env) order with
          | Throw e => (errorResponse event e, tbl, queue)
          | Ok tbl' =>
              match sqsSend (sendFault env) queue (eventMessage env order) with
              | Throw e => (errorResponse event e, tbl', queue)
              | Ok queue' =>
                  (createdResponse (uuid env) (timestamp env), tbl', queue')
              end
          end
      end
  end.

(** *** The validation rules in the words of the specification *)

(** "customerName is missing or blank". *)
Definition specBadCustomerName (body : value) : bool :=
  match getPropOpt body "customerName" with
  | VUndefined => true
  | VString s => String.eqb (trim s) ""
  | _ => false
  end.

(** "items is missing, empty, or not a sequence". *)
Definition specBadItems (body : value) : bool :=
  match getPropOpt body "items" with
  | VArray (_ :: _) => false
  | _ => true
  end.

(** "some item is missing sku, has non-positive qty, or has negative
    price". *)
Definition specBadItem (item : value) : bool :=
  isUndefined (getPropOpt item "sku")
  || num_le (numberOf (getPropOpt item "qty")) zero
  || num_lt (numberOf (getPropOpt item "price")) zero.

Definition itemsOf (body : value) : list value :=
  match getPropOpt body "items" with
  | VArray elems => elems
  | _ => []
  end.

Definition specRejects (body : value) : bool :=
  specBadCustomerName body || specBadItems body || existsb specBadItem (itemsOf body).

(** *** The rules the code applies *)

(** customerName is missing, not a string, or blank. *)
Definition badCustomerName (body : value) : bool :=
  match getPropOpt body "customerName" with
  | VString s => String.eqb (trim s) ""
  | _ => true
  end.

(** sku is missing, not a string, or empty. *)
Definition badSku (item : value) : bool :=
  match getPropOpt item "sku" with
  | VString s => String.eqb s ""
  | _ => true
  end.

(** qty is missing, not a number, or not positive. *)
Definition badQty (item : value) : bool :=
  match getPropOpt item "qty" with
  | VNumber n => negb (num_gt n zero)
  | _ => true
  end.

(** price is present and not a number, or negative. *)
Definition badPrice (item : value) : bool :=
  match getPropOpt item "price" with
  | VUndefined => false
  | VNumber n => num_lt n zero
  | _ => true
  end.

Definition badItem (item : value) : bool := badSku item || badQty item || badPrice item.

Definition rejects (body : value) : bool :=
  badCustomerName body || specBadItems body || existsb badItem (itemsOf body).

(** No entry of [items] is [null] (reading a field of such an entry
    throws). *)
Definition isNullish (v : value) : bool :=
  match v with
  | VUndefined | VNull => true
  | _ => false
  end.

Definition itemsReadable (body : value) : bool :=
  forallb (fun item => negb (isNullish item)) (itemsOf body).

(** The messages the rules above call for, in the order of the fields. *)
Definition itemViolations (index : nat) (item : value) : list string :=
  ((if badSku item then [skuMessage index] else [])
   ++ (if badQty item then [qtyMessage index] else [])
   ++ (if badPrice item then [priceMessage index] else []))%list.

Fixpoint itemsViolations (index : nat) (items : list value) : list string :=
  match items with
  | [] => []
  | item :: rest => (itemViolations index item ++ itemsViolations (S index) rest)%list
  end.

Definition violations (body : value) : list string :=
  ((if badCustomerName body then [customerNameMessage] else [])
   ++ (if specBadItems body then [itemsMessage]
       else itemsViolations 0 (itemsOf body)))%list.

(** The request is one the create operation must turn down: no body, a
    body that is not JSON, or an order that breaks a rule. *)
Definition eventRejected (event : Event) : bool :=
  match eventBody event with
  | None => true
  | Some Unparsable => true
  | Some (Json v) => rejects v
  end.

(** The body is not the JSON text [null] and no entry of its [items] is
    [null]. *)
Definition eventReadable (event : Event) : bool :=
  match eventBody event with
  | Some (Json v) => negb (isNullish v) && itemsReadable v
  | _ => true
  end.

(** Every broken rule has its message among [errors]. *)
Definition listsEveryViolation (body : value) (errors : list string) : Prop :=
  (badCustomerName body = true -> In customerNameMessage errors)
  /\ (specBadItems body = true -> In itemsMessage errors)
  /\ (forall (i : nat) (item : value),
        itemsOf body !! i = Some item ->
        (badSku item = true -> In (skuMessage i) errors)
        /\ (badQty item = true -> In (qtyMessage i) errors)
        /\ (badPrice item = true -> In (priceMessage i) errors)).

(** *** Sample requests *)

Definition intakeEnv : Env :=
  {| uuid := "6f1c2d3e-4a5b-4c6d-8e9f-0a1b2c3d4e5f";
     timestamp := "2024-05-01T10:00:00.000Z";
     putFault := None;
     sendFault := None |}.

Definition request (v : value) : Event :=
  {| eventBody := Some (Json v); requestId := Some "req-1" |}.

(** One item whose price is the text "5". *)
Definition textPriceOrder : value :=
  VObject [("customerName", VString "Alice");
           ("items", VArray [VObject [("sku", VString "x");
                                      ("qty", VNumber (Double 1%float));
                                      ("price", VString "5")]])].

(** Nothing is right: no customer, and an item without sku, with qty 0 and
    a negative price. *)
Definition allWrongOrder : value :=
  VObject [("items", VArray [VObject [("qty", VNumber (Double 0%float));
                                      ("price", VNumber (Double (-1)%float))]])].

Definition aliceOrder : value :=
  VObject [("customerName", VString "Alice");
           ("items", VArray [lineItem "x" 1 10])].

End CreateOrder.

(* ====================================================================== *)
(** ** Derived fields of an order, as both read handlers compute them     *)
(* ====================================================================== *)

Module OrderView.
Import JS Processor.

(** 2^46. *)
Definition twoTo46 : float := 70368744177664%float.

(** [parseFloat(x.toFixed(2))] on a double.  [toFixed] takes the integer
    [n] for which [n / 100] is closest to the value of the double (the
    larger [n] on a tie), working on the magnitude when [x < 0], and prints
    [n / 100] with two decimals; [parseFloat] reads the text back as the
    double nearest to it.  Below 2^46 in magnitude, [n] is below 2^53 and
    so is a double itself, and the double nearest to [n / 100] is the
    binary64 quotient of [n] by 100.  From 2^46 on, neighbouring doubles
    are at least 1/64 apart while [n / 100] is within 1/200 of [x], so the
    double read back is [x] (as it is from 10^21 on, where [toFixed] prints
    the number itself).  [NaN] and the infinities are printed by name and
    read back; a zero is printed as [0.00]. *)
Definition toFixed2 (x : float) : float :=
  match Prim2SF x with
  | S754_nan | S754_infinity _ => x
  | S754_zero _ => 0%float
  | S754_finite negative _ _ =>
      let a := PrimFloat.abs x in
      if PrimFloat.leb twoTo46 a then x
      else
        let n := Qfloor (exactValue a * 100 + (1 # 2))%Q in
        let r := PrimFloat.div (PrimFloat.of_uint63 (Uint63.of_Z n)) 100%float in
        if negative then PrimFloat.opp r else r
  end.

(** On a count (the initial [0] of an order without items) the rounding
    changes nothing. *)
Definition roundToCents (n : number) : number :=
  match n with
  | Count k => Count k
  | Double x => Double (toFixed2 x)
  end.

Section Enrich.

Variable toNumberOther : value -> number.

(** [let orderTotal = 0;
     if (order.items && Array.isArray(order.items)) {
       orderTotal = order.items.reduce(..., 0);
     }] *)
Definition orderTotal (order : Item) : result number :=
  match lookupProp "items" order with
  | VArray elems => reduce (addLine toNumberOther) elems zero
  | _ => Ok zero
  end.

(** [order.items?.length || 0]. *)
Definition itemCount (order : Item) : value :=
  or_else (getPropOpt (getPropOpt (VObject order) "items") "length") (VNumber zero).

(** [{ ...order, itemCount: ..., orderTotal: parseFloat(orderTotal.toFixed(2)) }]. *)
Definition enrich (order : Item) : result Item :=
  let* total := orderTotal order in
  Ok (setAttr "orderTotal" (VNumber (roundToCents total))
        (setAttr "itemCount" (itemCount order) order)).

End Enrich.

(** No entry of the order's [items] is [null]. *)
Definition orderReadable (order : Item) : bool :=
  match lookupProp "items" order with
  | VArray elems => forallb (fun item => negb (CreateOrder.isNullish item)) elems
  | _ => true
  end.

End OrderView.

(* ====================================================================== *)
(** ** Read by id: [httpGetOrder.mjs]                                     *)
(* ====================================================================== *)

Module GetOrder.
Import JS Processor OrderView.

Definition inRange (lo hi : nat) (c : ascii) : bool :=
  let n := nat_of_ascii c in ((lo <=? n) && (n <=? hi))%nat.

(** The character classes of the identifier pattern, read with the [i]
    flag. *)
Inductive charClass : Type :=
| HexDigit      (* [0-9a-f] *)
| Dash          (* - *)
| Version       (* [1-5] *)
| Variant.      (* [89ab] *)

Definition inClass (cl : charClass) (c : ascii) : bool :=
  match cl with
  | HexDigit => inRange 48 57 c || inRange 97 102 c || inRange 65 70 c
  | Dash => (nat_of_ascii c =? 45)%nat
  | Version => inRange 49 53 c
  | Variant => inRange 56 57 c || inRange 97 98 c || inRange 65 66 c
  end.

(** [^[0-9a-f]{8}-[0-9a-f]{4}-[1-5][0-9a-f]{3}-[89ab][0-9a-f]{3}-[0-9a-f]{12}$] *)
Definition uuidRegex : list charClass :=
  (repeat HexDigit 8 ++ [Dash] ++ repeat HexDigit 4 ++ [Dash]
   ++ [Version] ++ repeat HexDigit 3 ++ [Dash]
   ++ [Variant] ++ repeat HexDigit 3 ++ [Dash] ++ repeat HexDigit 12)%list.

(** The whole of [s] matches the sequence of classes. *)
Fixpoint test (pattern : list charClass) (s : string) : bool :=
  match pattern, s with
  | [], EmptyString => true
  | cl :: pattern', String c s' => inClass cl c && test pattern' s'
  | _, _ => false
  end.

Definition isValidUUID (uuid : string) : bool := test uuidRegex uuid.

Record Response : Type := {
  statusCode : nat;
  responseBody : value
}.

(** The request: [event.pathParameters] and
    [event.requestContext?.requestId]. *)
Record Event : Type := {
  pathParameters : option (list (string * string));
  requestId : option string
}.

Fixpoint assoc (k : string) (l : list (string * string)) : option string :=
  match l with
  | [] => None
  | (k', v) :: rest => if String.eqb k k' then Some v else assoc k rest
  end.

(** [event.pathParameters?.id]. *)
Definition requestedId (event : Event) : option string :=
  match pathParameters event with
  | Some params => assoc "id" params
  | None => None
  end.

Definition requestIdOf (event : Event) : string :=
  match requestId event with
  | Some r => if String.eqb r "" then "unknown" else r
  | None => "unknown"
  end.

Definition errorBody (error message : string) : value :=
  VObject [("error", VString error); ("message", VString message)].

Definition missingIdResponse : Response :=
  {| statusCode := 400;
     responseBody := errorBody "Bad Request" "Order ID is required in the URL path" |}.

Definition invalidIdResponse : Response :=
  {| statusCode := 400;
     responseBody :=
       errorBody "Bad Request" "Invalid order ID format. Must be a valid UUID." |}.

Definition notFoundResponse (orderId : string) : Response :=
  {| statusCode := 404;
     responseBody :=
       errorBody "Not Found" ("Order with ID " ++ orderId ++ " was not found") |}.

Definition okResponse (data : Item) : Response :=
  {| statusCode := 200;
     responseBody := VObject [("success", VBool true); ("data", VObject data)] |}.

(** The [catch] block. *)
Definition errorResponse (event : Event) (e : exn) : Response :=
  match error_code e with
  | Some code =>
      if String.eqb code "ResourceNotFoundException" then
        {| statusCode := 404;
           responseBody := errorBody "Not Found" "The requested resource was not found" |}
      else if String.eqb code "ProvisionedThroughputExceededException" then
        {| statusCode := 429;
           responseBody :=
             errorBody "Too Many Requests"
               "Database is currently busy. Please try again in a moment." |}
      else
        {| statusCode := 500;
           responseBody :=
             VObject [("error", VString "Internal Server Error");
                      ("message",
                       VString "An unexpected error occurred while retrieving the order");
                      ("requestId", VString (requestIdOf event))] |}
  | None =>
      {| statusCode := 500;
         responseBody :=
           VObject [("error", VString "Internal Server Error");
                    ("message",
                     VString "An unexpected error occurred while retrieving the order");
                    ("requestId", VString (requestIdOf event))] |}
  end.

(** [GetCommand] with [ConsistentRead: true]: the store answers with the
    item under the key and is left as it is. *)
Definition ddbGet (fault : option string) (tbl : table) (id : string)
  : result (option Item) * table :=
  match fault with
  | Some name => (Throw (AwsError name), tbl)
  | None => (Ok (tbl !! id), tbl)
  end.

Section Handler.

Variable toNumberOther : value -> number.

(** [handler(event)]: the response and the table as the read leaves it;
    [fault] is the name of the exception with which the store faults, if
    it does. *)
Definition handler (fault : option string) (event : Event) (tbl : table)
  : Response * table :=
  match requestedId event with
  | None => (missingIdResponse, tbl)
  | Some orderId =>
      if String.eqb orderId "" then (missingIdResponse, tbl)
      else if negb (isValidUUID orderId) then (invalidIdResponse, tbl)
      else
        let '(result, tbl') := ddbGet fault tbl orderId in
        match result with
        | Throw e => (errorResponse event e, tbl')
        | Ok None => (notFoundResponse orderId, tbl')
        | Ok (Some order) =>
            match enrich toNumberOther order with
            | Throw e => (errorResponse event e, tbl')
            | Ok data => (okResponse data, tbl')
            end
        end
  end.

End Handler.

(** [response.body.error]. *)
Definition errorOf (response : Response) : value :=
  getPropOpt (responseBody response) "error".

(** [response.body.data.k]. *)
Definition dataField (response : Response) (k : string) : value :=
  getPropOpt (getPropOpt (responseBody response) "data") k.

(** The request carries an identifier of the expected form. *)
Definition wellFormedRequest (event : Event) : bool :=
  match requestedId event with
  | Some id => isValidUUID id
  | None => false
  end.

(** *** Sample requests *)

Definition getRequest (id : string) : Event :=
  {| pathParameters := Some [("id", id)]; requestId := Some "req-1" |}.

Definition aliceId : string := "6f1c2d3e-4a5b-4c6d-8e9f-0a1b2c3d4e5f".
Definition unusedId : string := "0a1b2c3d-4e5f-4a6b-9c8d-7e6f5a4b3c2d".

(** Three units at 0.333 each. *)
Definition thirdsOrder : Item :=
  pendingOrder aliceId "Alice" [lineItem "x" 3 0.333].

Definition ordersTable : table := <[aliceId := thirdsOrder]> ∅.

End GetOrder.

(* ====================================================================== *)
(** ** Listing orders                                                     *)
(* ====================================================================== *)

Module ListOrders.
Import JS Processor OrderView.

Definition isDigit (c : ascii) : bool := GetOrder.inRange 48 57 c.

(** The value of the longest run of decimal digits at the start of [s],
    continuing from [acc]. *)
Fixpoint digits (acc : Z) (s : string) : Z :=
  match s with
  | String c rest =>
      if isDigit c then digits (acc * 10 + (Z.of_nat (nat_of_ascii c) - 48)) rest
      else acc
  | EmptyString => acc
  end.

(** [parseInt(s, 10)]: leading white space is skipped, a sign is read, and
    the digits that follow give the value; [None] stands for [NaN]. *)
Definition parseInt10 (s : string) : option Z :=
  let s := CreateOrder.trimStart s in
  let '(sign, s) :=
    match s with
    | String "-"%char rest => ((-1)%Z, rest)
    | String "+"%char rest => (1%Z, rest)
    | _ => (1%Z, s)
    end in
  match s with
  | String c _ => if isDigit c then Some (sign * digits 0 s)%Z else None
  | EmptyString => None
  end.

Definition lowerChar (c : ascii) : ascii :=
  let n := nat_of_ascii c in
  if ((65 <=? n) && (n <=? 90) || (192 <=? n) && (n <=? 222) && negb (n =? 215))%nat
  then ascii_of_nat (n + 32) else c.

(** [s.toLowerCase()]. *)
Fixpoint toLowerCase (s : string) : string :=
  match s with
  | EmptyString => EmptyString
  | String c rest => String (lowerChar c) (toLowerCase rest)
  end.

(** A continuation token: its text, and what
    [JSON.parse(Buffer.from(text, 'base64').toString())] makes of it. *)
Record Token : Type := {
  tokenText : string;
  decoded : JsonText
}.

(** [event.queryStringParameters], when there are any. *)
Record QueryString : Type := {
  qLimit : option string;
  qStatus : option string;
  qSortOrder : option string;
  qNextToken : option Token
}.

Record Params : Type := {
  limit : Z;
  status : option string;
  sortOrder : string;
  lastEvaluatedKey : value
}.

(** A call of [log(level, message, ...)]. *)
Abbreviation LogEntry := (string * string)%type.

Definition nonEmpty (s : string) : bool := negb (String.eqb s "").

Definition includes (l : list string) (s : string) : bool := existsb (String.eqb s) l.

(** [parseQueryParameters(queryStringParameters)], with what it logs. *)
Definition parseQueryParameters (queryStringParameters : option QueryString)
  : Params * list LogEntry :=
  let params :=
    {| limit := 10; status := None; sortOrder := "desc"; lastEvaluatedKey := VNull |} in
  match queryStringParameters with
  | None => (params, [])
  | Some q =>
      let limit' :=
        match qLimit q with
        | Some text =>
            if nonEmpty text then
              match parseInt10 text with
              | Some n => if ((0 <? n) && (n <=? 100))%Z then n else limit params
              | None => limit params
              end
            else limit params
        | None => limit params
        end in
      let status' :=
        match qStatus q with
        | Some text =>
            if nonEmpty text
               && includes ["PENDING"; "CONFIRMED"; "PENDING_REVIEW";
                            "PENDING_APPROVAL"; "CANCELLED"] text
            then Some text else status params
        | None => status params
        end in
      let sortOrder' :=
        match qSortOrder q with
        | Some text =>
            if nonEmpty text && includes ["asc"; "desc"] (toLowerCase text)
            then toLowerCase text else sortOrder params
        | None => sortOrder params
        end in
      let '(key, logged) :=
        match qNextToken q with
        | Some token =>
            if nonEmpty (tokenText token) then
              match JSON_parse (decoded token) with
              | Ok v => (v, [])
              | Throw _ =>
                  (lastEvaluatedKey params,
                   [("warn", "Invalid pagination token provided")])
              end
            else (lastEvaluatedKey params, [])
        | None => (lastEvaluatedKey params, [])
        end in
      ({| limit := limit'; status := status'; sortOrder := sortOrder';
          lastEvaluatedKey := key |}, logged)
  end.

(** The two commands the handler sends to the store. *)
Inductive DbRequest : Type :=
| QueryCommand (statusKey : string) (Limit : Z) (ScanIndexForward : bool)
    (ExclusiveStartKey : option value)
| ScanCommand (Limit : Z) (ExclusiveStartKey : option value).

Record DbResult : Type := {
  Items : option (list Item);
  LastEvaluatedKey : option value
}.

(** What the handler relies on without defining it: the store's answer to
    a command, [Array.prototype.sort] with the comparator on [createdAt]
    dates (ascending or not), and the text of a new continuation token. *)
Record Env : Type := {
  ddbSend : DbRequest -> result DbResult;
  sortByCreatedAt : bool -> list Item -> list Item;
  encodeToken : value -> string
}.

Record Event : Type := {
  queryStringParameters : option QueryString;
  requestId : option string
}.

Record Response : Type := {
  statusCode : nat;
  responseBody : value
}.

Definition requestIdOf (event : Event) : string :=
  match requestId event with
  | Some r => if String.eqb r "" then "unknown" else r
  | None => "unknown"
  end.

Definition errorResponse (event : Event) (e : exn) : Response :=
  match error_code e with
  | Some code =>
      if String.eqb code "ProvisionedThroughputExceededException" then
        {| statusCode := 429;
           responseBody :=
             GetOrder.errorBody "Too Many Requests"
               "Database is currently busy. Please try again in a moment." |}
      else if String.eqb code "ResourceNotFoundException" then
        {| statusCode := 404;
           responseBody := GetOrder.errorBody "Not Found" "Orders table not found" |}
      else
        {| statusCode := 500;
           responseBody :=
             VObject [("error", VString "Internal Server Error");
                      ("message",
                       VString "An unexpected error occurred while retrieving orders");
                      ("requestId", VString (requestIdOf event))] |}
  | None =>
      {| statusCode := 500;
         responseBody :=
           VObject [("error", VString "Internal Server Error");
                    ("message",
                     VString "An unexpected error occurred while retrieving orders");
                    ("requestId", VString (requestIdOf event))] |}
  end.

Definition optionalString (o : option string) : value :=
  match o with
  | Some s => VString s
  | None => VNull
  end.

(** The command for the parsed parameters: the status index when a status
    is given, a scan otherwise; the resume position is passed on when it
    is truthy. *)
Definition commandFor (queryParams : Params) : DbRequest :=
  let startKey :=
    if truthy (lastEvaluatedKey queryParams) then Some (lastEvaluatedKey queryParams)
    else None in
  match status queryParams with
  | Some st =>
      QueryCommand st (limit queryParams)
        (String.eqb (sortOrder queryParams) "asc") startKey
  | None => ScanCommand (limit queryParams) startKey
  end.

(** [const orders = result.Items || []], sorted by [createdAt] when the
    orders come from a scan. *)
Definition listedOrders (env : Env) (queryParams : Params) (result : DbResult)
  : list Item :=
  let orders := match Items result with Some l => l | None => [] end in
  match status queryParams with
  | Some _ => orders
  | None => sortByCreatedAt env (String.eqb (sortOrder queryParams) "asc") orders
  end.

Section Handler.

Variable toNumberOther : value -> number.

(** [orders.map(order => ...)] with the enriching callback. *)
Fixpoint enrichAll (orders : list Item) : result (list Item) :=
  match orders with
  | [] => Ok []
  | order :: rest =>
      let* enriched := enrich toNumberOther order in
      let* others := enrichAll rest in
      Ok (enriched :: others)
  end.

Definition listResponse (env : Env) (queryParams : Params) (result : DbResult)
  (enrichedOrders : list Item) : Response :=
  let nextToken := option_map (encodeToken env) (LastEvaluatedKey result) in
  {| statusCode := 200;
     responseBody :=
       VObject
         [("success", VBool true);
          ("data",
           VObject
             [("orders", VArray (map VObject enrichedOrders));
              ("pagination",
               VObject [("limit", VNumber (Count (Z.to_nat (limit queryParams))));
                        ("count", VNumber (of_nat (List.length enrichedOrders)));
                        ("hasMore", VBool (bool_decide (is_Some nextToken)));
                        ("nextToken", optionalString nextToken)]);
              ("filters",
               VObject [("status", optionalString (status queryParams));
                        ("sortOrder", VString (sortOrder queryParams))])])] |}.

(** [handler(event)]: the response and the log. *)
Definition handler (env : Env) (event : Event) : Response * list LogEntry :=
  let log0 := [("info", "Processing list orders request")] in
  let '(queryParams, parseLog) := parseQueryParameters (queryStringParameters event) in
  let log1 := (log0 ++ parseLog ++ [("info", "Listing orders with parameters")])%list in
  let failed e :=
    (errorResponse event e,
     (log1 ++ [("error", "Unexpected error processing list orders request")])%list) in
  match ddbSend env (commandFor queryParams) with
  | Throw e => failed e
  | Ok result =>
      match enrichAll (listedOrders env queryParams result) with
      | Throw e => failed e
      | Ok enrichedOrders =>
          (listResponse env queryParams result enrichedOrders,
           (log1 ++ [("info", "Orders listed successfully");
                     ("info", "List orders request completed successfully")])%list)
      end
  end.

End Handler.

(** *** The limit in the words of the specification *)

(** "clamped to 1..100". *)
Definition clamp (n : Z) : Z := Z.max 1 (Z.min 100 n).


(** *** Sample requests *)

Definition limitOnly (text : string) : QueryString :=
  {| qLimit := Some text; qStatus := None; qSortOrder := None; qNextToken := None |}.





End ListOrders.

(* ====================================================================== *)
(** ** Health check: [healthCheck.mjs]                                    *)
(* ====================================================================== *)

Module HealthCheck.
Import JS.

(** The Lambda context: [awsRequestId], [functionName] and the reading of
    [getRemainingTimeInMillis()]. *)
Record Context : Type := {
  awsRequestId : string;
  functionName : string;
  remainingTimeMs : Z
}.

(** The variables of [process.env] the function reads. *)
Record ProcessEnv : Type := {
  AWS_REGION : option string;
  AWS_EXECUTION_ENV : option string;
  TABLE_NAME : option string;
  QUEUE_URL : option string
}.

(** What [sqsClient.send(new GetQueueAttributesCommand(...))] does: it
    throws an error with a message, or answers with [Attributes]. *)
Inductive SendOutcome : Type :=
| SendFails (message : string)
| SendResult (Attributes : option (list (string * string))).

(** The surroundings of one invocation; [messageOf] is [error.message]. *)
Record Env : Type := {
  processEnv : ProcessEnv;
  sqsSend : string -> SendOutcome;
  now : string;
  messageOf : exn -> string
}.

Record Response : Type := {
  statusCode : nat;
  xRequestId : string;
  responseBody : value
}.

Definition envValue (o : option string) : value :=
  match o with
  | Some s => VString s
  | None => VUndefined
  end.

(** [checkDynamoDBHealth()]: nothing in its [try] block can throw. *)
Definition checkDynamoDBHealth (env : Env) : result value :=
  Ok (VObject [("status", VString "healthy");
               ("tableName", envValue (TABLE_NAME (processEnv env)));
               ("message", VString "DynamoDB connection successful")]).

(** [result.Attributes?.ApproximateNumberOfMessages || '0']. *)
Definition messageCount (Attributes : option (list (string * string))) : string :=
  match Attributes with
  | Some attrs =>
      match GetOrder.assoc "ApproximateNumberOfMessages" attrs with
      | Some n => if String.eqb n "" then "0" else n
      | None => "0"
      end
  | None => "0"
  end.

(** [checkSQSHealth()]: a failing call is caught and reported in the
    returned object. *)
Definition checkSQSHealth (env : Env) : result value :=
  match QUEUE_URL (processEnv env) with
  | None =>
      Ok (VObject [("status", VString "healthy");
                   ("message", VString "SQS not configured for this function")])
  | Some queueUrl =>
      if String.eqb queueUrl "" then
        Ok (VObject [("status", VString "healthy");
                     ("message", VString "SQS not configured for this function")])
      else
        match sqsSend env queueUrl with
        | SendFails message =>
            Ok (VObject [("status", VString "unhealthy");
                         ("error", VString message)])
        | SendResult Attributes =>
            Ok (VObject [("status", VString "healthy");
                         ("queueUrl", VString queueUrl);
                         ("messageCount", VString (messageCount Attributes));
                         ("message", VString "SQS connection successful")])
        end
  end.

(** [handler(event, context)]. *)
Definition handler (env : Env) (context : Context) : Response :=
  let attempt :=
    let* tableStatus := checkDynamoDBHealth env in
    let* queueStatus := checkSQSHealth env in
    Ok (VObject
          [("status", VString "healthy");
           ("timestamp", VString (now env));
           ("services",
            VObject [("dynamodb", tableStatus);
                     ("sqs", queueStatus);
                     ("lambda",
                      VObject [("status", VString "healthy");
                               ("functionName", VString (functionName context));
                               ("remainingTimeMs",
                                VNumber (Count (Z.to_nat (remainingTimeMs context))))])]);
           ("environment",
            VObject [("region", envValue (AWS_REGION (processEnv env)));
                     ("runtime", envValue (AWS_EXECUTION_ENV (processEnv env)));
                     ("tableName", envValue (TABLE_NAME (processEnv env)))])]) in
  match attempt with
  | Ok healthStatus =>
      {| statusCode := 200;
         xRequestId := awsRequestId context;
         responseBody := healthStatus |}
  | Throw error =>
      {| statusCode := 503;
         xRequestId := awsRequestId context;
         responseBody :=
           VObject [("status", VString "unhealthy");
                    ("timestamp", VString (now env));
                    ("error", VString (messageOf env error));
                    ("requestId", VString (awsRequestId context))] |}
  end.

(** [body.services.sqs.status]. *)
Definition sqsStatus (response : Response) : value :=
  getPropOpt (getPropOpt (getPropOpt (responseBody response) "services") "sqs") "status".

(** The queue the function is configured with, if any. *)
Definition configuredQueue (env : Env) : option string :=
  match QUEUE_URL (processEnv env) with
  | Some url => if String.eqb url "" then None else Some url
  | None => None
  end.

End HealthCheck.

(* ====================================================================== *)
(** ** Notions used to state further properties                           *)
(* ====================================================================== *)

Module Shapes.
Import JS Processor.

(** A line item as the intake stores it: a non-empty text [sku], a positive
    [qty] and a [price] that is a number and not negative. *)
Definition storedItemOk (item : value) : bool :=
  match item with
  | VObject props =>
      match lookupProp "sku" props, lookupProp "qty" props,
            lookupProp "price" props with
      | VString sku, VNumber qty, VNumber price =>
          negb (String.eqb sku "") && num_gt qty zero && num_le zero price
      | _, _, _ => false
      end
  | _ => false
  end.


(** The attribute [k] of the order stored under [id], if there is one. *)
Definition attributeOf (tbl : table) (id k : string) : option value :=
  match tbl !! id with
  | Some stored => Some (lookupProp k stored)
  | None => None
  end.

(** The three writes of the processor's update on a stored order. *)
Definition processed (outcome : string * string) (updatedAt : string)
  (stored : Item) : Item :=
  setAttr "processingNotes" (VString (snd outcome))
    (setAttr "updatedAt" (VString updatedAt)
       (setAttr "status" (VString (fst outcome)) stored)).

(** What a message asks for, read off the message alone: the order it
    names and the outcome of the rules on its detail. *)
Definition requestedUpdate (toNumberOther : value -> number) (record : SQSRecord)
  : option (string * (string * string)) :=
  match body record with
  | Json messageBody =>
      match getPropOpt (getPropOpt messageBody "detail") "id",
            processOrderCreated toNumberOther (getPropOpt messageBody "detail") with
      | VString id, Ok outcome => Some (id, outcome)
      | _, _ => None
      end
  | Unparsable => None
  end.

(** The table [tbl] after the messages of a batch, each taken on its own:
    a message that succeeds when processed alone against the table [tbl0]
    the batch started from has the three attributes of the order it names
    written, with the clock reading of its position; any other message
    leaves the table as it is. *)
Fixpoint appliedUpdates (toNumberOther : value -> number) (env : Env)
  (tbl0 : table) (i : nat) (records : list SQSRecord) (tbl : table) : table :=
  match records with
  | [] => tbl
  | record :: rest =>
      appliedUpdates toNumberOther env tbl0 (S i) rest
        (match fst (processRecord toNumberOther (fault env i) (now env i) tbl0 record),
               requestedUpdate toNumberOther record with
         | Updated, Some (id, outcome) =>
             match tbl !! id with
             | Some stored => <[id := processed outcome (now env i) stored]> tbl
             | None => tbl
             end
         | _, _ => tbl
         end)
  end.

(** [r] is the double [x] rounded to two decimals.  For a finite [x] below
    2^46 in magnitude: with [n] the integer nearest to 100 times the
    magnitude of [x] (the larger one on a tie), [r] is the double nearest
    to [n / 100], which is the binary64 quotient of [n] by 100, with the
    sign of [x].  From 2^46 on the doubles are too far apart for two
    decimals to matter, and [r] is [x]; so it is for an infinity and for
    NaN.  A zero gives 0. *)
Definition roundedToCents (x r : float) : Prop :=
  match Prim2SF x with
  | S754_nan | S754_infinity _ => r = x
  | S754_zero _ => r = 0%float
  | S754_finite negative _ _ =>
      if PrimFloat.leb OrderView.twoTo46 (PrimFloat.abs x) then r = x
      else
        exists n : Z,
          (inject_Z n <= exactValue (PrimFloat.abs x) * 100 + (1 # 2))%Q
          /\ (exactValue (PrimFloat.abs x) * 100 + (1 # 2) < inject_Z n + 1)%Q
          /\ r = let q := PrimFloat.div (PrimFloat.of_uint63 (Uint63.of_Z n)) 100%float in
                 if negative then PrimFloat.opp q else q
  end.

(** The same on the numbers of the model: a count is a whole number and is
    its own rounding. *)
Definition numberRoundedToCents (x r : number) : Prop :=
  match x with
  | Count k => r = Count k
  | Double x => exists r', r = Double r' /\ roundedToCents x r'
  end.

(** The characters an identifier may have at position [i]. *)
Definition allowedAt (i : nat) : string :=
  if ((i =? 8) || (i =? 13) || (i =? 18) || (i =? 23))%nat then "-"
  else if (i =? 14)%nat then "12345"
  else if (i =? 19)%nat then "89abAB"
  else "0123456789abcdefABCDEF".

(** The character [c] occurs in the text [s]. *)
Fixpoint occurs (c : ascii) (s : string) : bool :=
  match s with
  | EmptyString => false
  | String c' rest => Ascii.eqb c c' || occurs c rest
  end.

(** The five order statuses. *)
Definition orderStatuses : list string :=
  ["PENDING"; "CONFIRMED"; "PENDING_REVIEW"; "PENDING_APPROVAL"; "CANCELLED"].

(** The attributes of a stored order other than the three the processor
    sets. *)
Definition untouchedAttribute (k : string) : Prop :=
  k <> "status" /\ k <> "updatedAt" /\ k <> "processingNotes".

(** The character of [s] at position [i] belongs to the class [cl]. *)
Definition charIn (cl : GetOrder.charClass) (s : string) (i : nat) : Prop :=
  match String.get i s with
  | Some c => GetOrder.inClass cl c = true
  | None => False
  end.

(** The text of the limit a list request asks for, when it asks for
    one. *)
Definition requestedLimitText (q : option ListOrders.QueryString) : option string :=
  match q with
  | Some q => ListOrders.qLimit q
  | None => None
  end.

(** The text consists of white space. *)
Fixpoint blank (s : string) : bool :=
  match s with
  | EmptyString => true
  | String c rest => CreateOrder.isWhiteSpace c && blank rest
  end.

(** [k] zeros. *)
Fixpoint zeros (k : nat) : string :=
  match k with
  | O => EmptyString
  | S k => String "0" (zeros k)
  end.

Definition startsWithDigit (s : string) : bool :=
  match s with
  | String c _ => ListOrders.isDigit c
  | EmptyString => false
  end.

(** The text does not start with a number: it is empty, or its first
    character is neither white space nor a digit nor a sign in front of a
    digit. *)
Definition notANumber (s : string) : bool :=
  match s with
  | EmptyString => true
  | String c rest =>
      negb (CreateOrder.isWhiteSpace c) && negb (ListOrders.isDigit c)
      && negb ((Ascii.eqb c "+" || Ascii.eqb c "-") && startsWithDigit rest)
  end.

(** The status and the sort order a list request asks for. *)
Definition requestedStatus (q : option ListOrders.QueryString) : option string :=
  match q with
  | Some q => ListOrders.qStatus q
  | None => None
  end.

Definition requestedSort (q : option ListOrders.QueryString) : option string :=
  match q with
  | Some q => ListOrders.qSortOrder q
  | None => None
  end.

(** [ExclusiveStartKey] of a command. *)
Definition startKeyOf (command : ListOrders.DbRequest) : option value :=
  match command with
  | ListOrders.QueryCommand _ _ _ key => key
  | ListOrders.ScanCommand _ key => key
  end.

(** [body.data.orders] and [body.data.pagination.k] of a list response. *)
Definition returnedOrders (response : ListOrders.Response) : list value :=
  match getPropOpt (getPropOpt (ListOrders.responseBody response) "data") "orders" with
  | VArray orders => orders
  | _ => []
  end.


End Shapes.

(* ====================================================================== *)
(** ** Further sample data                                                *)
(* ====================================================================== *)

Module Samples.
Import JS Processor.

(** The intake surroundings with a queue that cannot be reached. *)
Definition queueDownEnv : CreateOrder.Env :=
  {| CreateOrder.uuid := CreateOrder.uuid CreateOrder.intakeEnv;
     CreateOrder.timestamp := CreateOrder.timestamp CreateOrder.intakeEnv;
     CreateOrder.putFault := None;
     CreateOrder.sendFault := Some "ServiceUnavailable" |}.

(** A table that already holds an order under the id the intake is about
    to generate. *)
Definition takenTable : table :=
  <[CreateOrder.uuid CreateOrder.intakeEnv :=
      pendingOrder (CreateOrder.uuid CreateOrder.intakeEnv) "Bob" [lineItem "y" 2 5]]> ∅.

(** An order one of whose items is [null]. *)
Definition brokenOrder : Item :=
  pendingOrder GetOrder.aliceId "Alice" [lineItem "x" 1 10; VNull].

Definition brokenTable : table := <[GetOrder.aliceId := brokenOrder]> ∅.

(** A list request for the orders in review, oldest first. *)
Definition reviewQuery : ListOrders.QueryString :=
  {| ListOrders.qLimit := Some "5"; ListOrders.qStatus := Some "PENDING_REVIEW";
     ListOrders.qSortOrder := Some "ASC"; ListOrders.qNextToken := None |}.

Definition reviewRequest : ListOrders.Event :=
  {| ListOrders.queryStringParameters := Some reviewQuery;
     ListOrders.requestId := Some "req-1" |}.

(** A store whose page holds an order with a [null] item. *)
Definition brokenPageEnv : ListOrders.Env :=
  {| ListOrders.ddbSend := fun _ =>
       Ok {| ListOrders.Items :=
               Some [pendingOrder "o1" "Alice" [lineItem "x" 1 10]; brokenOrder];
             ListOrders.LastEvaluatedKey := None |};
     ListOrders.sortByCreatedAt := fun _ orders => orders;
     ListOrders.encodeToken := fun _ => "token" |}.



(** A store that is throttled. *)
Definition throttledEnv : ListOrders.Env :=
  {| ListOrders.ddbSend := fun _ =>
       Throw (AwsError "ProvisionedThroughputExceededException");
     ListOrders.sortByCreatedAt := fun _ orders => orders;
     ListOrders.encodeToken := fun _ => "token" |}.

(** A health check whose queue cannot be reached. *)
Definition queueOutage : HealthCheck.Env :=
  {| HealthCheck.processEnv :=
       {| HealthCheck.AWS_REGION := Some "eu-west-1";
          HealthCheck.AWS_EXECUTION_ENV := Some "AWS_Lambda_nodejs22.x";
          HealthCheck.TABLE_NAME := Some "orders";
          HealthCheck.QUEUE_URL := Some "https://sqs.eu-west-1.amazonaws.com/1/orders" |};
     HealthCheck.sqsSend := fun _ => HealthCheck.SendFails "connect ETIMEDOUT";
     HealthCheck.now := "2024-05-01T10:00:00.000Z";
     HealthCheck.messageOf := fun _ => "error" |}.

Definition someContext : HealthCheck.Context :=
  {| HealthCheck.awsRequestId := "req-1";
     HealthCheck.functionName := "healthCheck";
     HealthCheck.remainingTimeMs := 2900 |}.

End Samples.

(* ====================================================================== *)
(** * Properties                                                          *)
(* ====================================================================== *)

(** ** Arithmetic of the number model *)

Module NumberFacts.
Import JS OrderValue.

(** *** Facts of binary64, from the specification of the primitives *)

Lemma SFcompare_antisym (x y : spec_float) :
  SFcompare y x = option_map CompOpp (SFcompare x y).
Proof.
  destruct x as [s|s| |s m e], y as [s'|s'| |s' m' e'];
    try destruct s; try destruct s'; cbn; try reflexivity.
  all: rewrite (Z.compare_antisym e' e); destruct (e' ?= e)%Z; cbn; try reflexivity.
  all: change (Pos.compare_cont Eq m m') with (m ?= m')%positive;
       change (Pos.compare_cont Eq m' m) with (m' ?= m)%positive.
  all: rewrite (Pos.compare_antisym m' m); destruct (m' ?= m)%positive; reflexivity.
Qed.

Lemma leb_not_ltb (x y : float) :
  PrimFloat.leb x y = true -> PrimFloat.ltb y x = false.
Proof.
  rewrite FloatAxioms.leb_spec, FloatAxioms.ltb_spec. unfold SFleb, SFltb.
  rewrite (SFcompare_antisym (Prim2SF x) (Prim2SF y)).
  destruct (SFcompare (Prim2SF x) (Prim2SF y)) as [[| |]|]; cbn; congruence.
Qed.

Lemma mul_comm (x y : float) : PrimFloat.mul x y = PrimFloat.mul y x.
Proof.
  apply Prim2SF_inj. rewrite !FloatAxioms.mul_spec.
  destruct (Prim2SF x) as [s|s| |s m e], (Prim2SF y) as [s'|s'| |s' m' e']; cbn;
    rewrite ?(xorb_comm s s'), ?(Pos.mul_comm m m'), ?(Z.add_comm e e'); reflexivity.
Qed.

(** A zero or a NaN is not above 10000. *)
Lemma falsy_not_above (f : float) :
  (PrimFloat.eqb f 0 || PrimFloat.is_nan f) = true ->
  PrimFloat.ltb 10000 f = false.
Proof.
  unfold PrimFloat.is_nan.
  rewrite FloatAxioms.ltb_spec, !FloatAxioms.eqb_spec.
  set (c := Prim2SF 10000). vm_compute in c. subst c.
  change (Prim2SF 0) with (S754_zero false).
  destruct (Prim2SF f) as [s|s| |s m e]; try destruct s; cbn;
    try reflexivity; try discriminate.
  all: unfold SFeqb, SFcompare; cbn; rewrite ?Z.compare_refl, ?Pos.compare_refl;
    cbn; try discriminate.
Qed.

(** [!x || x <= 0] is the negation of [x > 0]. *)
Lemma not_positive (f : float) :
  (PrimFloat.eqb f 0 || PrimFloat.is_nan f) || PrimFloat.leb f 0
  = negb (PrimFloat.ltb 0 f).
Proof.
  unfold PrimFloat.is_nan.
  rewrite FloatAxioms.ltb_spec, !FloatAxioms.eqb_spec, FloatAxioms.leb_spec.
  change (Prim2SF 0) with (S754_zero false).
  destruct (Prim2SF f) as [s|s| |s m e]; try destruct s; cbn; try reflexivity.
  all: unfold SFeqb, SFltb, SFleb, SFcompare; cbn;
    rewrite ?Z.compare_refl, ?Pos.compare_refl; reflexivity.
Qed.

(** A number that is not NaN and not below 0 is at least 0. *)
Lemma not_negative (f : float) :
  PrimFloat.is_nan f = false -> PrimFloat.ltb f 0 = false -> PrimFloat.leb 0 f = true.
Proof.
  unfold PrimFloat.is_nan.
  rewrite FloatAxioms.ltb_spec, !FloatAxioms.eqb_spec, FloatAxioms.leb_spec.
  change (Prim2SF 0) with (S754_zero false).
  destruct (Prim2SF f) as [s|s| |s m e]; try destruct s; cbn;
    try reflexivity; try discriminate.
Qed.

(** *** The numbers of the model *)

Lemma toDouble_zero : toDouble zero = 0%float.
Proof. reflexivity. Qed.

Lemma num_mul_comm (a b : number) : num_mul a b = num_mul b a.
Proof. unfold num_mul. now rewrite mul_comm. Qed.

Lemma num_le_not_gt (a b : number) : num_le a b = true -> num_gt a b = false.
Proof.
  destruct a as [x|x], b as [y|y]; cbn [num_le num_gt]; try apply leb_not_ltb.
  intros H. apply Nat.leb_le in H. apply Nat.ltb_ge. exact H.
Qed.

(** [(x || 0) > 10000] is [x > 10000]. *)
Lemma orZero_above (t : number) :
  num_gt (if truthy (VNumber t) then t else zero) tenThousand = num_gt t tenThousand.
Proof.
  destruct (truthy (VNumber t)) eqn:T; [reflexivity|].
  destruct t as [n|f]; cbn in T.
  - destruct n; [reflexivity|discriminate].
  - apply negb_false_iff in T. cbn. symmetry. now apply falsy_not_above.
Qed.

(** [!n || n <= 0], as the intake writes the test on a quantity. *)
Lemma num_not_positive (n : number) :
  negb (truthy (VNumber n)) || num_le n zero = negb (num_gt n zero).
Proof.
  destruct n as [k|f].
  - destruct k; reflexivity.
  - cbn [truthy num_le num_gt]. rewrite toDouble_zero, negb_involutive.
    apply not_positive.
Qed.

Lemma num_not_negative (n : number) :
  truthy (VNumber n) = true -> num_lt n zero = false -> num_le zero n = true.
Proof.
  destruct n as [k|f].
  - reflexivity.
  - unfold num_lt, zero. cbn [truthy num_le num_gt].
    change (toDouble (Count 0)) with 0%float. cbn [toDouble]. intros T.
    apply negb_true_iff, orb_false_iff in T as [_ T].
    now apply not_negative.
Qed.

Lemma of_nat_gt_10 (n : nat) : num_gt (of_nat n) (Count 10) = (10 <? n)%nat.
Proof. reflexivity. Qed.

Lemma getProp_array_length (elems : list value) :
  getProp (VArray elems) "length" = Ok (VNumber (of_nat (List.length elems))).
Proof. reflexivity. Qed.

Section WithCoercion.

Variable toNumberOther : value -> number.

(** [(v || 0)] read as a number is the field's value, 0 when the field is
    missing. *)
Lemma orZero_numeric (v : value) :
  numberOrMissing v = true ->
  ToNumber toNumberOther (or_else v (VNumber zero)) = fieldOrZero v.
Proof.
  destruct v as [| | b | n | s | l | o]; cbn [numberOrMissing];
    try discriminate; intros _; try reflexivity.
  unfold or_else, fieldOrZero. destruct (truthy (VNumber n)); reflexivity.
Qed.

Lemma addLine_wellTyped (sum : number) (item : value) :
  wellTypedItem item = true ->
  addLine toNumberOther sum item = Ok (num_add sum (specLineValue item)).
Proof.
  destruct item as [| | | | | |props]; simpl; try discriminate.
  intros H. apply andb_true_iff in H as [Hq Hp].
  unfold addLine, specLineValue, getPropOpt. cbn [getProp bind].
  rewrite (orZero_numeric _ Hq), (orZero_numeric _ Hp).
  now rewrite (num_mul_comm (fieldOrZero (lookupProp "price" props))).
Qed.

Lemma reduce_wellTyped (items : list value) : forall sum : number,
  wellTypedItems items = true ->
  reduce (addLine toNumberOther) items sum = Ok (specTotalFrom sum items).
Proof.
  induction items as [|item rest IH]; intros sum H.
  - reflexivity.
  - simpl in H. apply andb_true_iff in H as [Hi Hr].
    cbn [reduce specTotalFrom]. rewrite (addLine_wellTyped sum item Hi).
    cbn [bind]. now apply IH.
Qed.

End WithCoercion.

End NumberFacts.

(** ** The business rules of the order processor *)

Module ProcessorRules.
Import JS OrderValue Processor NumberFacts.

Section WithCoercion.

Variable toNumberOther : value -> number.

Lemma totalValue_wellTyped (items : list value) :
  wellTypedItems items = true ->
  totalValue toNumberOther (VArray items)
  = Ok (if truthy (VNumber (specTotalValue items)) then specTotalValue items
        else zero).
Proof.
  intros H. unfold totalValue.
  now rewrite (reduce_wellTyped toNumberOther items zero H).
Qed.

(** On an event whose items are typed as in the data model, the code
    computes the rule of the specification. *)
Lemma processOrderCreated_rule (detail : value) (items : list value) :
  specItems detail = Some items ->
  wellTypedItems items = true ->
  processOrderCreated toNumberOther detail
  = Ok (ruleOutcome (List.length items) (specTotalValue items)).
Proof.
  unfold specItems, processOrderCreated. intros Hs Hw.
  destruct (getProp detail "items") as [v|e] eqn:G; [|discriminate].
  cbn [bind].
  destruct v as [| | | | | elems |]; try discriminate.
  - injection Hs as <-. reflexivity.
  - injection Hs as <-. reflexivity.
  - injection Hs as ->. cbn [truthy]. rewrite getProp_array_length. cbn [bind].
    rewrite (totalValue_wellTyped items Hw). cbn [bind].
    unfold gt_literal. cbn [ToNumber]. rewrite of_nat_gt_10.
    change (Double 10000) with tenThousand. rewrite orZero_above.
    unfold ruleOutcome.
    destruct (num_gt (specTotalValue items) tenThousand),
             (10 <? List.length items)%nat; reflexivity.
Qed.



End WithCoercion.



End ProcessorRules.

(** ** The batch contract of the order processor *)

Module ProcessorBatch.
Import JS OrderValue Processor Shapes NumberFacts ProcessorRules.

Lemma isOrderCreated_true (type : value) :
  isOrderCreated type = true -> type = VString "OrderCreated".
Proof.
  destruct type; try discriminate. simpl. intros H.
  apply String.eqb_eq in H. now subst.
Qed.

Lemma catchRecord_not_updated (e : exn) : catchRecord e <> Updated.
Proof.
  unfold catchRecord. destruct (error_code e) as [c|]; [|discriminate].
  destruct (String.eqb c _); [discriminate|].
  destruct (String.eqb c _); discriminate.
Qed.

(** The [catch] block tells its cases apart by [error.code], which nothing
    it catches carries: every exception ends in the branch of the transient
    errors, also the failed condition of an update for an order that does
    not exist. *)
Remark caught_errors_are_handled_as_transient (e : exn) : catchRecord e = Transient.
Proof. destruct e; reflexivity. Qed.

Lemma truthy_string (s : string) : truthy (VString s) = true <-> s <> "".
Proof.
  simpl. split.
  - intros H ->. discriminate.
  - intros H. destruct (String.eqb s "") eqn:E; [|reflexivity].
    apply String.eqb_eq in E. contradiction.
Qed.

Lemma sameKeys_refl (t : table) : sameKeys t t.
Proof. intros k. reflexivity. Qed.

Lemma sameKeys_trans (t1 t2 t3 : table) :
  sameKeys t1 t2 -> sameKeys t2 t3 -> sameKeys t1 t3.
Proof. intros H1 H2 k. rewrite (H1 k). apply H2. Qed.

Lemma sameKeys_insert_present (t : table) (id : string) (old new : Item) :
  t !! id = Some old -> sameKeys t (<[id := new]> t).
Proof.
  intros H k. destruct (decide (k = id)) as [->|Hne].
  - rewrite lookup_insert_eq, H. split; eauto.
  - rewrite lookup_insert_ne by congruence. reflexivity.
Qed.

Lemma lookupProp_setAttr_eq (k : string) (v : value) (attrs : Item) :
  lookupProp k (setAttr k v attrs) = v.
Proof.
  induction attrs as [|[k' v'] rest IH]; simpl.
  - now rewrite String.eqb_refl.
  - destruct (String.eqb k k') eqn:E; simpl.
    + now rewrite String.eqb_refl.
    + now rewrite E.
Qed.

Lemma lookupProp_setAttr_ne (k k0 : string) (v : value) (attrs : Item) :
  k0 <> k -> lookupProp k0 (setAttr k v attrs) = lookupProp k0 attrs.
Proof.
  intros Hne. induction attrs as [|[k' v'] rest IH]; simpl.
  - destruct (String.eqb k0 k) eqn:E; [|reflexivity].
    apply String.eqb_eq in E. contradiction.
  - destruct (String.eqb k k') eqn:E; simpl.
    + apply String.eqb_eq in E. subst k'.
      destruct (String.eqb k0 k) eqn:E'; [|reflexivity].
      apply String.eqb_eq in E'. contradiction.
    + destruct (String.eqb k0 k'); [reflexivity|exact IH].
Qed.

Section WithCoercion.

Variable toNumberOther : value -> number.

Lemma ddbUpdate_keys fault t key st at_ notes t' :
  ddbUpdate fault t key st at_ notes = Ok t' -> sameKeys t t'.
Proof.
  unfold ddbUpdate. destruct fault; [discriminate|].
  destruct key; try discriminate.
  destruct (t !! s) eqn:L; [|discriminate].
  intros [= <-]. eapply sameKeys_insert_present; eauto.
Qed.

(** The store answers an update on two tables with the same orders alike. *)
Lemma ddbUpdate_sameKeys fault t1 t2 key st at_ notes :
  sameKeys t1 t2 ->
  match ddbUpdate fault t1 key st at_ notes,
        ddbUpdate fault t2 key st at_ notes with
  | Ok _, Ok _ => True
  | Throw e1, Throw e2 => e1 = e2
  | _, _ => False
  end.
Proof.
  intros H. unfold ddbUpdate. destruct fault; [reflexivity|].
  destruct key; try reflexivity.
  specialize (H s).
  destruct (t1 !! s) eqn:L1, (t2 !! s) eqn:L2; try exact I; try reflexivity.
  - destruct H as [H _]. destruct H; [eauto|discriminate].
  - destruct H as [_ H]. destruct H; [eauto|discriminate].
Qed.

Lemma processRecord_keys fault now_ t record :
  sameKeys t (snd (processRecord toNumberOther fault now_ t record)).
Proof.
  unfold processRecord, tryRecord.
  destruct (JSON_parse (body record)) as [mb|]; [|apply sameKeys_refl].
  destruct (getProp mb "type") as [ty|]; [|apply sameKeys_refl]. cbn [bind].
  destruct (getProp mb "detail") as [de|]; [|apply sameKeys_refl]. cbn [bind].
  destruct (negb (truthy ty) || negb (truthy de)); [apply sameKeys_refl|].
  destruct (isOrderCreated ty); [|apply sameKeys_refl].
  destruct (negb (truthy (getPropOpt de "id"))); [apply sameKeys_refl|].
  destruct (processOrderCreated toNumberOther de) as [o|]; [|apply sameKeys_refl].
  cbn [bind].
  destruct (ddbUpdate fault t (getPropOpt de "id") (fst o) now_ (snd o)) eqn:U;
    cbn [bind snd]; [|apply sameKeys_refl].
  eapply ddbUpdate_keys; eauto.
Qed.

(** Where a record ends up does not depend on the attributes of the stored
    orders, only on which orders exist. *)
Lemma processRecord_branch fault now_ t1 t2 record :
  sameKeys t1 t2 ->
  fst (processRecord toNumberOther fault now_ t1 record)
  = fst (processRecord toNumberOther fault now_ t2 record).
Proof.
  intros H. unfold processRecord, tryRecord.
  destruct (JSON_parse (body record)) as [mb|]; [|reflexivity].
  destruct (getProp mb "type") as [ty|]; [|reflexivity]. cbn [bind].
  destruct (getProp mb "detail") as [de|]; [|reflexivity]. cbn [bind].
  destruct (negb (truthy ty) || negb (truthy de)); [reflexivity|].
  destruct (isOrderCreated ty); [|reflexivity].
  destruct (negb (truthy (getPropOpt de "id"))); [reflexivity|].
  destruct (processOrderCreated toNumberOther de) as [o|]; [|reflexivity].
  cbn [bind].
  pose proof (ddbUpdate_sameKeys fault t1 t2 (getPropOpt de "id") (fst o) now_ (snd o) H) as S.
  destruct (ddbUpdate fault t1 _ _ _ _), (ddbUpdate fault t2 _ _ _ _);
    cbn [bind fst]; try contradiction; congruence.
Qed.

Lemma processRecord_updated_inv fault now_ tbl record tbl' :
  processRecord toNumberOther fault now_ tbl record = (Updated, tbl') ->
  exists messageBody detail id outcome stored,
    body record = Json messageBody
    /\ getProp messageBody "type" = Ok (VString "OrderCreated")
    /\ getProp messageBody "detail" = Ok detail
    /\ getPropOpt detail "id" = VString id
    /\ id <> ""
    /\ processOrderCreated toNumberOther detail = Ok outcome
    /\ fault = None
    /\ tbl !! id = Some stored
    /\ tbl' = <[id := processed outcome now_ stored]> tbl.
Proof.
  unfold processRecord, tryRecord.
  destruct (body record) as [|mb] eqn:Hb; cbn [JSON_parse]; [discriminate|].
  destruct (getProp mb "type") as [ty|e] eqn:Hty; cbn [bind];
    [|intros [= H _]; now apply catchRecord_not_updated in H].
  destruct (getProp mb "detail") as [de|e] eqn:Hde; cbn [bind];
    [|intros [= H _]; now apply catchRecord_not_updated in H].
  destruct (negb (truthy ty) || negb (truthy de)); [discriminate|].
  destruct (isOrderCreated ty) eqn:Hoc; [|discriminate].
  apply isOrderCreated_true in Hoc. subst ty.
  destruct (truthy (getPropOpt de "id")) eqn:Hid; cbn [negb]; [|discriminate].
  destruct (processOrderCreated toNumberOther de) as [outcome|e] eqn:Hp; cbn [bind];
    [|intros [= H _]; now apply catchRecord_not_updated in H].
  unfold ddbUpdate. destruct fault as [c|]; cbn [bind];
    [intros [= H _]; now apply catchRecord_not_updated in H|].
  destruct (getPropOpt de "id") as [| | | |id| |] eqn:Eid; cbn [bind];
    try (intros [= H _]; now apply catchRecord_not_updated in H).
  destruct (tbl !! id) as [stored|] eqn:L; cbn [bind];
    [|intros [= H _]; now apply catchRecord_not_updated in H].
  intros [= <-].
  exists mb, de, id, outcome, stored. repeat split; try assumption; try reflexivity.
  now apply truthy_string.
Qed.

(** A record that is reported as failed has left the table as it was. *)
Lemma processRecord_failed_unchanged fault now_ tbl record :
  pushesFailure (fst (processRecord toNumberOther fault now_ tbl record)) = true ->
  snd (processRecord toNumberOther fault now_ tbl record) = tbl.
Proof.
  unfold processRecord, tryRecord.
  destruct (JSON_parse (body record)) as [mb|]; [|intros _; reflexivity].
  destruct (getProp mb "type") as [ty|]; cbn [bind]; [|intros _; reflexivity].
  destruct (getProp mb "detail") as [de|]; cbn [bind]; [|intros _; reflexivity].
  destruct (negb (truthy ty) || negb (truthy de)); [intros _; reflexivity|].
  destruct (isOrderCreated ty); [|intros _; reflexivity].
  destruct (negb (truthy (getPropOpt de "id"))); [intros _; reflexivity|].
  destruct (processOrderCreated toNumberOther de); cbn [bind];
    [|intros _; reflexivity].
  destruct (ddbUpdate _ _ _ _ _ _); cbn [bind fst snd pushesFailure];
    [discriminate|intros _; reflexivity].
Qed.

(** The update of a record that succeeds is the one its message asks
    for. *)
Lemma processRecord_requested fault now_ tbl record tbl' :
  processRecord toNumberOther fault now_ tbl record = (Updated, tbl') ->
  exists id outcome stored,
    requestedUpdate toNumberOther record = Some (id, outcome)
    /\ tbl !! id = Some stored
    /\ tbl' = <[id := processed outcome now_ stored]> tbl.
Proof.
  intros E.
  destruct (processRecord_updated_inv _ _ _ _ _ E)
    as (mb & de & id & outcome & stored & Hb & _ & Hde & Hid & _ & Hp & _ & L & ->).
  exists id, outcome, stored. repeat split; [|exact L].
  unfold requestedUpdate. rewrite Hb. unfold getPropOpt at 2 3. rewrite Hde.
  now rewrite Hid, Hp.
Qed.

Lemma processRecords_table env records : forall i t0 t acc,
  sameKeys t0 t ->
  fst (processRecords toNumberOther env i records t acc)
  = appliedUpdates toNumberOther env t0 i records t.
Proof.
  induction records as [|r rest IH]; intros i t0 t acc H; cbn [processRecords appliedUpdates].
  - reflexivity.
  - pose proof (processRecord_keys (fault env i) (now env i) t r) as K.
    pose proof (processRecord_failed_unchanged (fault env i) (now env i) t r) as U.
    rewrite (processRecord_branch (fault env i) (now env i) t0 t r H).
    destruct (processRecord toNumberOther (fault env i) (now env i) t r) as [b t'] eqn:E.
    cbn [fst snd] in *.
    rewrite (IH (S i) t0 t' _ (sameKeys_trans _ _ _ H K)). f_equal.
    destruct b; try (now apply U).
    destruct (processRecord_requested _ _ _ _ _ E) as (id & outcome & stored & -> & L & ->).
    now rewrite L.
Qed.

Lemma processRecords_failures env records : forall i t0 t acc,
  sameKeys t0 t ->
  snd (processRecords toNumberOther env i records t acc)
  = (acc ++ failedAlone toNumberOther env t0 i records)%list.
Proof.
  induction records as [|r rest IH]; intros i t0 t acc H; simpl.
  - now rewrite app_nil_r.
  - pose proof (processRecord_keys (fault env i) (now env i) t r) as K.
    rewrite (processRecord_branch (fault env i) (now env i) t0 t r H).
    destruct (processRecord toNumberOther (fault env i) (now env i) t r) as [b t'].
    cbn [fst snd] in *.
    rewrite (IH (S i) t0 t' _ (sameKeys_trans _ _ _ H K)).
    destruct (pushesFailure b); simpl; [now rewrite <- app_assoc|reflexivity].
Qed.

End WithCoercion.

(** C4.  The batch handler processes every message on its own.  For every
    batch, the table it leaves is the initial table with the update of each
    message that succeeds when processed alone applied in batch order (the
    three attributes of the order the message names), and the identifiers
    it returns are exactly those of the messages that fail when processed
    alone, in batch order: a failing message neither stops nor fails
    another one, and no update of a succeeding message is lost.  In a batch
    of three whose second body is not JSON, only the second identifier is
    returned and both other orders are updated. *)
Theorem batch_messages_fail_independently :
  (forall toNumberOther env records (tbl : table),
     handler toNumberOther env records tbl
     = (appliedUpdates toNumberOther env tbl 0 records tbl,
        failedAlone toNumberOther env tbl 0 records))
  /\ snd (handler noCoercion calmEnv batchOfThree sampleTable) = ["m2"]
  /\ statusOf (fst (handler noCoercion calmEnv batchOfThree sampleTable)) "o1"
     = Some (VString "CONFIRMED")
  /\ statusOf (fst (handler noCoercion calmEnv batchOfThree sampleTable)) "o2"
     = Some (VString "CONFIRMED").
Proof.
  split; [|repeat split; vm_compute; reflexivity].
  intros tn env records tbl. unfold handler.
  pose proof (processRecords_table tn env records 0 tbl tbl [] (sameKeys_refl tbl)) as T.
  pose proof (processRecords_failures tn env records 0 tbl tbl [] (sameKeys_refl tbl)) as F.
  destruct (processRecords tn env 0 records tbl []) as [t ids].
  cbn [fst snd] in T, F. now rewrite T, F.
Qed.

(** C5 (the code does not do this).  The batch result has one kind of
    entry, the message identifier: a message whose body can never be parsed
    and a message that only met a throttled store are returned in the same
    way, although the handler's comments say that the first must not be
    retried and the second must. *)
Theorem permanent_and_retryable_reported_alike :
  fst (processRecord noCoercion (fault throttledSecond 0) (now throttledSecond 0)
         sampleTable {| messageId := "m1"; body := Unparsable |}) = ParseError
  /\ meantToBeRetried ParseError = false
  /\ fst (processRecord noCoercion (fault throttledSecond 1) (now throttledSecond 1)
            sampleTable
            {| messageId := "m2";
               body := orderCreated
                         (detailOf "o1" "Alice" (VArray [lineItem "x" 1 10])) |})
     = Transient
  /\ meantToBeRetried Transient = true
  /\ snd (handler noCoercion throttledSecond permanentThenTransient sampleTable)
     = ["m1"; "m2"]
  /\ (forall b, pushesFailure b = true <-> b <> Updated).
Proof.
  do 5 (split; [vm_compute; reflexivity|]).
  intros b. split.
  - intros H ->. discriminate H.
  - destruct b; try reflexivity. intros H. now contradiction H.
Qed.

(** An event whose [items] is present but not an array is not processed at
    all: [items.reduce] is not a function, the message is reported as
    failed and the order keeps its status. *)
Remark text_items_message_fails :
  handler noCoercion calmEnv [textItemsMessage] sampleTable
  = (sampleTable, ["m1"])
  /\ statusOf sampleTable "o1" = Some (VString "PENDING").
Proof. split; vm_compute; reflexivity. Qed.

Section Lenient.

Variable toNumberOther : value -> number.

(** C10, as amended.  An OrderCreated event that names an existing order
    and whose items are missing, empty, or at most ten entries whose qty and
    price are numbers or missing (each missing one counting as 0) with a
    total of at most 10000 is not checked against the intake rules: the
    message succeeds and the order's status becomes CONFIRMED, whatever it
    was before. *)
Theorem lenient_event_confirms_order
  (env : Env) (mid id : string) (messageBody detail : value)
  (stored : Item) (items : list value) (tbl : table) :
  getProp messageBody "type" = Ok (VString "OrderCreated") ->
  getProp messageBody "detail" = Ok detail ->
  getPropOpt detail "id" = VString id ->
  id <> "" ->
  tbl !! id = Some stored ->
  fault env 0 = None ->
  specItems detail = Some items ->
  wellTypedItems items = true ->
  (List.length items <= 10)%nat ->
  num_le (specTotalValue items) tenThousand = true ->
  let tbl' := fst (handler toNumberOther env
                     [{| messageId := mid; body := Json messageBody |}] tbl) in
  snd (handler toNumberOther env
         [{| messageId := mid; body := Json messageBody |}] tbl) = []
  /\ statusOf tbl' id = Some (VString "CONFIRMED")
  /\ (forall k, k <> id -> tbl' !! k = tbl !! k).
Proof.
  intros Hty Hde Hid Hne Hst Hf Hsp Hw Hlen Htot.
  assert (Htr : truthy detail = true).
  { destruct detail; try reflexivity; simpl in Hid; discriminate. }
  assert (Hrule : processOrderCreated toNumberOther detail = Ok CONFIRMED).
  { rewrite (processOrderCreated_rule toNumberOther detail items Hsp Hw).
    unfold ruleOutcome. rewrite (num_le_not_gt _ _ Htot).
    apply Nat.ltb_ge in Hlen. now rewrite Hlen. }
  assert (Hid' : truthy (VString id) = true).
  { simpl. destruct (String.eqb id "") eqn:E; [|reflexivity].
    apply String.eqb_eq in E. contradiction. }
  cbv zeta. unfold handler. cbn [processRecords]. unfold processRecord, tryRecord.
  cbn [body messageId JSON_parse]. rewrite Hty, Hde. cbn [bind truthy isOrderCreated].
  rewrite Htr. simpl (negb _ || negb _). cbv iota.
  rewrite String.eqb_refl, Hid, Hid'. cbn [negb]. rewrite Hrule. cbn [bind].
  unfold ddbUpdate. rewrite Hf, Hst. cbn [bind pushesFailure fst snd].
  repeat split.
  - unfold statusOf. rewrite lookup_insert_eq. f_equal.
    rewrite lookupProp_setAttr_ne by discriminate.
    rewrite lookupProp_setAttr_ne by discriminate.
    apply lookupProp_setAttr_eq.
  - intros k Hk. rewrite lookup_insert_ne by congruence. reflexivity.
Qed.

End Lenient.

Lemma lenient_event_confirms_order_witness :
  snd (handler noCoercion calmEnv [noItemsMessage] sampleTable) = []
  /\ statusOf (fst (handler noCoercion calmEnv [noItemsMessage] sampleTable)) "o1"
     = Some (VString "CONFIRMED")
  /\ (forall k, k <> "o1" ->
        fst (handler noCoercion calmEnv [noItemsMessage] sampleTable) !! k
        = sampleTable !! k).
Proof.
  apply (lenient_event_confirms_order noCoercion calmEnv "m1" "o1"
           (VObject [("type", VString "OrderCreated");
                     ("timestamp", VString "2024-05-01T10:00:00.000Z");
                     ("detail", VObject [("id", VString "o1")])])
           (VObject [("id", VString "o1")])
           (pendingOrder "o1" "Alice" [lineItem "x" 1 10]) [] sampleTable);
    try reflexivity.
  - discriminate.
  - simpl. lia.
Defined.

(** C10 as stated fails: eleven items without qty and price are counted,
    so the order is sent to review instead of being confirmed. *)
Lemma bare_items_sent_to_review :
  wellTypedItems elevenBareItems = true
  /\ snd (handler noCoercion calmEnv [bareItemsMessage] sampleTable) = []
  /\ statusOf (fst (handler noCoercion calmEnv [bareItemsMessage] sampleTable)) "o1"
     = Some (VString "PENDING_REVIEW")
  /\ statusOf (fst (handler noCoercion calmEnv [bareItemsMessage] sampleTable)) "o1"
     <> Some (VString "CONFIRMED").
Proof.
  repeat split; try (vm_compute; reflexivity).
  vm_compute. discriminate.
Qed.

End ProcessorBatch.

(** ** Validation of new orders *)

Module CreateOrderFacts.
Import JS Processor CreateOrder NumberFacts.

Lemma length_zero_eqb (s : string) : (String.length s =? 0)%nat = String.eqb s "".
Proof. destruct s; reflexivity. Qed.

Lemma getProp_readable (v : value) (k : string) :
  isNullish v = false -> getProp v k = Ok (getPropOpt v k).
Proof.
  unfold getPropOpt. destruct (getProp v k) eqn:E; [reflexivity|].
  destruct v; simpl in *; try discriminate;
    destruct (String.eqb k "length"); discriminate.
Qed.

Lemma customerNameRejected_bad (body : value) :
  customerNameRejected (getPropOpt body "customerName") = badCustomerName body.
Proof.
  unfold badCustomerName, customerNameRejected.
  destruct (getPropOpt body "customerName") as [| | [|] | n | s | |];
    try reflexivity.
  - destruct (truthy (VNumber n)); reflexivity.
  - simpl. rewrite length_zero_eqb. destruct s; reflexivity.
Qed.

Lemma skuRejected_bad (item : value) :
  skuRejected (getPropOpt item "sku") = badSku item.
Proof.
  unfold badSku, skuRejected.
  destruct (getPropOpt item "sku") as [| | [|] | n | s | |];
    try reflexivity.
  - destruct (truthy (VNumber n)); reflexivity.
  - simpl. destruct (String.eqb s ""); reflexivity.
Qed.

Lemma qtyRejected_bad (item : value) :
  qtyRejected (getPropOpt item "qty") = badQty item.
Proof.
  unfold badQty, qtyRejected.
  destruct (getPropOpt item "qty") as [| | [|] | n | s | |];
    try reflexivity.
  - rewrite <- num_not_positive. cbn [typeof numberOf].
    destruct (truthy (VNumber n)); reflexivity.
  - simpl. destruct (String.eqb s ""); reflexivity.
Qed.

Lemma priceRejected_bad (item : value) :
  priceRejected (getPropOpt item "price") = badPrice item.
Proof.
  unfold badPrice, priceRejected.
  destruct (getPropOpt item "price") as [| | [|] | n | s | |]; reflexivity.
Qed.

Lemma validateItem_readable (index : nat) (item : value) (errors : list string) :
  isNullish item = false ->
  validateItem index item errors = Ok (errors ++ itemViolations index item)%list.
Proof.
  intros H. unfold validateItem, itemViolations.
  rewrite !(getProp_readable item _ H). cbn [bind].
  rewrite skuRejected_bad, qtyRejected_bad, priceRejected_bad.
  destruct (badSku item), (badQty item), (badPrice item);
    rewrite ?app_nil_r, <- ?app_assoc; reflexivity.
Qed.

Lemma validateItems_readable (items : list value) : forall index errors,
  forallb (fun item => negb (isNullish item)) items = true ->
  validateItems index items errors = Ok (errors ++ itemsViolations index items)%list.
Proof.
  induction items as [|item rest IH]; intros index errors H; simpl.
  - now rewrite app_nil_r.
  - simpl in H. apply andb_true_iff in H as [Hi Hr].
    apply negb_true_iff in Hi.
    rewrite (validateItem_readable index item errors Hi). cbn [bind].
    rewrite (IH (S index) _ Hr). now rewrite <- app_assoc.
Qed.

Lemma itemViolations_nil (index : nat) (item : value) :
  itemViolations index item = [] <-> badItem item = false.
Proof.
  unfold itemViolations, badItem.
  destruct (badSku item), (badQty item), (badPrice item); simpl; split;
    intros H; try reflexivity; discriminate.
Qed.

Lemma itemsViolations_nil (items : list value) : forall index,
  itemsViolations index items = [] <-> existsb badItem items = false.
Proof.
  induction items as [|item rest IH]; intros index; simpl.
  - split; reflexivity.
  - rewrite orb_false_iff, <- (IH (S index)), <- (itemViolations_nil index).
    split.
    + intros H. now apply app_eq_nil in H.
    + intros [-> ->]. reflexivity.
Qed.

Lemma violations_nil (body : value) :
  (List.length (violations body) =? 0)%nat = negb (rejects body).
Proof.
  unfold violations, rejects.
  destruct (badCustomerName body); [reflexivity|].
  destruct (specBadItems body); [reflexivity|]. simpl.
  destruct (existsb badItem (itemsOf body)) eqn:E.
  - destruct (itemsViolations 0 (itemsOf body)) eqn:V; [|reflexivity].
    apply itemsViolations_nil in V. congruence.
  - apply itemsViolations_nil with (index := 0%nat) in E. now rewrite E.
Qed.

(** On a body that can be read, the accumulating code produces the
    violations of the rules, and accepts the order when there is none. *)
Lemma validateOrderData_readable (body : value) :
  truthy body = true ->
  itemsReadable body = true ->
  validateOrderData body = Ok (negb (rejects body), violations body).
Proof.
  intros Ht Hr. unfold validateOrderData. rewrite Ht. cbn [negb].
  assert (Hn : isNullish body = false) by (destruct body; simpl in *; congruence).
  rewrite !(getProp_readable body _ Hn). cbn [bind].
  rewrite customerNameRejected_bad.
  assert (E : match getPropOpt body "items" with
              | VArray [] =>
                  Ok ((if badCustomerName body then [customerNameMessage] else [])
                      ++ [itemsMessage])%list
              | VArray elems =>
                  validateItems 0 elems
                    (if badCustomerName body then [customerNameMessage] else [])
              | _ =>
                  Ok ((if badCustomerName body then [customerNameMessage] else [])
                      ++ [itemsMessage])%list
              end = Ok (violations body)).
  { unfold violations, specBadItems, itemsReadable, itemsOf in *.
    destruct (getPropOpt body "items") as [| | | | | [|item rest] |]; try reflexivity.
    now rewrite (validateItems_readable _ 0%nat _ Hr). }
  rewrite E. cbn [bind]. now rewrite violations_nil.
Qed.

Lemma falsy_body_rejected (body : value) : truthy body = false -> rejects body = true.
Proof.
  intros H. unfold rejects, badCustomerName.
  destruct body as [| | [|] | n | s | |]; simpl in *; try discriminate;
    reflexivity.
Qed.

Lemma errorResponse_not_400 (event : Event) (e : exn) :
  statusCode (errorResponse event e) <> 400%nat.
Proof.
  unfold errorResponse.
  destruct (match error_code e with Some c => _ | None => _ end); discriminate.
Qed.

Lemma itemsViolations_complete (items : list value) :
  forall (index i : nat) (item : value),
    items !! i = Some item ->
    (badSku item = true -> In (skuMessage (index + i)) (itemsViolations index items))
    /\ (badQty item = true -> In (qtyMessage (index + i)) (itemsViolations index items))
    /\ (badPrice item = true -> In (priceMessage (index + i)) (itemsViolations index items)).
Proof.
  induction items as [|x rest IH]; intros index i item Hi; [discriminate|].
  destruct i as [|i]; simpl in Hi.
  - injection Hi as ->. rewrite Nat.add_0_r. simpl. unfold itemViolations.
    repeat split; intros ->; rewrite !in_app_iff; simpl; auto.
  - destruct (IH (S index) i item Hi) as (H1 & H2 & H3).
    replace (index + S i)%nat with (S index + i)%nat by lia.
    simpl itemsViolations.
    repeat split; intros H; rewrite in_app_iff; right; auto.
Qed.

Lemma violations_complete (body : value) : listsEveryViolation body (violations body).
Proof.
  unfold listsEveryViolation, violations. split; [|split].
  - intros ->. rewrite in_app_iff. left. now left.
  - intros ->. rewrite in_app_iff. right. now left.
  - intros i item Hi.
    destruct (specBadItems body) eqn:B.
    + unfold specBadItems, itemsOf in *.
      destruct (getPropOpt body "items") as [| | | | | [|? ?] |]; discriminate.
    + destruct (itemsViolations_complete (itemsOf body) 0 i item Hi) as (H1 & H2 & H3).
      simpl in H1, H2, H3.
      repeat split; intros Hb; rewrite in_app_iff; right; auto.
Qed.

(** What the handler answers to a readable body: the validation failure
    with all violations, or whatever storing and publishing lead to. *)
Lemma handler_readable (env : Env) (event : Event) (v : value)
  (tbl : table) (queue : list value) :
  eventBody event = Some (Json v) ->
  truthy v = true ->
  itemsReadable v = true ->
  (rejects v = true ->
   handler env event tbl queue = (validationFailedResponse (violations v), tbl, queue))
  /\ (rejects v = false ->
      statusCode (fst (fst (handler env event tbl queue))) <> 400%nat).
Proof.
  intros Hb Ht Hr. unfold handler. rewrite Hb. cbn [JSON_parse].
  rewrite (validateOrderData_readable v Ht Hr).
  assert (Hn : isNullish v = false) by (destruct v; simpl in *; congruence).
  split; intros ->; cbn [negb].
  - now rewrite (getProp_readable v _ Hn).
  - destruct (ddbPut _ _ _ _); [|apply errorResponse_not_400].
    destruct (sqsSend _ _ _); [discriminate|apply errorResponse_not_400].
Qed.

(** C3, as amended.  Unless the body is the JSON text null or an item is
    null, the create operation answers 400 exactly when the body is missing
    or unparsable or the order breaks a rule of the code: customerName
    missing, not a string or blank; items missing, empty or not an array;
    an item whose sku is missing, empty or not a string, whose qty is
    missing, not a number or not positive, or whose price is present and
    not a number or negative.  For a body that is an order, the 400 answer
    carries the message of every broken rule, and nothing is stored or
    published. *)
Theorem create_rejects_exactly_rule_breakers
  (env : Env) (event : Event) (tbl : table) (queue : list value) :
  eventReadable event = true ->
  (statusCode (fst (fst (handler env event tbl queue))) = 400%nat
   <-> eventRejected event = true)
  /\ (forall v, eventBody event = Some (Json v) -> truthy v = true ->
        rejects v = true ->
        handler env event tbl queue
        = (validationFailedResponse (violations v), tbl, queue)
        /\ listsEveryViolation v (violations v)).
Proof.
  intros Hread. split.
  - unfold eventRejected, eventReadable in *.
    destruct (eventBody event) as [[|v]|] eqn:Hb.
    + unfold handler. rewrite Hb. simpl. split; reflexivity.
    + apply andb_true_iff in Hread as [Hn Hr]. apply negb_true_iff in Hn.
      destruct (truthy v) eqn:Ht.
      * destruct (handler_readable env event v tbl queue Hb Ht Hr) as [Hy Hno].
        destruct (rejects v) eqn:R.
        -- rewrite (Hy eq_refl). split; reflexivity.
        -- split; [intros H; now apply Hno in H|discriminate].
      * rewrite (falsy_body_rejected v Ht).
        unfold handler. rewrite Hb. cbn [JSON_parse].
        unfold validateOrderData. rewrite Ht. cbn [negb].
        rewrite (getProp_readable v _ Hn). split; reflexivity.
    + unfold handler. rewrite Hb. split; reflexivity.
  - intros v Hb Ht R. unfold eventReadable in Hread. rewrite Hb in Hread.
    apply andb_true_iff in Hread as [_ Hr]. split.
    + now apply (handler_readable env event v tbl queue Hb Ht Hr).
    + apply violations_complete.
Qed.

Lemma create_rejects_exactly_rule_breakers_witness :
  eventReadable (request allWrongOrder) = true
  /\ handler intakeEnv (request allWrongOrder) ∅ []
     = (validationFailedResponse (violations allWrongOrder), ∅, [])
  /\ listsEveryViolation allWrongOrder (violations allWrongOrder).
Proof.
  split; [reflexivity|].
  apply (proj2 (create_rejects_exactly_rule_breakers intakeEnv
                  (request allWrongOrder) ∅ [] eq_refl) allWrongOrder);
    reflexivity.
Defined.

(** C3 as stated fails: the order below has a customer, one item with a
    sku, a positive qty and a price that is not negative (it is the text
    "5"), and is turned down all the same. *)
Lemma text_price_is_rejected :
  specRejects textPriceOrder = false
  /\ handler intakeEnv (request textPriceOrder) ∅ []
     = (validationFailedResponse ["Item 0: price must be a non-negative number"],
        ∅, [])
  /\ statusCode (fst (fst (handler intakeEnv (request textPriceOrder) ∅ []))) = 400%nat.
Proof. repeat split; vm_compute; reflexivity. Qed.

(** The two inputs the amended statement leaves aside end in the outer
    [catch] block and are answered with 500: a body that is the JSON text
    null, and an order with a null item. *)
Remark null_body_and_null_item_answered_500 :
  statusCode (fst (fst (handler intakeEnv (request VNull) ∅ []))) = 500%nat
  /\ statusCode
       (fst (fst (handler intakeEnv
                    (request (VObject [("customerName", VString "Alice");
                                       ("items", VArray [VNull])])) ∅ [])))
     = 500%nat.
Proof. split; vm_compute; reflexivity. Qed.

End CreateOrderFacts.

(** ** Read by id *)

Module GetOrderFacts.
Import JS OrderValue Processor OrderView GetOrder Shapes NumberFacts ProcessorBatch.

Lemma dataField_ok (data : Item) (k : string) :
  dataField (okResponse data) k = lookupProp k data.
Proof. reflexivity. Qed.

Lemma isValidUUID_nonempty (id : string) : isValidUUID id = true -> String.eqb id "" = false.
Proof. destruct id; [discriminate|reflexivity]. Qed.

Lemma or_else_of_nat (n : nat) :
  or_else (VNumber (of_nat n)) (VNumber zero) = VNumber (of_nat n).
Proof. destruct n as [|n]; reflexivity. Qed.

(** The rounding of the model takes the integer nearest to 100 times the
    magnitude. *)
Lemma toFixed2_rounds (x : float) : roundedToCents x (toFixed2 x).
Proof.
  unfold roundedToCents, toFixed2.
  destruct (Prim2SF x) as [s|s| |negative m e]; try reflexivity.
  destruct (PrimFloat.leb twoTo46 (PrimFloat.abs x)); [reflexivity|].
  exists (Qfloor (exactValue (PrimFloat.abs x) * 100 + (1 # 2))).
  split; [apply Qfloor_le|]. split; [|reflexivity].
  pose proof (Qlt_floor (exactValue (PrimFloat.abs x) * 100 + (1 # 2))) as H.
  rewrite inject_Z_plus in H. exact H.
Qed.

Lemma roundToCents_rounds (n : number) : numberRoundedToCents n (roundToCents n).
Proof.
  destruct n as [k|x]; [reflexivity|].
  exists (toFixed2 x). split; [reflexivity|apply toFixed2_rounds].
Qed.

Section WithCoercion.

Variable toNumberOther : value -> number.

Lemma reduce_readable (elems : list value) : forall acc,
  forallb (fun item => negb (CreateOrder.isNullish item)) elems = true ->
  exists n, reduce (addLine toNumberOther) elems acc = Ok n.
Proof.
  induction elems as [|item rest IH]; intros acc H; simpl.
  - eauto.
  - simpl in H. apply andb_true_iff in H as [Hi Hr]. apply negb_true_iff in Hi.
    unfold addLine at 1.
    rewrite !(CreateOrderFacts.getProp_readable item _ Hi). cbn [bind].
    apply IH, Hr.
Qed.

Lemma enrich_readable (order : Item) :
  orderReadable order = true ->
  exists total,
    enrich toNumberOther order
    = Ok (setAttr "orderTotal" (VNumber (roundToCents total))
            (setAttr "itemCount" (itemCount order) order)).
Proof.
  unfold orderReadable, enrich, orderTotal. intros H.
  destruct (lookupProp "items" order) as [| | | | | elems |];
    try (exists zero; reflexivity).
  destruct (reduce_readable elems zero H) as (n & ->). now exists n.
Qed.

(** C8.  Reading by id answers 400 (Bad Request) to every request whose
    id is missing or not of the identifier form, 404 (Not Found) to every
    well-formed id that is not in the store, and 200 to a well-formed id
    that is, with a body that says [success: true], carries no [error] and
    has under [data] every attribute of the stored order with its stored
    value; the two failures are never mixed up. *)
Theorem get_order_status_codes (fault : option string) (event : Event) (tbl : table) :
  let response := fst (handler toNumberOther fault event tbl) in
  (wellFormedRequest event = false ->
   statusCode response = 400%nat /\ errorOf response = VString "Bad Request")
  /\ (forall id, requestedId event = Some id -> isValidUUID id = true ->
       fault = None -> tbl !! id = None ->
       statusCode response = 404%nat /\ errorOf response = VString "Not Found")
  /\ (forall id order, requestedId event = Some id -> isValidUUID id = true ->
       fault = None -> tbl !! id = Some order -> orderReadable order = true ->
       statusCode response = 200%nat
       /\ getPropOpt (responseBody response) "success" = VBool true
       /\ errorOf response = VUndefined
       /\ (forall k, k <> "itemCount" -> k <> "orderTotal" ->
             dataField response k = lookupProp k order)
       /\ exists data,
            response = okResponse data
            /\ forall k, k <> "itemCount" -> k <> "orderTotal" ->
                         lookupProp k data = lookupProp k order).
Proof.
  cbv zeta. unfold handler, wellFormedRequest. split; [|split].
  - destruct (requestedId event) as [id|]; [|intros _; split; reflexivity].
    intros ->. cbn [negb]. destruct (String.eqb id ""); split; reflexivity.
  - intros id -> Hv -> Hl. rewrite (isValidUUID_nonempty id Hv), Hv.
    cbn [negb ddbGet]. rewrite Hl. split; reflexivity.
  - intros id order -> Hv -> Hl Hr. rewrite (isValidUUID_nonempty id Hv), Hv.
    cbn [negb ddbGet]. rewrite Hl.
    destruct (enrich_readable order Hr) as (total & ->). cbn [fst].
    assert (K : forall k, k <> "itemCount" -> k <> "orderTotal" ->
                  lookupProp k (setAttr "orderTotal" (VNumber (roundToCents total))
                                  (setAttr "itemCount" (itemCount order) order))
                  = lookupProp k order).
    { intros k H1 H2.
      rewrite (lookupProp_setAttr_ne "orderTotal" k _ _ H2).
      apply (lookupProp_setAttr_ne "itemCount" k _ _ H1). }
    split; [reflexivity|]. split; [reflexivity|]. split; [reflexivity|].
    split.
    + intros k H1 H2. rewrite dataField_ok. now apply K.
    + eexists. split; [reflexivity|]. exact K.
Qed.

(** C9, as amended.  For a stored order whose items are typed as in the
    data model, the [orderTotal] of the response is the sum of qty x price
    over the items (a missing price counting as 0; the sum is taken in
    binary64, in the order of the items) rounded to two decimals: the
    double nearest to [n / 100], where [n] is the integer nearest to 100
    times the sum.  [itemCount] is the number of items, and the read leaves
    the store as it was. *)
Theorem order_total_is_rounded_sum
  (event : Event) (tbl : table) (id : string) (order : Item) (items : list value) :
  requestedId event = Some id ->
  isValidUUID id = true ->
  tbl !! id = Some order ->
  lookupProp "items" order = VArray items ->
  wellTypedItems items = true ->
  let response := fst (handler toNumberOther None event tbl) in
  snd (handler toNumberOther None event tbl) = tbl
  /\ statusCode response = 200%nat
  /\ (exists total, dataField response "orderTotal" = VNumber total
                    /\ numberRoundedToCents (specTotalValue items) total)
  /\ dataField response "itemCount" = VNumber (of_nat (List.length items)).
Proof.
  intros Hid Hv Hl Hi Hw. cbv zeta. unfold handler.
  rewrite Hid, (isValidUUID_nonempty id Hv), Hv. cbn [negb ddbGet]. rewrite Hl.
  unfold enrich, orderTotal. rewrite Hi.
  rewrite (reduce_wellTyped toNumberOther items zero Hw). cbn [bind fst snd].
  split; [reflexivity|]. split; [reflexivity|]. split.
  - exists (roundToCents (specTotalValue items)). split.
    + rewrite dataField_ok. apply lookupProp_setAttr_eq.
    + apply roundToCents_rounds.
  - rewrite dataField_ok.
    rewrite lookupProp_setAttr_ne by discriminate.
    rewrite lookupProp_setAttr_eq.
    unfold itemCount, getPropOpt. cbn [getProp]. rewrite Hi.
    rewrite getProp_array_length. apply or_else_of_nat.
Qed.

End WithCoercion.

Lemma get_order_status_codes_witness :
  (statusCode (fst (handler noCoercion None (getRequest "order-17") ordersTable))
   = 400%nat
   /\ errorOf (fst (handler noCoercion None (getRequest "order-17") ordersTable))
      = VString "Bad Request")
  /\ (statusCode (fst (handler noCoercion None (getRequest unusedId) ordersTable))
      = 404%nat
      /\ errorOf (fst (handler noCoercion None (getRequest unusedId) ordersTable))
         = VString "Not Found")
  /\ (statusCode (fst (handler noCoercion None (getRequest aliceId) ordersTable))
      = 200%nat
      /\ getPropOpt
           (responseBody (fst (handler noCoercion None (getRequest aliceId) ordersTable)))
           "success" = VBool true
      /\ dataField (fst (handler noCoercion None (getRequest aliceId) ordersTable))
           "customerName" = VString "Alice"
      /\ dataField (fst (handler noCoercion None (getRequest aliceId) ordersTable))
           "status" = VString "PENDING").
Proof.
  split; [|split].
  - apply (proj1 (get_order_status_codes noCoercion None
                    (getRequest "order-17") ordersTable)).
    reflexivity.
  - apply (proj1 (proj2 (get_order_status_codes noCoercion None
                           (getRequest unusedId) ordersTable)) unusedId);
      reflexivity.
  - destruct (proj2 (proj2 (get_order_status_codes noCoercion None
                              (getRequest aliceId) ordersTable)) aliceId thirdsOrder
                eq_refl eq_refl eq_refl eq_refl eq_refl) as (H1 & H2 & _ & H3 & _).
    split; [exact H1|]. split; [exact H2|]. split.
    + now rewrite (H3 "customerName") by discriminate.
    + now rewrite (H3 "status") by discriminate.
Defined.

Lemma order_total_is_rounded_sum_witness :
  snd (handler noCoercion None (getRequest aliceId) ordersTable) = ordersTable
  /\ statusCode (fst (handler noCoercion None (getRequest aliceId) ordersTable))
     = 200%nat
  /\ (exists total,
        dataField (fst (handler noCoercion None (getRequest aliceId) ordersTable))
          "orderTotal" = VNumber total
        /\ numberRoundedToCents (specTotalValue [lineItem "x" 3 0.333]) total)
  /\ dataField (fst (handler noCoercion None (getRequest aliceId) ordersTable))
       "itemCount" = VNumber (of_nat 1).
Proof.
  apply (order_total_is_rounded_sum noCoercion (getRequest aliceId) ordersTable
           aliceId thirdsOrder [lineItem "x" 3 0.333]); reflexivity.
Defined.

(** C9 as stated fails: three units at 0.333 add up to 0.9990000000000001
    (in exact arithmetic, to 0.999), and the response says 1. *)
Lemma thirds_total_is_rounded :
  ordersTable !! aliceId = Some thirdsOrder
  /\ exists sum,
       specTotalValue [lineItem "x" 3 0.333] = Double sum
       /\ dataField (fst (handler noCoercion None (getRequest aliceId) ordersTable))
            "orderTotal" = VNumber (Double 1)
       /\ PrimFloat.eqb sum 1 = false
       /\ PrimFloat.ltb sum 1 = true.
Proof.
  split; [reflexivity|].
  eexists. split; [vm_compute; reflexivity|].
  repeat split; vm_compute; reflexivity.
Qed.

(** The rounding is that of the double, not of the decimal it was written
    as: 1.005 and 2.675 are doubles just below the decimals, and round
    down; 0.125 is a tie and rounds up. *)
Remark rounding_of_doubles :
  toFixed2 1.005 = 1%float
  /\ toFixed2 2.675 = 2.67%float
  /\ toFixed2 0.125 = 0.13%float
  /\ toFixed2 (-2.675) = (-2.67)%float
  /\ toFixed2 10000000000000000.01 = 10000000000000000%float.
Proof. repeat split; vm_compute; reflexivity. Qed.

End GetOrderFacts.

(** ** Listing orders *)

Module ListOrdersFacts.
Import JS Processor OrderView ListOrders Shapes Samples ProcessorBatch.

(** *** Reading the limit *)

Lemma isDigit_not_blank (c : ascii) :
  isDigit c = true -> CreateOrder.isWhiteSpace c = false.
Proof.
  destruct c as [[] [] [] [] [] [] [] []]; try discriminate; reflexivity.
Qed.

Lemma append_cons (c : ascii) (s t : string) :
  (String c s ++ t)%string = String c (s ++ t)%string.
Proof. reflexivity. Qed.

Lemma append_nil (t : string) : (EmptyString ++ t)%string = t.
Proof. reflexivity. Qed.

Lemma trimStart_blank (white s : string) :
  blank white = true ->
  CreateOrder.trimStart (white ++ s) = CreateOrder.trimStart s.
Proof.
  induction white as [|c white IH]; [reflexivity|].
  cbn [blank]. intros H. apply andb_true_iff in H as [Hc Hw].
  rewrite append_cons. cbn [CreateOrder.trimStart]. rewrite Hc. now apply IH.
Qed.

Lemma trimStart_solid (c : ascii) (s : string) :
  CreateOrder.isWhiteSpace c = false ->
  CreateOrder.trimStart (String c s) = String c s.
Proof. intros H. cbn [CreateOrder.trimStart]. now rewrite H. Qed.

(** [parseInt] on a text whose first character after the white space is a
    digit, a plus sign or a minus sign before a digit, or anything else. *)
Lemma parseInt10_digit (s : string) (c : ascii) (tail : string) :
  CreateOrder.trimStart s = String c tail -> isDigit c = true ->
  parseInt10 s = Some (digits 0 (String c tail)).
Proof.
  intros H D. unfold parseInt10. rewrite H.
  destruct c as [[] [] [] [] [] [] [] []]; try discriminate D;
    cbv iota beta; cbn [isDigit GetOrder.inRange]; f_equal; apply Z.mul_1_l.
Qed.

Lemma parseInt10_plus (s : string) (c : ascii) (tail : string) :
  CreateOrder.trimStart s = String "+" (String c tail) -> isDigit c = true ->
  parseInt10 s = Some (digits 0 (String c tail)).
Proof.
  intros H D. unfold parseInt10. rewrite H. cbv iota beta. rewrite D.
  f_equal. apply Z.mul_1_l.
Qed.

Lemma parseInt10_minus (s tail : string) :
  CreateOrder.trimStart s = String "-" tail ->
  parseInt10 s = if startsWithDigit tail then Some (- digits 0 tail)%Z else None.
Proof.
  intros H. unfold parseInt10. rewrite H. cbv iota beta.
  destruct tail as [|c tail]; [reflexivity|]. cbn [startsWithDigit].
  destruct (isDigit c); [|reflexivity]. f_equal; lia.
Qed.

Lemma parseInt10_other (s : string) :
  notANumber (CreateOrder.trimStart s) = true -> parseInt10 s = None.
Proof.
  unfold parseInt10. destruct (CreateOrder.trimStart s) as [|c tail]; [reflexivity|].
  cbn [notANumber]. intros H.
  apply andb_true_iff in H as [H Hs]. apply andb_true_iff in H as [_ Hd].
  apply negb_true_iff in Hd.
  destruct (Ascii.eqb c "+") eqn:Ep.
  - apply Ascii.eqb_eq in Ep. subst c. cbv iota beta.
    cbn [orb andb negb] in Hs. apply negb_true_iff in Hs.
    destruct tail as [|c' tail]; [reflexivity|]. cbn [startsWithDigit] in Hs.
    now rewrite Hs.
  - destruct (Ascii.eqb c "-") eqn:Em.
    + apply Ascii.eqb_eq in Em. subst c. cbv iota beta.
      cbn [orb andb negb] in Hs. apply negb_true_iff in Hs.
      destruct tail as [|c' tail]; [reflexivity|]. cbn [startsWithDigit] in Hs.
      now rewrite Hs.
    + destruct c as [[] [] [] [] [] [] [] []]; try discriminate Ep;
        try discriminate Em; try discriminate Hd; reflexivity.
Qed.

Lemma digits_nonneg (s : string) : forall acc, (0 <= acc)%Z -> (0 <= digits acc s)%Z.
Proof.
  induction s as [|c s IH]; intros acc H; cbn [digits]; [exact H|].
  destruct (isDigit c) eqn:D; [|exact H]. apply IH.
  unfold isDigit, GetOrder.inRange in D. apply andb_true_iff in D as [D _].
  apply Nat.leb_le in D. lia.
Qed.

Lemma digits_zeros (k : nat) (s : string) : digits 0 (zeros k ++ s) = digits 0 s.
Proof. induction k as [|k IH]; [reflexivity|exact IH]. Qed.

Lemma digits_stop (acc : Z) (rest : string) :
  startsWithDigit rest = false -> digits acc rest = acc.
Proof. destruct rest as [|c rest]; [reflexivity|]. cbn. now intros ->. Qed.

(** Reading back the decimal form of a number gives the number. *)
Lemma digits_decimal (d : Decimal.uint) (rest : string) :
  startsWithDigit rest = false ->
  forall acc : nat,
    digits (Z.of_nat acc) (NilEmpty.string_of_uint d ++ rest)
    = Z.of_nat (Nat.of_uint_acc d acc).
Proof.
  intros R. induction d as [|d IH|d IH|d IH|d IH|d IH|d IH|d IH|d IH|d IH|d IH];
    intros acc; cbn [NilEmpty.string_of_uint Nat.of_uint_acc];
    rewrite ?append_cons, ?append_nil;
    [now apply digits_stop|..];
    cbn [digits]; change (isDigit _) with true; cbv iota;
    rewrite <- IH; f_equal; rewrite ?Nat.tail_mul_spec;
    match goal with
    | |- context [nat_of_ascii ?c] =>
        let v := eval vm_compute in (nat_of_ascii c) in
        change (nat_of_ascii c) with v
    end; lia.
Qed.

Lemma showIndex_decimal (n : nat) :
  CreateOrder.showIndex n = NilEmpty.string_of_uint (Nat.to_uint n).
Proof.
  unfold CreateOrder.showIndex, NilZero.string_of_uint.
  pose proof (DecimalFacts.unorm_nonnil (Nat.to_uint n)) as H.
  rewrite <- (DecimalNat.Unsigned.to_of (Nat.to_uint n)) in H.
  rewrite DecimalNat.Unsigned.of_to in H.
  destruct (Nat.to_uint n); [contradiction|reflexivity..].
Qed.

Lemma digits_showIndex (n : nat) (rest : string) :
  startsWithDigit rest = false ->
  digits 0 (CreateOrder.showIndex n ++ rest) = Z.of_nat n.
Proof.
  intros R. rewrite showIndex_decimal. change 0%Z with (Z.of_nat 0).
  rewrite (digits_decimal (Nat.to_uint n) rest R 0).
  f_equal. apply DecimalNat.Unsigned.of_to.
Qed.

Lemma showIndex_starts_with_digit (n : nat) (rest : string) :
  exists c tail, (CreateOrder.showIndex n ++ rest)%string = String c tail
                 /\ isDigit c = true.
Proof.
  rewrite showIndex_decimal.
  pose proof (DecimalFacts.unorm_nonnil (Nat.to_uint n)) as H.
  rewrite <- (DecimalNat.Unsigned.to_of (Nat.to_uint n)) in H.
  rewrite DecimalNat.Unsigned.of_to in H.
  destruct (Nat.to_uint n); [contradiction|..];
    cbn [NilEmpty.string_of_uint]; rewrite append_cons; eexists _, _; split;
    reflexivity.
Qed.

Lemma number_starts_with_digit (k n : nat) (rest : string) :
  exists c tail, (zeros k ++ CreateOrder.showIndex n ++ rest)%string = String c tail
                 /\ isDigit c = true.
Proof.
  destruct k as [|k]; [apply showIndex_starts_with_digit|].
  cbn [zeros]. rewrite append_cons. eexists _, _. split; reflexivity.
Qed.

(** [parseInt] reads the number a text starts with. *)
Lemma parseInt10_number (white plus rest : string) (k n : nat) :
  blank white = true -> plus = "" \/ plus = "+" -> startsWithDigit rest = false ->
  parseInt10 (white ++ plus ++ zeros k ++ CreateOrder.showIndex n ++ rest)
  = Some (Z.of_nat n).
Proof.
  intros W P R.
  destruct (number_starts_with_digit k n rest) as (c & tail & E & D).
  assert (V : digits 0 (String c tail) = Z.of_nat n).
  { rewrite <- E, digits_zeros. now apply digits_showIndex. }
  rewrite <- V. destruct P as [-> | ->].
  - apply parseInt10_digit; [|exact D].
    rewrite (trimStart_blank white _ W). rewrite append_nil, E.
    apply trimStart_solid. now apply isDigit_not_blank.
  - apply parseInt10_plus; [|exact D].
    rewrite (trimStart_blank white _ W). rewrite append_cons, append_nil, E.
    reflexivity.
Qed.

Lemma limit_parsed (q : option QueryString) :
  limit (fst (parseQueryParameters q))
  = match requestedLimitText q with
    | Some text =>
        match parseInt10 text with
        | Some n => if ((1 <=? n) && (n <=? 100))%Z then n else 10%Z
        | None => 10%Z
        end
    | None => 10%Z
    end.
Proof.
  assert (E : forall text,
            (if nonEmpty text
             then match parseInt10 text with
                  | Some n => if ((0 <? n) && (n <=? 100))%Z then n else 10%Z
                  | None => 10%Z
                  end
             else 10%Z)
            = match parseInt10 text with
              | Some n => if ((1 <=? n) && (n <=? 100))%Z then n else 10%Z
              | None => 10%Z
              end).
  { intros text. destruct (nonEmpty text) eqn:N.
    - destruct (parseInt10 text) as [n|]; [|reflexivity].
      replace (0 <? n)%Z with (1 <=? n)%Z by lia. reflexivity.
    - apply negb_false_iff, String.eqb_eq in N. subst text. reflexivity. }
  unfold parseQueryParameters, requestedLimitText.
  destruct q as [q|]; [|reflexivity].
  destruct (qNextToken q) as [token|];
    [destruct (nonEmpty (tokenText token)); [destruct (JSON_parse (decoded token))|]|];
    cbn [fst limit]; (destruct (qLimit q) as [text|]; [apply E|reflexivity]).
Qed.

(** C6, as amended.  The effective page limit always lies in 1..100.  It
    is the default 10 when no limit is given.  When the text of the
    requested limit starts with a number (after white space and an optional
    plus sign, read up to the first character that is not a digit), the
    limit is that number if it lies in 1..100 and the default 10 if it does
    not; a text that starts with a minus sign or with anything that is not
    a number gives the default 10. *)
Theorem effective_limit_is_request_or_default (q : option QueryString) :
  let effective := limit (fst (parseQueryParameters q)) in
  (1 <= effective <= 100)%Z
  /\ (requestedLimitText q = None -> effective = 10%Z)
  /\ (forall (white plus rest : string) (k n : nat),
        requestedLimitText q
        = Some (white ++ plus ++ zeros k ++ CreateOrder.showIndex n ++ rest) ->
        blank white = true -> plus = "" \/ plus = "+" ->
        startsWithDigit rest = false ->
        effective = if ((1 <=? n) && (n <=? 100))%nat then Z.of_nat n else 10%Z)
  /\ (forall white rest : string,
        requestedLimitText q = Some (white ++ "-" ++ rest) ->
        blank white = true -> effective = 10%Z)
  /\ (forall white rest : string,
        requestedLimitText q = Some (white ++ rest) ->
        blank white = true -> notANumber rest = true -> effective = 10%Z).
Proof.
  cbv zeta. rewrite limit_parsed. split; [|split; [|split; [|split]]].
  - destruct (requestedLimitText q) as [text|]; [|lia].
    destruct (parseInt10 text) as [n|]; [|lia].
    destruct ((1 <=? n) && (n <=? 100))%Z eqn:B; [|lia].
    apply andb_true_iff in B as [B1 B2]. lia.
  - now intros ->.
  - intros white plus rest k n -> W P R.
    rewrite (parseInt10_number white plus rest k n W P R).
    destruct ((1 <=? n) && (n <=? 100))%nat eqn:B.
    + apply andb_true_iff in B as [B1 B2].
      apply Nat.leb_le in B1. apply Nat.leb_le in B2.
      replace ((1 <=? Z.of_nat n) && (Z.of_nat n <=? 100))%Z with true; [reflexivity|].
      symmetry. apply andb_true_iff. split; lia.
    + replace ((1 <=? Z.of_nat n) && (Z.of_nat n <=? 100))%Z with false; [reflexivity|].
      symmetry. apply andb_false_iff. apply andb_false_iff in B as [B|B];
        [left; apply Nat.leb_gt in B|right; apply Nat.leb_gt in B]; lia.
  - intros white rest -> W.
    rewrite (parseInt10_minus (white ++ "-" ++ rest) rest).
    + destruct (startsWithDigit rest); [|reflexivity].
      pose proof (digits_nonneg rest 0 ltac:(lia)) as N.
      destruct ((1 <=? - digits 0 rest) && (- digits 0 rest <=? 100))%Z eqn:B;
        [|reflexivity].
      apply andb_true_iff in B as [B _]. lia.
    + rewrite (trimStart_blank white _ W). reflexivity.
  - intros white rest -> W N.
    rewrite parseInt10_other; [reflexivity|].
    rewrite (trimStart_blank white _ W).
    destruct rest as [|c rest]; [reflexivity|].
    cbn [notANumber] in N.
    assert (Hc : CreateOrder.isWhiteSpace c = false).
    { destruct (CreateOrder.isWhiteSpace c); [discriminate N|reflexivity]. }
    now rewrite (trimStart_solid c rest Hc).
Qed.

Lemma effective_limit_is_request_or_default_witness :
  limit (fst (parseQueryParameters (Some (limitOnly " 50abc")))) = 50%Z.
Proof.
  apply (proj1 (proj2 (proj2 (effective_limit_is_request_or_default
                                (Some (limitOnly " 50abc")))))
           " " "" "abc" 0%nat 50%nat); try reflexivity. now left.
Defined.

(** C6 as stated fails: a requested limit of 500 is not brought down to
    100, the default 10 is used. *)
Lemma limit_500_gives_default :
  requestedLimitText (Some (limitOnly "500")) = Some "500"
  /\ clamp 500 = 100%Z
  /\ limit (fst (parseQueryParameters (Some (limitOnly "500")))) = 10%Z
  /\ limit (fst (parseQueryParameters (Some (limitOnly "500")))) <> clamp 500.
Proof. repeat split; try reflexivity. vm_compute. discriminate. Qed.

(** Texts that only start with a number are read up to the first character
    that is not a digit. *)
Remark limit_texts :
  limit (fst (parseQueryParameters (Some (limitOnly "50abc")))) = 50%Z
  /\ limit (fst (parseQueryParameters (Some (limitOnly "1e3")))) = 1%Z
  /\ limit (fst (parseQueryParameters (Some (limitOnly "12.9")))) = 12%Z
  /\ limit (fst (parseQueryParameters (Some (limitOnly "0")))) = 10%Z
  /\ limit (fst (parseQueryParameters (Some (limitOnly "-5")))) = 10%Z
  /\ limit (fst (parseQueryParameters (Some (limitOnly "ten")))) = 10%Z
  /\ limit (fst (parseQueryParameters (Some (limitOnly "100")))) = 100%Z
  /\ limit (fst (parseQueryParameters (Some (limitOnly "101")))) = 10%Z.
Proof. repeat split. Qed.

(** *** The page *)

Section WithCoercion.

Variable toNumberOther : value -> number.







End WithCoercion.



End ListOrdersFacts.

(** ** The documented scenarios, run end to end *)

Module Scenarios.
Import JS Processor.

(** Creating Alice's order answers 201, stores it as PENDING and publishes
    one event; processing that event confirms the order; reading it back
    gives a total of 10 for one item. *)
Example alice_order_end_to_end :
  let '(created, tbl, queue) :=
    CreateOrder.handler CreateOrder.intakeEnv
      (CreateOrder.request CreateOrder.aliceOrder) ∅ [] in
  let id := CreateOrder.uuid CreateOrder.intakeEnv in
  let batch := map (fun message => {| messageId := "m1"; body := Json message |}) queue in
  let '(tbl', failed) := handler noCoercion calmEnv batch tbl in
  let read := fst (GetOrder.handler noCoercion None (GetOrder.getRequest id) tbl') in
  CreateOrder.statusCode created = 201%nat
  /\ statusOf tbl id = Some (VString "PENDING")
  /\ List.length queue = 1%nat
  /\ failed = []
  /\ statusOf tbl' id = Some (VString "CONFIRMED")
  /\ GetOrder.statusCode read = 200%nat
  /\ GetOrder.dataField read "orderTotal" = VNumber (Double 10)
  /\ GetOrder.dataField read "itemCount" = VNumber (of_nat 1).
Proof. vm_compute. repeat split. Qed.

(** Eleven items at 1 each go to review; one item at 20000 needs
    approval. *)
Example review_and_approval_scenarios :
  processOrderCreated noCoercion (detailOf "o1" "Alice" (VArray elevenCheap))
  = Ok PENDING_REVIEW
  /\ processOrderCreated noCoercion
       (detailOf "o1" "Alice" (VArray [lineItem "x" 1 20000]))
     = Ok PENDING_APPROVAL.
Proof. split; vm_compute; reflexivity. Qed.

(** The total the rules look at is the binary64 sum the code computes,
    and at the threshold its rounding decides.  One item at 10000 and one
    at 5e-14 add up to 10000 in binary64 (to more in exact arithmetic), and
    the order is confirmed; four items that add up to 10000 as decimals
    (and to less as the doubles they are) add up to 10000.000000000002 in
    binary64, and the order needs approval. *)
Example rounding_decides_at_the_threshold :
  (10000 < OrderValue.exactTotalValue [lineItem "x" 1 10000; lineItem "y" 1 5e-14])%Q
  /\ OrderValue.specTotalValue [lineItem "x" 1 10000; lineItem "y" 1 5e-14]
     = Double 10000
  /\ processOrderCreated noCoercion
       (detailOf "o1" "Alice" (VArray [lineItem "x" 1 10000; lineItem "y" 1 5e-14]))
     = Ok CONFIRMED
  /\ (OrderValue.exactTotalValue
        [lineItem "a" 1 4515.16; lineItem "b" 1 3830.79;
         lineItem "c" 1 961.69; lineItem "d" 1 692.36] < 10000)%Q
  /\ OrderValue.specTotalValue
       [lineItem "a" 1 4515.16; lineItem "b" 1 3830.79;
        lineItem "c" 1 961.69; lineItem "d" 1 692.36]
     = Double 10000.000000000002
  /\ processOrderCreated noCoercion
       (detailOf "o1" "Alice"
          (VArray [lineItem "a" 1 4515.16; lineItem "b" 1 3830.79;
                   lineItem "c" 1 961.69; lineItem "d" 1 692.36]))
     = Ok PENDING_APPROVAL.
Proof. repeat split; vm_compute; reflexivity. Qed.

(** The identifier pattern at work. *)
Example identifier_forms :
  GetOrder.isValidUUID "6f1c2d3e-4a5b-4c6d-8e9f-0a1b2c3d4e5f" = true
  /\ GetOrder.isValidUUID "6F1C2D3E-4A5B-4C6D-8E9F-0A1B2C3D4E5F" = true
  /\ GetOrder.isValidUUID "invalid-uuid-format" = false
  /\ GetOrder.isValidUUID "6f1c2d3e-4a5b-7c6d-8e9f-0a1b2c3d4e5f" = false
  /\ GetOrder.isValidUUID "" = false.
Proof. repeat split. Qed.

(** [parseInt] and [trim] on a few texts. *)
Example text_helpers :
  ListOrders.parseInt10 "25" = Some 25%Z
  /\ ListOrders.parseInt10 "  -7px" = Some (-7)%Z
  /\ ListOrders.parseInt10 "ten" = None
  /\ ListOrders.parseInt10 "" = None
  /\ CreateOrder.trim "  Alice  " = "Alice"
  /\ CreateOrder.trim "   " = ""
  /\ ListOrders.toLowerCase "ASC" = "asc".
Proof. repeat split. Qed.

End Scenarios.

(** ** Order intake beyond validation *)

Module CreateOrderMore.
Import JS OrderValue Processor CreateOrder CreateOrderFacts Shapes Samples NumberFacts.

(** What an accepted body looks like. *)
Lemma rejects_false_shape (v : value) :
  rejects v = false ->
  exists props name first rest,
    v = VObject props
    /\ lookupProp "customerName" props = VString name
    /\ String.eqb (trim name) "" = false
    /\ lookupProp "items" props = VArray (first :: rest)
    /\ existsb badItem (first :: rest) = false.
Proof.
  unfold rejects. intros H.
  apply orb_false_iff in H as [H Hitems]. apply orb_false_iff in H as [Hname Hbad].
  unfold badCustomerName in Hname.
  destruct v as [| | | | | |props]; try discriminate Hname.
  unfold getPropOpt in Hname. cbn [getProp] in Hname.
  destruct (lookupProp "customerName" props) as [| | | |name| |] eqn:En;
    try discriminate Hname.
  unfold specBadItems, getPropOpt in Hbad. cbn [getProp] in Hbad.
  unfold itemsOf, getPropOpt in Hitems. cbn [getProp] in Hitems.
  destruct (lookupProp "items" props) as [| | | | |[|first rest]|] eqn:Ei;
    try discriminate Hbad.
  exists props, name, first, rest. repeat split; assumption.
Qed.

Lemma badItem_false_shape (item : value) :
  badItem item = false ->
  isNullish item = false /\ storedItemOk (storedItem item) = true.
Proof.
  unfold badItem. intros H.
  apply orb_false_iff in H as [H Hp]. apply orb_false_iff in H as [Hs Hq].
  unfold badSku in Hs. unfold badQty in Hq. unfold badPrice in Hp.
  destruct item as [| | | | | |props]; try discriminate Hs.
  split; [reflexivity|].
  unfold storedItem, storedItemOk, getPropOpt in *. cbn [getProp] in *.
  cbn [lookupProp String.eqb Ascii.eqb Bool.eqb].
  destruct (lookupProp "sku" props) as [| | | |sku| |]; try discriminate Hs.
  destruct (lookupProp "qty" props) as [| | |q| | |]; try discriminate Hq.
  apply negb_false_iff in Hq. rewrite Hs, Hq. cbn [negb andb].
  destruct (lookupProp "price" props) as [| | |p| | |]; try discriminate Hp;
    try reflexivity.
  unfold or_else. destruct (truthy (VNumber p)) eqn:T; [|reflexivity].
  now apply num_not_negative.
Qed.

Lemma accepted_items_stored_ok (items : list value) :
  existsb badItem items = false ->
  forallb (fun item => negb (isNullish item)) items = true
  /\ forallb storedItemOk (map storedItem items) = true.
Proof.
  induction items as [|item rest IH]; intros H; [split; reflexivity|].
  simpl in H. apply orb_false_iff in H as [Hi Hr].
  destruct (badItem_false_shape item Hi) as [Hn Hok].
  destruct (IH Hr) as [IH1 IH2]. split.
  - cbn [forallb]. now rewrite Hn, IH1.
  - cbn [map forallb]. now rewrite Hok, IH2.
Qed.

(** An accepted body passes [validateOrderData] without a message. *)
Lemma accepted_body_validates (v : value) :
  rejects v = false -> validateOrderData v = Ok (true, violations v).
Proof.
  intros R. destruct (rejects_false_shape v R) as (props & name & first & rest & -> & _ & _ & Ei & Hb).
  rewrite (validateOrderData_readable (VObject props)); [now rewrite R|reflexivity|].
  unfold itemsReadable, itemsOf, getPropOpt. cbn [getProp]. rewrite Ei.
  apply (accepted_items_stored_ok _ Hb).
Qed.

Lemma errorResponse_status (event : Event) (e : exn) :
  statusCode (errorResponse event e) = 409%nat
  \/ statusCode (errorResponse event e) = 500%nat.
Proof.
  unfold errorResponse.
  destruct (match error_code e with Some c => _ | None => _ end); auto.
Qed.

(** Creation succeeds: an accepted order, a store and a queue that answer,
    and an id that is not taken give 201; the order is stored under the new
    id and exactly one event is appended to the queue. *)
Theorem create_stores_and_publishes
  (env : Env) (event : Event) (v : value) (tbl : table) (queue : list value) :
  eventBody event = Some (Json v) ->
  rejects v = false ->
  putFault env = None ->
  sendFault env = None ->
  tbl !! uuid env = None ->
  handler env event tbl queue
  = (createdResponse (uuid env) (timestamp env),
     <[uuid env := newOrder env v]> tbl,
     (queue ++ [eventMessage env (newOrder env v)])%list).
Proof.
  intros Hb R Hp Hs Hl. unfold handler. rewrite Hb. cbn [JSON_parse].
  rewrite (accepted_body_validates v R).
  unfold ddbPut. rewrite Hp, Hl. unfold sqsSend. rewrite Hs. reflexivity.
Qed.

Lemma create_stores_and_publishes_witness :
  handler intakeEnv (request aliceOrder) ∅ []
  = (createdResponse (uuid intakeEnv) (timestamp intakeEnv),
     <[uuid intakeEnv := newOrder intakeEnv aliceOrder]> ∅,
     ([] ++ [eventMessage intakeEnv (newOrder intakeEnv aliceOrder)])%list).
Proof.
  apply (create_stores_and_publishes intakeEnv (request aliceOrder) aliceOrder ∅ []);
    reflexivity.
Defined.

(** An id that is already taken is never overwritten: the conditional
    write fails and neither the table nor the queue changes.  The answer is
    500 with the request id, not the 409 the handler has a branch for: that
    branch tests [error.code], which the exception does not carry. *)
Theorem create_conflict_changes_nothing
  (env : Env) (event : Event) (v : value) (tbl : table) (queue : list value)
  (existing : Item) :
  eventBody event = Some (Json v) ->
  rejects v = false ->
  putFault env = None ->
  tbl !! uuid env = Some existing ->
  statusCode (fst (fst (handler env event tbl queue))) = 500%nat
  /\ getPropOpt (responseBody (fst (fst (handler env event tbl queue)))) "error"
     = VString "Internal Server Error"
  /\ getPropOpt (responseBody (fst (fst (handler env event tbl queue)))) "requestId"
     = VString (requestIdOf event)
  /\ snd (fst (handler env event tbl queue)) = tbl
  /\ snd (handler env event tbl queue) = queue.
Proof.
  intros Hb R Hp Hl. unfold handler. rewrite Hb. cbn [JSON_parse].
  rewrite (accepted_body_validates v R).
  unfold ddbPut. rewrite Hp, Hl. repeat split.
Qed.

Lemma create_conflict_changes_nothing_witness :
  statusCode (fst (fst (handler intakeEnv (request aliceOrder) takenTable []))) = 500%nat
  /\ getPropOpt
       (responseBody (fst (fst (handler intakeEnv (request aliceOrder) takenTable []))))
       "error" = VString "Internal Server Error"
  /\ getPropOpt
       (responseBody (fst (fst (handler intakeEnv (request aliceOrder) takenTable []))))
       "requestId" = VString (requestIdOf (request aliceOrder))
  /\ snd (fst (handler intakeEnv (request aliceOrder) takenTable [])) = takenTable
  /\ snd (handler intakeEnv (request aliceOrder) takenTable []) = [].
Proof.
  apply (create_conflict_changes_nothing intakeEnv (request aliceOrder) aliceOrder
           takenTable []
           (pendingOrder (uuid intakeEnv) "Bob" [lineItem "y" 2 5]));
    reflexivity.
Defined.

(** When the queue fails after the order was stored, nothing is rolled
    back: the answer is an error, the order stays in the table as PENDING
    and no event is published. *)
Theorem create_publish_failure_keeps_order
  (env : Env) (event : Event) (v : value) (tbl : table) (queue : list value)
  (code : string) :
  eventBody event = Some (Json v) ->
  rejects v = false ->
  putFault env = None ->
  tbl !! uuid env = None ->
  sendFault env = Some code ->
  code <> "ConditionalCheckFailedException" ->
  statusCode (fst (fst (handler env event tbl queue))) = 500%nat
  /\ snd (fst (handler env event tbl queue)) !! uuid env = Some (newOrder env v)
  /\ lookupProp "status" (newOrder env v) = VString "PENDING"
  /\ snd (handler env event tbl queue) = queue.
Proof.
  intros Hb R Hp Hl Hs Hc. unfold handler. rewrite Hb. cbn [JSON_parse].
  rewrite (accepted_body_validates v R).
  unfold ddbPut. rewrite Hp, Hl. unfold sqsSend. rewrite Hs. cbn [fst snd].
  repeat split. apply lookup_insert_eq.
Qed.

Lemma create_publish_failure_keeps_order_witness :
  statusCode (fst (fst (handler queueDownEnv (request aliceOrder) ∅ []))) = 500%nat
  /\ snd (fst (handler queueDownEnv (request aliceOrder) ∅ [])) !! uuid queueDownEnv
     = Some (newOrder queueDownEnv aliceOrder)
  /\ lookupProp "status" (newOrder queueDownEnv aliceOrder) = VString "PENDING"
  /\ snd (handler queueDownEnv (request aliceOrder) ∅ []) = [].
Proof.
  apply (create_publish_failure_keeps_order queueDownEnv (request aliceOrder)
           aliceOrder ∅ [] "ServiceUnavailable"); try reflexivity.
  discriminate.
Defined.

(** Whatever the request and the surroundings, the create handler answers
    201, 400, 409 or 500; it publishes an event only with a 201, and then
    exactly one, together with one stored order; and with a 400 it stores
    nothing. *)
Theorem create_effects_follow_status
  (env : Env) (event : Event) (tbl : table) (queue : list value) :
  let response := fst (fst (handler env event tbl queue)) in
  let tbl' := snd (fst (handler env event tbl queue)) in
  let queue' := snd (handler env event tbl queue) in
  (statusCode response = 201%nat \/ statusCode response = 400%nat
   \/ statusCode response = 409%nat \/ statusCode response = 500%nat)
  /\ (statusCode response <> 201%nat -> queue' = queue)
  /\ (statusCode response = 400%nat -> tbl' = tbl)
  /\ (statusCode response = 201%nat ->
      exists v, eventBody event = Some (Json v)
                /\ tbl !! uuid env = None
                /\ tbl' = <[uuid env := newOrder env v]> tbl
                /\ queue' = (queue ++ [eventMessage env (newOrder env v)])%list).
Proof.
  cbv zeta. unfold handler.
  destruct (eventBody event) as [[|v]|] eqn:Hb; cbn [JSON_parse].
  - cbn [fst snd]. repeat split; auto; discriminate.
  - destruct (validateOrderData v) as [[[|] errors]|e] eqn:V.
    + unfold ddbPut. destruct (putFault env) as [c|].
      * cbn [fst snd]. pose proof (errorResponse_status event (AwsError c)) as [E|E];
          rewrite E; repeat split; auto; discriminate.
      * destruct (tbl !! uuid env) eqn:L.
        -- cbn [fst snd].
           pose proof (errorResponse_status event
                         (AwsError "ConditionalCheckFailedException")) as [E|E];
             rewrite E; repeat split; auto; discriminate.
        -- unfold sqsSend. destruct (sendFault env) as [c|]; cbn [fst snd].
           ++ pose proof (errorResponse_status event (AwsError c)) as [E|E];
                rewrite E; repeat split; auto; try discriminate.
           ++ repeat split; auto; try discriminate; try contradiction.
              intros _. exists v. repeat split; reflexivity.
    + destruct (getProp v "items"); cbn [fst snd].
      * repeat split; auto; discriminate.
      * pose proof (errorResponse_status event e) as [E|E];
          rewrite E; repeat split; auto; discriminate.
    + cbn [fst snd]. pose proof (errorResponse_status event e) as [E|E];
        rewrite E; repeat split; auto; discriminate.
  - (* no body: the empty object is validated and rejected *)
    cbn [fst snd]. repeat split; auto; discriminate.
Qed.

(** What the intake stores for an accepted body: the trimmed, non-blank
    customer name, at least one item, every item with a non-empty sku, a
    positive qty and a price that is a number and not negative (0 when the
    request gave none), the status PENDING, and equal creation and update
    times. *)
Theorem accepted_order_is_stored_well_formed (env : Env) (v : value) :
  rejects v = false ->
  exists name items,
    getPropOpt v "customerName" = VString name
    /\ getPropOpt v "items" = VArray items
    /\ items <> []
    /\ lookupProp "customerName" (newOrder env v) = VString (trim name)
    /\ trim name <> ""
    /\ lookupProp "items" (newOrder env v) = VArray (map storedItem items)
    /\ forallb storedItemOk (map storedItem items) = true
    /\ lookupProp "status" (newOrder env v) = VString "PENDING"
    /\ lookupProp "createdAt" (newOrder env v) = lookupProp "updatedAt" (newOrder env v).
Proof.
  intros R.
  destruct (rejects_false_shape v R)
    as (props & name & first & rest & -> & En & Hn & Ei & Hb).
  exists name, (first :: rest).
  unfold newOrder, getPropOpt. cbn [getProp]. rewrite En, Ei.
  repeat split; try reflexivity.
  - discriminate.
  - intros E. rewrite E in Hn. discriminate.
  - apply (accepted_items_stored_ok _ Hb).
Qed.

Lemma accepted_order_is_stored_well_formed_witness :
  exists name items,
    getPropOpt aliceOrder "customerName" = VString name
    /\ getPropOpt aliceOrder "items" = VArray items
    /\ items <> []
    /\ lookupProp "customerName" (newOrder intakeEnv aliceOrder) = VString (trim name)
    /\ trim name <> ""
    /\ lookupProp "items" (newOrder intakeEnv aliceOrder) = VArray (map storedItem items)
    /\ forallb storedItemOk (map storedItem items) = true
    /\ lookupProp "status" (newOrder intakeEnv aliceOrder) = VString "PENDING"
    /\ lookupProp "createdAt" (newOrder intakeEnv aliceOrder)
       = lookupProp "updatedAt" (newOrder intakeEnv aliceOrder).
Proof.
  apply (accepted_order_is_stored_well_formed intakeEnv aliceOrder). reflexivity.
Defined.

End CreateOrderMore.

(** ** The order processor beyond the batch contract *)

Module ProcessorMore.
Import JS OrderValue Processor Shapes NumberFacts ProcessorBatch.

Lemma truthy_readable (v : value) : truthy v = true -> CreateOrder.isNullish v = false.
Proof. destruct v; simpl; congruence. Qed.

Section WithCoercion.

Variable toNumberOther : value -> number.

(** A null entry makes the totalling callback throw. *)
Lemma reduce_unreadable (elems : list value) : forall acc,
  forallb (fun item => negb (CreateOrder.isNullish item)) elems = false ->
  reduce (addLine toNumberOther) elems acc = Throw TypeError.
Proof.
  induction elems as [|item rest IH]; intros acc H; [discriminate|].
  simpl in H. cbn [reduce].
  destruct (CreateOrder.isNullish item) eqn:N.
  - destruct item; try discriminate N; reflexivity.
  - simpl in H. unfold addLine at 1.
    rewrite !(CreateOrderFacts.getProp_readable item _ N). cbn [bind].
    apply IH, H.
Qed.

Lemma processRecord_updated fault now_ tbl record messageBody detail id outcome stored :
  body record = Json messageBody ->
  getProp messageBody "type" = Ok (VString "OrderCreated") ->
  getProp messageBody "detail" = Ok detail ->
  getPropOpt detail "id" = VString id ->
  id <> "" ->
  processOrderCreated toNumberOther detail = Ok outcome ->
  fault = None ->
  tbl !! id = Some stored ->
  processRecord toNumberOther fault now_ tbl record
  = (Updated, <[id := processed outcome now_ stored]> tbl).
Proof.
  intros Hb Hty Hde Hid Hne Hp -> L.
  assert (Htr : truthy detail = true).
  { destruct detail; try reflexivity; simpl in Hid; discriminate. }
  unfold processRecord, tryRecord. rewrite Hb. cbn [JSON_parse].
  rewrite Hty, Hde. cbn [bind truthy isOrderCreated].
  rewrite Htr. simpl (negb _ || negb _). cbv iota.
  rewrite String.eqb_refl, Hid.
  rewrite (proj2 (truthy_string id) Hne). cbn [negb]. rewrite Hp. cbn [bind].
  unfold ddbUpdate. rewrite L. reflexivity.
Qed.


(** A message that is reported as failed has changed nothing in the table;
    and a batch in which every message is reported leaves the table as it
    was. *)
Theorem failed_messages_change_nothing (env : Env) (records : list SQSRecord)
  (tbl : table) :
  (forall i record,
     pushesFailure
       (fst (processRecord toNumberOther (fault env i) (now env i) tbl record)) = true ->
     snd (processRecord toNumberOther (fault env i) (now env i) tbl record) = tbl)
  /\ (List.length (snd (handler toNumberOther env records tbl)) = List.length records ->
      fst (handler toNumberOther env records tbl) = tbl).
Proof.
  assert (One : forall f n t record,
            pushesFailure (fst (processRecord toNumberOther f n t record)) = true ->
            snd (processRecord toNumberOther f n t record) = t).
  { intros f n t record. unfold processRecord, tryRecord.
    destruct (JSON_parse (body record)) as [mb|]; [|intros _; reflexivity].
    destruct (getProp mb "type") as [ty|]; cbn [bind]; [|intros _; reflexivity].
    destruct (getProp mb "detail") as [de|]; cbn [bind]; [|intros _; reflexivity].
    destruct (negb (truthy ty) || negb (truthy de)); [intros _; reflexivity|].
    destruct (isOrderCreated ty); [|intros _; reflexivity].
    destruct (negb (truthy (getPropOpt de "id"))); [intros _; reflexivity|].
    destruct (processOrderCreated toNumberOther de); cbn [bind];
      [|intros _; reflexivity].
    destruct (ddbUpdate _ _ _ _ _ _); cbn [bind fst snd pushesFailure];
      [discriminate|intros _; reflexivity]. }
  split; [intros i record; apply One|].
  unfold handler.
  assert (G : forall records i t acc,
            (List.length (snd (processRecords toNumberOther env i records t acc))
             <= List.length acc + List.length records)%nat
            /\ (List.length (snd (processRecords toNumberOther env i records t acc))
                = (List.length acc + List.length records)%nat ->
                fst (processRecords toNumberOther env i records t acc) = t)).
  { clear records. induction records as [|r rest IH]; intros i t acc; cbn [processRecords].
    - cbn [fst snd List.length]. split; [lia|reflexivity].
    - pose proof (One (fault env i) (now env i) t r) as O.
      destruct (processRecord toNumberOther (fault env i) (now env i) t r) as [b t'].
      cbn [fst snd] in O.
      destruct (pushesFailure b).
      + specialize (IH (S i) t' (acc ++ [messageId r])%list) as [L E].
        rewrite length_app in L, E. cbn [List.length] in *.
        split; [lia|]. intros H. rewrite E by lia. now apply O.
      + specialize (IH (S i) t' acc) as [L E]. cbn [List.length].
        split; [lia|]. intros H. lia. }
  intros H. apply (G records 0%nat tbl []). exact H.
Qed.

(** A successful update writes [status], [updatedAt] and [processingNotes]
    of the one order the event names, the order whose id is the [detail.id]
    of the message, and nothing else: every other attribute of that order
    and every other order is as before, the new status is one of CONFIRMED,
    PENDING_REVIEW and PENDING_APPROVAL, and [updatedAt] is the time of
    processing. *)
Theorem update_writes_three_attributes (fault : option string) (now_ : string)
  (tbl tbl' : table) (record : SQSRecord) :
  processRecord toNumberOther fault now_ tbl record = (Updated, tbl') ->
  exists messageBody detail id,
    body record = Json messageBody
    /\ getProp messageBody "detail" = Ok detail
    /\ getPropOpt detail "id" = VString id
    /\ is_Some (tbl !! id)
    /\ (forall k, untouchedAttribute k -> attributeOf tbl' id k = attributeOf tbl id k)
    /\ (forall other, other <> id -> tbl' !! other = tbl !! other)
    /\ attributeOf tbl' id "updatedAt" = Some (VString now_)
    /\ (exists outcome,
          (outcome = CONFIRMED \/ outcome = PENDING_REVIEW \/ outcome = PENDING_APPROVAL)
          /\ attributeOf tbl' id "status" = Some (VString (fst outcome))
          /\ attributeOf tbl' id "processingNotes" = Some (VString (snd outcome))).
Proof.
  intros E.
  destruct (processRecord_updated_inv toNumberOther _ _ _ _ _ E)
    as (mb & de & id & outcome & stored & Hb & _ & Hde & Hid & _ & Hp & _ & L & ->).
  exists mb, de, id. split; [exact Hb|]. split; [exact Hde|]. split; [exact Hid|].
  split; [eauto|]. unfold attributeOf, processed.
  rewrite lookup_insert_eq, L. repeat split.
  - intros k (H1 & H2 & H3). f_equal.
    rewrite (lookupProp_setAttr_ne "processingNotes" k _ _ H3).
    rewrite (lookupProp_setAttr_ne "updatedAt" k _ _ H2).
    apply (lookupProp_setAttr_ne "status" k _ _ H1).
  - intros other Hne. apply lookup_insert_ne. congruence.
  - f_equal. rewrite lookupProp_setAttr_ne by discriminate.
    apply lookupProp_setAttr_eq.
  - exists outcome. repeat split.
    + unfold processOrderCreated in Hp.
      destruct (getProp de "items") as [items|]; [|discriminate]. cbn [bind] in Hp.
      destruct (if truthy items then _ else _) as [o1|] eqn:O1; [|discriminate].
      cbn [bind] in Hp.
      destruct (totalValue toNumberOther items) as [total|]; [|discriminate].
      cbn [bind] in Hp. injection Hp as <-.
      destruct (num_gt total (Double 10000)); [auto|].
      destruct (truthy items).
      * destruct (getProp items "length") as [len|]; [|discriminate].
        cbn [bind] in O1. injection O1 as <-.
        destruct (gt_literal toNumberOther len (Count 10)); auto.
      * injection O1 as <-. auto.
    + f_equal. rewrite !lookupProp_setAttr_ne by discriminate.
      apply lookupProp_setAttr_eq.
    + f_equal. apply lookupProp_setAttr_eq.
Qed.

(** The processor never creates or deletes an order: after any batch the
    table holds exactly the orders it held before. *)
Theorem batch_keeps_the_orders (env : Env) (records : list SQSRecord) (tbl : table) :
  sameKeys tbl (fst (handler toNumberOther env records tbl)).
Proof.
  unfold handler. generalize (@nil string) as acc. generalize 0%nat as i.
  revert tbl. induction records as [|r rest IH]; intros tbl i acc; cbn [processRecords].
  - apply sameKeys_refl.
  - pose proof (processRecord_keys toNumberOther (fault env i) (now env i) tbl r) as K.
    destruct (processRecord toNumberOther (fault env i) (now env i) tbl r) as [b t'].
    cbn [snd] in K. eapply sameKeys_trans; [exact K|apply IH].
Qed.

(** Delivering an event again after it was processed succeeds again and
    writes the same status and notes: only [updatedAt] can differ. *)
Theorem redelivery_repeats_the_outcome (now1 now2 : string)
  (tbl tbl1 : table) (record : SQSRecord) :
  processRecord toNumberOther None now1 tbl record = (Updated, tbl1) ->
  exists tbl2,
    processRecord toNumberOther None now2 tbl1 record = (Updated, tbl2)
    /\ forall id k, k <> "updatedAt" -> attributeOf tbl2 id k = attributeOf tbl1 id k.
Proof.
  intros E.
  destruct (processRecord_updated_inv toNumberOther _ _ _ _ _ E)
    as (mb & de & id & outcome & stored & Hb & Hty & Hde & Hid & Hne & Hp & _ & L & ->).
  eexists. split.
  - apply (processRecord_updated None now2 _ record mb de id outcome
             (processed outcome now1 stored)); try assumption; try reflexivity.
    apply lookup_insert_eq.
  - intros id' k Hk. unfold attributeOf.
    destruct (decide (id' = id)) as [->|Hd].
    + rewrite !lookup_insert_eq. f_equal. unfold processed.
      destruct (String.eqb k "processingNotes") eqn:E1.
      { apply String.eqb_eq in E1. subst k. now rewrite !lookupProp_setAttr_eq. }
      assert (N1 : k <> "processingNotes")
        by (intros ->; now rewrite String.eqb_refl in E1).
      rewrite !(lookupProp_setAttr_ne "processingNotes" k _ _ N1).
      rewrite !(lookupProp_setAttr_ne "updatedAt" k _ _ Hk).
      destruct (String.eqb k "status") eqn:E2.
      { apply String.eqb_eq in E2. subst k. now rewrite !lookupProp_setAttr_eq. }
      assert (N2 : k <> "status") by (intros ->; now rewrite String.eqb_refl in E2).
      rewrite (lookupProp_setAttr_ne "status" k _ _ N2).
      rewrite (lookupProp_setAttr_ne "processingNotes" k _ _ N1).
      rewrite (lookupProp_setAttr_ne "updatedAt" k _ _ Hk).
      reflexivity.
    + rewrite (lookup_insert_ne _ id id') by congruence. reflexivity.
Qed.


End WithCoercion.

Lemma failed_messages_change_nothing_witness :
  snd (processRecord noCoercion (fault calmEnv 0) (now calmEnv 0) sampleTable
         {| messageId := "m2"; body := Unparsable |}) = sampleTable.
Proof.
  apply (proj1 (failed_messages_change_nothing noCoercion calmEnv [] sampleTable)
           0%nat {| messageId := "m2"; body := Unparsable |}).
  reflexivity.
Defined.

Lemma update_writes_three_attributes_witness :
  exists messageBody detail id,
    body bareItemsMessage = Json messageBody
    /\ getProp messageBody "detail" = Ok detail
    /\ getPropOpt detail "id" = VString id
    /\ is_Some (sampleTable !! id)
    /\ (forall k, untouchedAttribute k ->
          attributeOf (snd (processRecord noCoercion None "2024-05-01T10:00:01.000Z"
                              sampleTable bareItemsMessage)) id k
          = attributeOf sampleTable id k)
    /\ (forall other, other <> id ->
          snd (processRecord noCoercion None "2024-05-01T10:00:01.000Z"
                 sampleTable bareItemsMessage) !! other = sampleTable !! other)
    /\ attributeOf (snd (processRecord noCoercion None "2024-05-01T10:00:01.000Z"
                           sampleTable bareItemsMessage)) id "updatedAt"
       = Some (VString "2024-05-01T10:00:01.000Z")
    /\ (exists outcome,
          (outcome = CONFIRMED \/ outcome = PENDING_REVIEW \/ outcome = PENDING_APPROVAL)
          /\ attributeOf (snd (processRecord noCoercion None "2024-05-01T10:00:01.000Z"
                                 sampleTable bareItemsMessage)) id "status"
             = Some (VString (fst outcome))
          /\ attributeOf (snd (processRecord noCoercion None "2024-05-01T10:00:01.000Z"
                                 sampleTable bareItemsMessage)) id "processingNotes"
             = Some (VString (snd outcome))).
Proof.
  apply (update_writes_three_attributes noCoercion None "2024-05-01T10:00:01.000Z"
           sampleTable _ bareItemsMessage).
  vm_compute. reflexivity.
Defined.

Lemma redelivery_repeats_the_outcome_witness :
  exists tbl2,
    processRecord noCoercion None "2024-05-01T10:05:00.000Z"
      (snd (processRecord noCoercion None "2024-05-01T10:00:01.000Z"
              sampleTable bareItemsMessage)) bareItemsMessage = (Updated, tbl2)
    /\ forall id k, k <> "updatedAt" ->
         attributeOf tbl2 id k
         = attributeOf (snd (processRecord noCoercion None "2024-05-01T10:00:01.000Z"
                               sampleTable bareItemsMessage)) id k.
Proof.
  apply (redelivery_repeats_the_outcome noCoercion "2024-05-01T10:00:01.000Z"
           "2024-05-01T10:05:00.000Z" sampleTable _ bareItemsMessage).
  vm_compute. reflexivity.
Defined.

End ProcessorMore.

(** ** Read by id beyond the status codes *)

Module GetOrderMore.
Import JS OrderValue Processor OrderView GetOrder Shapes Samples NumberFacts
  ProcessorBatch GetOrderFacts.

Section WithCoercion.

Variable toNumberOther : value -> number.

(** The derived fields can be computed exactly for the orders none of
    whose items is [null]; for any other order the computation throws a
    TypeError. *)
Lemma enrich_unreadable (order : Item) :
  orderReadable order = false -> enrich toNumberOther order = Throw TypeError.
Proof.
  unfold orderReadable, enrich, orderTotal. intros H.
  destruct (lookupProp "items" order) as [| | | | | elems |]; try discriminate.
  now rewrite (ProcessorMore.reduce_unreadable toNumberOther elems zero H).
Qed.

(** A stored order with a [null] item cannot be read back: the request is
    answered with 500 and the caller's request id. *)
Theorem unreadable_order_answers_500
  (event : Event) (tbl : table) (id : string) (order : Item) :
  requestedId event = Some id ->
  isValidUUID id = true ->
  tbl !! id = Some order ->
  orderReadable order = false ->
  statusCode (fst (handler toNumberOther None event tbl)) = 500%nat
  /\ getPropOpt (responseBody (fst (handler toNumberOther None event tbl))) "requestId"
     = VString (requestIdOf event).
Proof.
  intros Hid Hv Hl Hr. unfold handler.
  rewrite Hid, (isValidUUID_nonempty id Hv), Hv. cbn [negb ddbGet]. rewrite Hl.
  rewrite (enrich_unreadable order Hr). split; reflexivity.
Qed.

(** A fault of the store on a well-formed request is answered 500 with
    the caller's request id, whatever the exception: the 404 and 429
    branches of the handler test [error.code], which the exceptions of the
    client do not carry.  A request whose id is missing or ill-formed is
    answered 400 without asking the store, and the table is never
    changed. *)
Theorem store_faults_answer_500 (name : string) (event : Event) (tbl : table) :
  let response := fst (handler toNumberOther (Some name) event tbl) in
  (wellFormedRequest event = false ->
   statusCode response = 400%nat /\ errorOf response = VString "Bad Request")
  /\ (wellFormedRequest event = true ->
      statusCode response = 500%nat
      /\ errorOf response = VString "Internal Server Error"
      /\ getPropOpt (responseBody response) "requestId"
         = VString (requestIdOf event))
  /\ snd (handler toNumberOther (Some name) event tbl) = tbl.
Proof.
  cbv zeta. unfold handler, wellFormedRequest.
  destruct (requestedId event) as [id|];
    [|split; [split; reflexivity|split; [discriminate|reflexivity]]].
  split; [|split].
  - intros ->. cbn [negb]. destruct (String.eqb id ""); split; reflexivity.
  - intros Hv. rewrite (isValidUUID_nonempty id Hv), Hv. cbn [negb ddbGet fst].
    repeat split.
  - destruct (String.eqb id ""); [reflexivity|].
    destruct (negb (isValidUUID id)); reflexivity.
Qed.

End WithCoercion.

Lemma unreadable_order_answers_500_witness :
  statusCode (fst (handler noCoercion None (getRequest aliceId) brokenTable)) = 500%nat
  /\ getPropOpt (responseBody (fst (handler noCoercion None (getRequest aliceId)
                                      brokenTable))) "requestId"
     = VString (requestIdOf (getRequest aliceId)).
Proof.
  apply (unreadable_order_answers_500 noCoercion (getRequest aliceId) brokenTable
           aliceId brokenOrder); reflexivity.
Defined.

Lemma store_faults_answer_500_witness :
  statusCode (fst (handler noCoercion (Some "ProvisionedThroughputExceededException")
                     (getRequest aliceId) ordersTable)) = 500%nat
  /\ errorOf (fst (handler noCoercion (Some "ProvisionedThroughputExceededException")
                     (getRequest aliceId) ordersTable))
     = VString "Internal Server Error"
  /\ getPropOpt
       (responseBody (fst (handler noCoercion
                             (Some "ProvisionedThroughputExceededException")
                             (getRequest aliceId) ordersTable))) "requestId"
     = VString (requestIdOf (getRequest aliceId)).
Proof.
  apply (proj1 (proj2 (store_faults_answer_500 noCoercion
                         "ProvisionedThroughputExceededException"
                         (getRequest aliceId) ordersTable)));
    reflexivity.
Defined.

End GetOrderMore.

(** ** The identifier pattern *)

Module IdentifierFacts.
Import JS GetOrder Shapes.

Lemma test_sound (pattern : list charClass) : forall s,
  test pattern s = true ->
  String.length s = List.length pattern
  /\ forall i cl, nth_error pattern i = Some cl -> charIn cl s i.
Proof.
  induction pattern as [|cl0 rest IH]; intros s H.
  - destruct s; [|discriminate]. split; [reflexivity|].
    intros [|i] cl; discriminate.
  - destruct s as [|c s']; [discriminate|]. cbn [test] in H.
    apply andb_true_iff in H as [Hc Hr]. destruct (IH s' Hr) as [Hl Hn].
    split; [cbn; now rewrite Hl|].
    intros [|i] cl Hi; cbn in Hi.
    + injection Hi as <-. exact Hc.
    + unfold charIn. cbn [String.get]. apply (Hn i cl Hi).
Qed.

Lemma test_complete (pattern : list charClass) : forall s,
  String.length s = List.length pattern ->
  (forall i cl, nth_error pattern i = Some cl -> charIn cl s i) ->
  test pattern s = true.
Proof.
  induction pattern as [|cl0 rest IH]; intros s Hl Hn.
  - destruct s; [reflexivity|discriminate].
  - destruct s as [|c s']; [discriminate|]. cbn [test].
    apply andb_true_iff. split.
    + apply (Hn 0%nat cl0 eq_refl).
    + apply IH; [now injection Hl|].
      intros i cl Hi. apply (Hn (S i) cl Hi).
Qed.

Lemma inClass_chars (cl : charClass) (c : ascii) :
  inClass cl c
  = occurs c match cl with
             | HexDigit => "0123456789abcdefABCDEF"
             | Dash => "-"
             | Version => "12345"
             | Variant => "89abAB"
             end.
Proof.
  destruct cl; destruct c as [[|] [|] [|] [|] [|] [|] [|] [|]]; reflexivity.
Qed.

Lemma pattern_at (i : nat) (cl : charClass) :
  nth_error uuidRegex i = Some cl ->
  forall c, inClass cl c = occurs c (allowedAt i).
Proof.
  intros H c. rewrite inClass_chars. f_equal.
  do 36 (destruct i as [|i]; [injection H as <-; reflexivity|]).
  destruct i; discriminate H.
Qed.

Lemma get_Some_lt (s : string) : forall i c,
  String.get i s = Some c -> (i < String.length s)%nat.
Proof.
  induction s as [|c0 s IH]; intros i c H; [discriminate|].
  destruct i as [|i]; cbn; [lia|]. cbn in H. apply IH in H. lia.
Qed.

Lemma get_lt_Some (s : string) : forall i,
  (i < String.length s)%nat -> exists c, String.get i s = Some c.
Proof.
  induction s as [|c0 s IH]; intros i H; cbn in H; [lia|].
  destruct i as [|i]; cbn; [eauto|]. apply IH. lia.
Qed.

(** The identifier check accepts exactly the texts of 36 characters with a
    dash at positions 8, 13, 18 and 23, one of 1 to 5 at position 14, one
    of 8, 9, a, b (in either case) at position 19 and a hexadecimal digit
    (in either case) everywhere else; nothing may come before or after. *)
Theorem identifier_form (id : string) :
  isValidUUID id = true
  <-> String.length id = 36%nat
      /\ forall i c, String.get i id = Some c -> occurs c (allowedAt i) = true.
Proof.
  unfold isValidUUID. split.
  - intros H. destruct (test_sound uuidRegex id H) as [Hl Hn].
    split; [exact Hl|]. intros i c Hc.
    pose proof (get_Some_lt id i c Hc) as Hi. rewrite Hl in Hi.
    destruct (nth_error uuidRegex i) as [cl|] eqn:E;
      [|apply nth_error_None in E; lia].
    specialize (Hn i cl E). unfold charIn in Hn. rewrite Hc in Hn.
    now rewrite <- (pattern_at i cl E).
  - intros [Hl Hn]. apply test_complete; [exact Hl|].
    intros i cl E. unfold charIn.
    assert (Hi : (i < String.length id)%nat).
    { rewrite Hl. change 36%nat with (List.length uuidRegex).
      apply nth_error_Some. congruence. }
    destruct (get_lt_Some id i Hi) as (c & Hc). rewrite Hc.
    rewrite (pattern_at i cl E). now apply Hn.
Qed.

(** An accepted identifier has its dashes after 8, 13, 18 and 23
    characters, a version digit from 1 to 5 and a variant digit among 8, 9,
    a, b. *)
Theorem identifier_landmarks (id : string) :
  isValidUUID id = true ->
  charIn Dash id 8 /\ charIn Dash id 13 /\ charIn Dash id 18 /\ charIn Dash id 23
  /\ charIn Version id 14 /\ charIn Variant id 19.
Proof.
  intros H. destruct (test_sound uuidRegex id H) as [_ Hn].
  repeat split; apply Hn; reflexivity.
Qed.

Lemma identifier_landmarks_witness :
  charIn Dash aliceId 8 /\ charIn Dash aliceId 13 /\ charIn Dash aliceId 18
  /\ charIn Dash aliceId 23 /\ charIn Version aliceId 14 /\ charIn Variant aliceId 19.
Proof. apply (identifier_landmarks aliceId). reflexivity. Defined.

Lemma inClass_lowerChar (cl : charClass) (c : ascii) :
  inClass cl (ListOrders.lowerChar c) = inClass cl c.
Proof.
  destruct c as [[|] [|] [|] [|] [|] [|] [|] [|]]; destruct cl; reflexivity.
Qed.

(** The check does not depend on the case of the letters. *)
Theorem identifier_case_is_ignored (id : string) :
  isValidUUID (ListOrders.toLowerCase id) = isValidUUID id.
Proof.
  unfold isValidUUID. generalize uuidRegex as pattern.
  induction id as [|c rest IH]; intros pattern.
  - reflexivity.
  - destruct pattern as [|cl pattern']; [reflexivity|].
    cbn [ListOrders.toLowerCase test]. now rewrite inClass_lowerChar, IH.
Qed.

End IdentifierFacts.

(** ** Listing orders beyond the limit and the token *)

Module ListOrdersMore.
Import JS Processor OrderView ListOrders Shapes Samples ProcessorBatch ListOrdersFacts.

Lemma includes_In (l : list string) (s : string) : includes l s = true <-> In s l.
Proof.
  unfold includes. rewrite existsb_exists. split.
  - intros (x & Hx & E). apply String.eqb_eq in E. now subst.
  - intros H. exists s. split; [exact H|apply String.eqb_refl].
Qed.

Lemma status_parsed (q : QueryString) :
  status (fst (parseQueryParameters (Some q)))
  = match qStatus q with
    | Some text =>
        if nonEmpty text && includes orderStatuses text then Some text else None
    | None => None
    end.
Proof.
  unfold parseQueryParameters.
  destruct (qNextToken q) as [token|];
    [destruct (nonEmpty (tokenText token)); [destruct (JSON_parse (decoded token))|]|];
    reflexivity.
Qed.

Lemma sortOrder_parsed (q : QueryString) :
  sortOrder (fst (parseQueryParameters (Some q)))
  = match qSortOrder q with
    | Some text =>
        if nonEmpty text && includes ["asc"; "desc"] (toLowerCase text)
        then toLowerCase text else "desc"
    | None => "desc"
    end.
Proof.
  unfold parseQueryParameters.
  destruct (qNextToken q) as [token|];
    [destruct (nonEmpty (tokenText token)); [destruct (JSON_parse (decoded token))|]|];
    reflexivity.
Qed.

Lemma sort_is_asc_or_desc (q : option QueryString) :
  sortOrder (fst (parseQueryParameters q)) = "asc"
  \/ sortOrder (fst (parseQueryParameters q)) = "desc".
Proof.
  destruct q as [q|]; [|now right]. rewrite sortOrder_parsed.
  destruct (qSortOrder q) as [text|]; [|now right].
  destruct (nonEmpty text && includes ["asc"; "desc"] (toLowerCase text)) eqn:B;
    [|now right].
  apply andb_true_iff in B as [_ B]. apply includes_In in B.
  destruct B as [<-|[<-|[]]]; auto.
Qed.

Lemma sort_asc_iff (q : option QueryString) :
  sortOrder (fst (parseQueryParameters q)) = "asc"
  <-> exists text, requestedSort q = Some text /\ toLowerCase text = "asc".
Proof.
  destruct q as [q|];
    [|split; [discriminate|intros (t & Ht & _); discriminate]].
  rewrite sortOrder_parsed. cbn [requestedSort].
  destruct (qSortOrder q) as [text|];
    [|split; [discriminate|intros (t & Ht & _); discriminate]].
  destruct (nonEmpty text && includes ["asc"; "desc"] (toLowerCase text)) eqn:B.
  - split; [intros H; now exists text|].
    intros (t & [= <-] & Ht). exact Ht.
  - split; [discriminate|]. intros (t & [= <-] & Ht).
    rewrite Ht in B. cbn in B. rewrite andb_true_r in B.
    unfold nonEmpty in B. apply negb_false_iff, String.eqb_eq in B.
    subst text. discriminate.
Qed.

Lemma status_iff (q : option QueryString) (st : string) :
  status (fst (parseQueryParameters q)) = Some st
  <-> requestedStatus q = Some st /\ In st orderStatuses.
Proof.
  destruct q as [q|]; [|split; [discriminate|intros [H _]; discriminate]].
  rewrite status_parsed. cbn [requestedStatus].
  destruct (qStatus q) as [text|];
    [|split; [discriminate|intros [H _]; discriminate]].
  destruct (nonEmpty text && includes orderStatuses text) eqn:B.
  - apply andb_true_iff in B as [_ B]. apply includes_In in B.
    split; [intros [= <-]; now split|intros [[= <-] _]; reflexivity].
  - split; [discriminate|]. intros [[= <-] Hin].
    apply includes_In in Hin. rewrite Hin, andb_true_r in B.
    unfold nonEmpty in B. apply negb_false_iff, String.eqb_eq in B.
    subst text. vm_compute in Hin. discriminate.
Qed.

(** Whatever the query string, the parsed parameters are well formed: the
    sort order is asc or desc (asc exactly when the request says so in any
    case of letters), and the status filter is the requested status when
    that is one of the five order statuses and absent otherwise. *)
Theorem parsed_parameters_are_well_formed (q : option QueryString) :
  let queryParams := fst (parseQueryParameters q) in
  (sortOrder queryParams = "asc" \/ sortOrder queryParams = "desc")
  /\ (sortOrder queryParams = "asc"
      <-> exists text, requestedSort q = Some text /\ toLowerCase text = "asc")
  /\ (forall st, status queryParams = Some st
                 <-> requestedStatus q = Some st /\ In st orderStatuses).
Proof.
  cbv zeta. split; [|split].
  - apply sort_is_asc_or_desc.
  - apply sort_asc_iff.
  - intros st. apply status_iff.
Qed.

(** The status index is queried exactly when the request names one of the
    five statuses, in the direction the sort order asks for; any other
    request scans the table. *)
Theorem index_is_queried_iff_valid_status (q : option QueryString) :
  match commandFor (fst (parseQueryParameters q)) with
  | QueryCommand st lim forward key =>
      requestedStatus q = Some st /\ In st orderStatuses
      /\ lim = limit (fst (parseQueryParameters q))
      /\ (forward = true
          <-> exists text, requestedSort q = Some text /\ toLowerCase text = "asc")
  | ScanCommand lim key =>
      (forall st, requestedStatus q = Some st -> ~ In st orderStatuses)
      /\ lim = limit (fst (parseQueryParameters q))
  end.
Proof.
  pose proof (sort_asc_iff q) as Ha. pose proof (status_iff q) as Hst.
  unfold commandFor.
  destruct (status (fst (parseQueryParameters q))) as [st|] eqn:E.
  - destruct (proj1 (Hst st) eq_refl) as [H1 H2].
    repeat split; try assumption.
    + intros F. apply Ha. now apply String.eqb_eq.
    + intros F. apply String.eqb_eq. now apply Ha.
  - split; [|reflexivity]. intros st Hr Hin.
    assert (None = Some st) by (apply Hst; now split). discriminate.
Qed.

Lemma key_parsed (q : QueryString) :
  lastEvaluatedKey (fst (parseQueryParameters (Some q)))
  = match qNextToken q with
    | Some token =>
        if nonEmpty (tokenText token) then
          match decoded token with
          | Json v => v
          | Unparsable => VNull
          end
        else VNull
    | None => VNull
    end.
Proof.
  unfold parseQueryParameters.
  destruct (qNextToken q) as [token|]; [|reflexivity].
  destruct (nonEmpty (tokenText token)); [|reflexivity].
  destruct (decoded token); reflexivity.
Qed.

(** The store is asked to resume exactly when the request carries a
    non-empty token that decodes to a truthy JSON value, and then from that
    value; with no token, a token that cannot be decoded or one that
    decodes to null, 0, false or the empty text, the listing starts from the
    beginning. *)
Theorem resume_position_is_the_decoded_token (q : option QueryString) (key : value) :
  startKeyOf (commandFor (fst (parseQueryParameters q))) = Some key
  <-> exists qs token,
        q = Some qs /\ qNextToken qs = Some token /\ tokenText token <> ""
        /\ decoded token = Json key /\ truthy key = true.
Proof.
  assert (S : forall p, startKeyOf (commandFor p)
                        = if truthy (lastEvaluatedKey p) then Some (lastEvaluatedKey p)
                          else None).
  { intros p. unfold commandFor. destruct (status p); reflexivity. }
  rewrite S. destruct q as [qs|].
  - rewrite key_parsed. destruct (qNextToken qs) as [token|] eqn:T.
    + unfold nonEmpty. destruct (String.eqb (tokenText token) "") eqn:E; cbn [negb].
      * apply String.eqb_eq in E. split; [discriminate|].
        intros (qs' & token' & [= <-] & Ht & Hne & _). congruence.
      * assert (Hne : tokenText token <> "")
          by (intros H; rewrite H in E; discriminate).
        destruct (decoded token) as [|v] eqn:D.
        -- split; [discriminate|].
           intros (qs' & token' & [= <-] & Ht & _ & Hd & _). congruence.
        -- destruct (truthy v) eqn:V.
           ++ split.
              ** intros [= <-]. exists qs, token. repeat split; assumption.
              ** intros (qs' & token' & [= <-] & Ht & _ & Hd & _). congruence.
           ++ split; [discriminate|].
              intros (qs' & token' & [= <-] & Ht & _ & Hd & Hk).
              assert (v = key) by congruence. subst. congruence.
    + split; [discriminate|].
      intros (qs' & token' & [= <-] & Ht & _). congruence.
  - split; [discriminate|]. intros (qs' & token' & H & _). discriminate.
Qed.

Section WithCoercion.

Variable toNumberOther : value -> number.

Lemma enrichAll_unreadable (orders : list Item) :
  forallb orderReadable orders = false ->
  enrichAll toNumberOther orders = Throw TypeError.
Proof.
  induction orders as [|o rest IH]; intros H; [discriminate|].
  cbn [forallb] in H. cbn [enrichAll].
  destruct (orderReadable o) eqn:R.
  - destruct (GetOrderFacts.enrich_readable toNumberOther o R) as (t & ->).
    cbn [bind]. now rewrite (IH H).
  - now rewrite (GetOrderMore.enrich_unreadable toNumberOther o R).
Qed.


(** One order with a [null] item fails the whole page: the answer is 500
    and no order is returned. *)
Theorem unreadable_order_fails_the_page (env : Env) (event : Event) (result : DbResult) :
  let queryParams := fst (parseQueryParameters (queryStringParameters event)) in
  ddbSend env (commandFor queryParams) = Ok result ->
  forallb orderReadable (listedOrders env queryParams result) = false ->
  statusCode (fst (handler toNumberOther env event)) = 500%nat
  /\ returnedOrders (fst (handler toNumberOther env event)) = [].
Proof.
  cbv zeta. unfold handler.
  destruct (parseQueryParameters (queryStringParameters event)) as [queryParams parseLog].
  cbn [fst]. intros Hs Hr. rewrite Hs.
  rewrite (enrichAll_unreadable _ Hr). split; reflexivity.
Qed.

(** The list handler never turns a request down: whatever the query
    string, the answer is 200 or 500, never 400.  A fault of the store is
    answered 500 with the request id, whatever the exception (the 429 and
    404 branches of the handler test [error.code], which the exceptions of
    the client do not carry), and logged as an error. *)
Theorem listing_never_rejects (env : Env) (event : Event) :
  let queryParams := fst (parseQueryParameters (queryStringParameters event)) in
  let response := fst (handler toNumberOther env event) in
  (statusCode response = 200%nat \/ statusCode response = 500%nat)
  /\ (forall name, ddbSend env (commandFor queryParams) = Throw (AwsError name) ->
        statusCode response = 500%nat
        /\ getPropOpt (responseBody response) "requestId"
           = VString (requestIdOf event)
        /\ returnedOrders response = []
        /\ In ("error", "Unexpected error processing list orders request")
              (snd (handler toNumberOther env event))).
Proof.
  cbv zeta.
  assert (Er : forall e, statusCode (errorResponse event e) = 500%nat).
  { intros e. unfold errorResponse. destruct e; reflexivity. }
  unfold handler.
  destruct (parseQueryParameters (queryStringParameters event)) as [queryParams parseLog].
  cbn [fst]. split.
  - destruct (ddbSend env (commandFor queryParams)) as [result|e].
    + destruct (enrichAll toNumberOther _); cbn [fst]; [now left|].
      right. apply Er.
    + cbn [fst]. right. apply Er.
  - intros name ->. cbn [fst snd]. repeat split.
    rewrite !in_app_iff. right. now left.
Qed.

End WithCoercion.


Lemma listing_never_rejects_witness :
  statusCode (fst (handler noCoercion throttledEnv reviewRequest)) = 500%nat
  /\ In ("error", "Unexpected error processing list orders request")
        (snd (handler noCoercion throttledEnv reviewRequest)).
Proof.
  destruct (proj2 (listing_never_rejects noCoercion throttledEnv reviewRequest)
              "ProvisionedThroughputExceededException" eq_refl)
    as (H1 & _ & _ & H2).
  split; [exact H1|exact H2].
Defined.

Lemma unreadable_order_fails_the_page_witness :
  statusCode (fst (handler noCoercion brokenPageEnv reviewRequest)) = 500%nat
  /\ returnedOrders (fst (handler noCoercion brokenPageEnv reviewRequest)) = [].
Proof.
  apply (unreadable_order_fails_the_page noCoercion brokenPageEnv reviewRequest
           {| Items := Some [pendingOrder "o1" "Alice" [lineItem "x" 1 10]; brokenOrder];
              LastEvaluatedKey := None |}); reflexivity.
Defined.

End ListOrdersMore.

(** ** Health check *)

Module HealthCheckFacts.
Import JS HealthCheck Samples.

(** The health check answers 200 with the overall status healthy and the
    request id in its header in every case: a failing queue call is caught
    inside [checkSQSHealth], so the 503 branch is never taken. *)
Theorem health_check_always_answers_200 (env : Env) (context : Context) :
  statusCode (handler env context) = 200%nat
  /\ xRequestId (handler env context) = awsRequestId context
  /\ getPropOpt (responseBody (handler env context)) "status" = VString "healthy".
Proof.
  unfold handler, checkDynamoDBHealth, checkSQSHealth. cbn [bind].
  destruct (QUEUE_URL (processEnv env)) as [url|]; [|repeat split].
  destruct (String.eqb url ""); [repeat split|].
  destruct (sqsSend env url); repeat split.
Qed.

(** The queue is reported unhealthy, with the error's message, exactly
    when a queue is configured and the call to it fails; an answer without
    a message count is reported with the count "0". *)
Theorem queue_status_reflects_the_call (env : Env) (context : Context) :
  (sqsStatus (handler env context) = VString "unhealthy"
   <-> exists url message,
         configuredQueue env = Some url /\ sqsSend env url = SendFails message)
  /\ (sqsStatus (handler env context) = VString "unhealthy"
      \/ sqsStatus (handler env context) = VString "healthy")
  /\ (forall url Attributes,
        configuredQueue env = Some url ->
        sqsSend env url = SendResult Attributes ->
        getPropOpt (getPropOpt (getPropOpt (responseBody (handler env context))
                                  "services") "sqs") "messageCount"
        = VString (messageCount Attributes)
        /\ messageCount Attributes <> "").
Proof.
  unfold sqsStatus, configuredQueue, handler, checkDynamoDBHealth, checkSQSHealth.
  cbn [bind].
  destruct (QUEUE_URL (processEnv env)) as [url|].
  - destruct (String.eqb url "") eqn:E.
    + split; [split; [discriminate|intros (u & m & H & _); discriminate]|].
      split; [now right|]. intros u a H. discriminate.
    + destruct (sqsSend env url) as [message|attrs] eqn:S.
      * split; [split; [intros _; now exists url, message|reflexivity]|].
        split; [now left|]. intros u a [= <-] H. congruence.
      * split; [split; [discriminate|intros (u & m & [= <-] & H); congruence]|].
        split; [now right|]. intros u a [= <-] H.
        assert (a = attrs) as -> by congruence. split; [reflexivity|].
        unfold messageCount. destruct attrs as [l|]; [|discriminate].
        destruct (GetOrder.assoc "ApproximateNumberOfMessages" l) as [n|];
          [|discriminate].
        destruct (String.eqb n "") eqn:N; [discriminate|].
        intros ->. discriminate.
  - split; [split; [discriminate|intros (u & m & H & _); discriminate]|].
    split; [now right|]. intros u a H. discriminate.
Qed.

End HealthCheckFacts.

(** ** From intake to processing *)

Module Pipeline.
Import JS OrderValue Processor Shapes.

Lemma storedItemOk_wellTyped (item : value) :
  storedItemOk item = true -> wellTypedItem item = true.
Proof.
  unfold storedItemOk, wellTypedItem. destruct item as [| | | | | |props]; try discriminate.
  destruct (lookupProp "sku" props); try discriminate.
  destruct (lookupProp "qty" props) as [| | |q| | |]; try discriminate.
  destruct (lookupProp "price" props) as [| | |p| | |]; try discriminate.
  reflexivity.
Qed.

Lemma storedItems_wellTyped (items : list value) :
  forallb storedItemOk items = true -> wellTypedItems items = true.
Proof.
  unfold wellTypedItems. induction items as [|item rest IH]; [reflexivity|].
  cbn [forallb]. intros H. apply andb_true_iff in H as [Hi Hr].
  now rewrite (storedItemOk_wellTyped item Hi), (IH Hr).
Qed.

Section WithCoercion.

Variable toNumberOther : value -> number.

(** An order the intake accepted is always processed: the event it
    published names the stored order and carries items the processor can
    total, so (the store not faulting) the message succeeds and the status
    becomes the one the transition rule gives for the stored items. *)
Theorem accepted_order_is_processed_by_rule
  (intake : CreateOrder.Env) (env : Env) (event : CreateOrder.Event) (v : value)
  (tbl : table) (queue : list value) (mid : string) :
  CreateOrder.eventBody event = Some (Json v) ->
  CreateOrder.rejects v = false ->
  CreateOrder.putFault intake = None ->
  CreateOrder.sendFault intake = None ->
  tbl !! CreateOrder.uuid intake = None ->
  CreateOrder.uuid intake <> "" ->
  fault env 0 = None ->
  let created := CreateOrder.handler intake event tbl queue in
  let message := CreateOrder.eventMessage intake (CreateOrder.newOrder intake v) in
  let stored := map CreateOrder.storedItem (CreateOrder.itemsOf v) in
  let after := handler toNumberOther env
                 [{| messageId := mid; body := Json message |}] (snd (fst created)) in
  snd created = (queue ++ [message])%list
  /\ snd after = []
  /\ statusOf (fst after) (CreateOrder.uuid intake)
     = Some (VString (fst (ruleOutcome (List.length stored) (specTotalValue stored)))).
Proof.
  intros Hb R Hp Hs Hl Hne Hf. cbv zeta.
  destruct (CreateOrderMore.rejects_false_shape v R)
    as (props & name & first & rest & -> & En & Hn & Ei & Hbad).
  assert (Hrun : CreateOrder.handler intake event tbl queue
                 = (CreateOrder.createdResponse (CreateOrder.uuid intake)
                      (CreateOrder.timestamp intake),
                    <[CreateOrder.uuid intake
                      := CreateOrder.newOrder intake (VObject props)]> tbl,
                    (queue ++ [CreateOrder.eventMessage intake
                                 (CreateOrder.newOrder intake (VObject props))])%list)).
  { unfold CreateOrder.handler. rewrite Hb. cbn [JSON_parse].
    rewrite (CreateOrderMore.accepted_body_validates _ R).
    unfold CreateOrder.ddbPut. rewrite Hp, Hl.
    unfold CreateOrder.sqsSend. rewrite Hs. reflexivity. }
  rewrite Hrun. cbn [fst snd]. split; [reflexivity|].
  assert (Hitems : CreateOrder.itemsOf (VObject props) = first :: rest).
  { unfold CreateOrder.itemsOf, getPropOpt. cbn [getProp]. now rewrite Ei. }
  rewrite Hitems.
  set (stored := map CreateOrder.storedItem (first :: rest)).
  set (detail := VObject [("id", VString (CreateOrder.uuid intake));
                          ("customerName", VString (CreateOrder.trim name));
                          ("items", VArray stored);
                          ("createdAt", VString (CreateOrder.timestamp intake))]).
  assert (Hmsg : CreateOrder.eventMessage intake
                   (CreateOrder.newOrder intake (VObject props))
                 = VObject [("type", VString "OrderCreated");
                            ("timestamp", VString (CreateOrder.timestamp intake));
                            ("detail", detail)]).
  { unfold CreateOrder.eventMessage, CreateOrder.newOrder, getPropOpt, detail, stored.
    cbn [getProp]. rewrite En, Ei. reflexivity. }
  rewrite Hmsg.
  assert (Hw : wellTypedItems stored = true).
  { apply storedItems_wellTyped.
    apply (CreateOrderMore.accepted_items_stored_ok _ Hbad). }
  assert (Hrule : processOrderCreated toNumberOther detail
                  = Ok (ruleOutcome (List.length stored) (specTotalValue stored))).
  { apply ProcessorRules.processOrderCreated_rule; [reflexivity|exact Hw]. }
  unfold handler. cbn [processRecords].
  rewrite (ProcessorMore.processRecord_updated toNumberOther (fault env 0) (now env 0)
             (<[CreateOrder.uuid intake
                := CreateOrder.newOrder intake (VObject props)]> tbl)
             {| messageId := mid;
                body := Json (VObject [("type", VString "OrderCreated");
                                       ("timestamp",
                                        VString (CreateOrder.timestamp intake));
                                       ("detail", detail)]) |}
             (VObject [("type", VString "OrderCreated");
                       ("timestamp", VString (CreateOrder.timestamp intake));
                       ("detail", detail)])
             detail (CreateOrder.uuid intake)
             (ruleOutcome (List.length stored) (specTotalValue stored))
             (CreateOrder.newOrder intake (VObject props))
             eq_refl eq_refl eq_refl eq_refl Hne Hrule Hf (lookup_insert_eq _ _ _)).
  cbn [pushesFailure fst snd]. split; [reflexivity|].
  unfold statusOf. rewrite lookup_insert_eq. reflexivity.
Qed.

End WithCoercion.

Lemma accepted_order_is_processed_by_rule_witness :
  let created := CreateOrder.handler CreateOrder.intakeEnv
                   (CreateOrder.request CreateOrder.aliceOrder) ∅ [] in
  let message := CreateOrder.eventMessage CreateOrder.intakeEnv
                   (CreateOrder.newOrder CreateOrder.intakeEnv CreateOrder.aliceOrder) in
  let stored := map CreateOrder.storedItem (CreateOrder.itemsOf CreateOrder.aliceOrder) in
  let after := handler noCoercion calmEnv
                 [{| messageId := "m1"; body := Json message |}] (snd (fst created)) in
  snd created = ([] ++ [message])%list
  /\ snd after = []
  /\ statusOf (fst after) (CreateOrder.uuid CreateOrder.intakeEnv)
     = Some (VString (fst (ruleOutcome (List.length stored) (specTotalValue stored)))).
Proof.
  apply (accepted_order_is_processed_by_rule noCoercion CreateOrder.intakeEnv calmEnv
           (CreateOrder.request CreateOrder.aliceOrder) CreateOrder.aliceOrder
           ∅ [] "m1"); try reflexivity.
  discriminate.
Defined.

End Pipeline.
